(** * gpu-pipeline: the metrics orchestrator of [gpu_script.py]

    A shallow embedding of the sample orchestrator, its metrics extraction
    and the batch scheduler/aggregator of [gpu_script.py], together with the
    stage runners of [pipeline_functions.py].

    Conventions.
    - Text is a list of characters; a character is a code point below 256
      (Latin-1), so the Python predicates on characters are given on that
      range.
    - A Python [float] is kept as the exact value it denotes ([Q]), plus the
      two infinities and NaN; rounding to binary64 is not part of the model.
    - External programs, the file system and clocks are read from an
      explicit environment record; a Python exception is a value of
      [pyexc] carried by [result]. *)

From Stdlib Require Import ZArith QArith Ascii String List Permutation DecimalString.
From stdpp Require Import gmap strings list fin_maps.
Import ListNotations.

Local Open Scope Z_scope.

Abbreviation text := (list ascii).

Definition txt (s : string) : text := list_ascii_of_string s.

(** ** Python values, exceptions *)

Inductive pyfloat :=
| FFinite (q : Q)
| FInf (negative : bool)
| FNaN.

Inductive pyval :=
| PNone
| PStr (s : text)
| PInt (z : Z)
| PFloat (f : pyfloat).

Inductive pyexc :=
| ValueError
| IndexError
| OSError
| CalledProcessError
| SystemExit (code : Z).

(** [except Exception] catches everything but [SystemExit]. *)
Definition is_Exception (e : pyexc) : bool :=
  match e with
  | SystemExit _ => false
  | _ => true
  end.

Inductive result (A : Type) :=
| Ok (a : A)
| Raise (e : pyexc).
Arguments Ok {A} a.
Arguments Raise {A} e.

#[global] Instance result_ret : MRet result := @Ok.

#[global] Instance result_bind : MBind result := fun A B k r =>
  match r with
  | Ok a => k a
  | Raise e => Raise e
  end.

(** ** The string methods the scripts use *)

Module PyStr.

Definition code (a : ascii) : nat := nat_of_ascii a.

Definition in_range (lo hi : nat) (a : ascii) : bool :=
  (lo <=? code a)%nat && (code a <=? hi)%nat.

(** [str.isspace] on one character: TAB..CR, FS..US, space, NEL, NBSP. *)
Definition is_space (a : ascii) : bool :=
  in_range 9 13 a || in_range 28 32 a
  || (code a =? 133)%nat || (code a =? 160)%nat.

(** Decimal digits (what [\d], [int] and [float] read). *)
Definition is_decimal (a : ascii) : bool := in_range 48 57 a.

(** [str.isdigit] on one character also accepts the superscripts
    U+00B2, U+00B3 and U+00B9. *)
Definition is_digit_char (a : ascii) : bool :=
  is_decimal a || (code a =? 178)%nat || (code a =? 179)%nat
  || (code a =? 185)%nat.

Definition isdigit (s : text) : bool :=
  match s with
  | [] => false
  | _ => forallb is_digit_char s
  end.

Definition digit_value (a : ascii) : Z := Z.of_nat (code a) - 48.

Fixpoint lstrip (s : text) : text :=
  match s with
  | a :: s' => if is_space a then lstrip s' else s
  | [] => []
  end.

Definition rstrip (s : text) : text := rev (lstrip (rev s)).

Definition strip (s : text) : text := rstrip (lstrip s).

Fixpoint startswith (s p : text) : bool :=
  match p, s with
  | [], _ => true
  | b :: p', a :: s' => Ascii.eqb a b && startswith s' p'
  | _ :: _, [] => false
  end.

Definition endswith (s p : text) : bool := startswith (rev s) (rev p).

(** [p in s] *)
Fixpoint contains (s p : text) : bool :=
  startswith s p ||
  match s with
  | [] => false
  | _ :: s' => contains s' p
  end.

(** [s.replace(c, '')] for a one-character [c]. *)
Definition remove_char (c : ascii) (s : text) : text :=
  List.filter (fun a => negb (Ascii.eqb a c)) s.

(** [s.split()]: the maximal runs of non-space characters. *)
Fixpoint split_ws_aux (cur : text) (s : text) : list text :=
  match s with
  | [] => match cur with [] => [] | _ => [rev cur] end
  | a :: s' =>
      if is_space a
      then match cur with
           | [] => split_ws_aux [] s'
           | _ => rev cur :: split_ws_aux [] s'
           end
      else split_ws_aux (a :: cur) s'
  end.

Definition split (s : text) : list text := split_ws_aux [] s.

(** [s.split(c)] for a one-character separator: empty pieces are kept. *)
Fixpoint split_char_aux (c : ascii) (cur : text) (s : text) : list text :=
  match s with
  | [] => [rev cur]
  | a :: s' =>
      if Ascii.eqb a c
      then rev cur :: split_char_aux c [] s'
      else split_char_aux c (a :: cur) s'
  end.

Definition split_char (c : ascii) (s : text) : list text :=
  split_char_aux c [] s.

(** [s.split(sep)] for a non-empty separator [sep]; [skip] counts the
    characters of a separator that was just recognised. *)
Fixpoint split_sep_aux (sep : text) (skip : nat) (cur : text) (s : text)
  : list text :=
  match s with
  | [] => [rev cur]
  | a :: s' =>
      match skip with
      | S k => split_sep_aux sep k cur s'
      | O =>
          if startswith s sep
          then rev cur :: split_sep_aux sep (length sep - 1) [] s'
          else split_sep_aux sep O (a :: cur) s'
      end
  end.

Definition split_sep (sep : text) (s : text) : list text :=
  split_sep_aux sep O [] s.

(** The line boundaries of [str.splitlines]: LF, VT, FF, CR, FS, GS, RS
    and NEL; CR LF counts once. *)
Definition is_linebreak (a : ascii) : bool :=
  in_range 10 13 a || in_range 28 30 a || (code a =? 133)%nat.

Fixpoint splitlines_aux (cur : text) (s : text) : list text :=
  match s with
  | [] => match cur with [] => [] | _ => [rev cur] end
  | a :: s' =>
      if is_linebreak a
      then rev cur ::
           match s' with
           | b :: s'' =>
               if ((code a =? 13)%nat && (code b =? 10)%nat)%bool
               then splitlines_aux [] s''
               else splitlines_aux [] s'
           | [] => []
           end
      else splitlines_aux (a :: cur) s'
  end.

Definition splitlines (s : text) : list text := splitlines_aux [] s.

Definition nl : ascii := ascii_of_nat 10.

(** The lines of a file opened in text mode (universal newlines): each
    of LF, CR LF and CR ends a line and is read as LF; the line keeps it. *)
Fixpoint file_lines_aux (cur : text) (s : text) : list text :=
  match s with
  | [] => match cur with [] => [] | _ => [rev cur] end
  | a :: s' =>
      if (code a =? 10)%nat
      then rev (nl :: cur) :: file_lines_aux [] s'
      else if (code a =? 13)%nat
      then rev (nl :: cur) ::
           match s' with
           | b :: s'' =>
               if (code b =? 10)%nat
               then file_lines_aux [] s''
               else file_lines_aux [] s'
           | [] => []
           end
      else file_lines_aux (a :: cur) s'
  end.

Definition file_lines (s : text) : list text := file_lines_aux [] s.

Definition lower (a : ascii) : ascii :=
  if in_range 65 90 a then ascii_of_nat (code a + 32) else a.

Definition text_eqb (s t : text) : bool :=
  bool_decide (s = t).

End PyStr.

(** ** [int(s)] and [float(s)] on text *)

Module PyNum.
Import PyStr.

(** A digit part: digits, with single underscores between two digits.
    Returns the digits read (most significant first) and what follows. *)
Fixpoint digitpart_tail (s : text) : list Z * text :=
  match s with
  | a :: s' =>
      if is_decimal a
      then let '(ds, r) := digitpart_tail s' in (digit_value a :: ds, r)
      else if (code a =? 95)%nat
      then match s' with
           | b :: _ =>
               if is_decimal b
               then digitpart_tail s'
               else ([], s)
           | [] => ([], s)
           end
      else ([], s)
  | [] => ([], [])
  end.

Definition digitpart (s : text) : option (list Z * text) :=
  match s with
  | a :: _ => if is_decimal a then Some (digitpart_tail s) else None
  | [] => None
  end.

Definition digits_value (ds : list Z) : Z :=
  fold_left (fun acc d => 10 * acc + d) ds 0.

(** An optional sign; [true] stands for a minus. *)
Definition sign (s : text) : bool * text :=
  match s with
  | a :: s' =>
      if (code a =? 45)%nat then (true, s')
      else if (code a =? 43)%nat then (false, s')
      else (false, s)
  | [] => (false, [])
  end.

Definition apply_sign (neg : bool) (z : Z) : Z := if neg then - z else z.

(** [int(s)], base ten. *)
Definition py_int (s : text) : result Z :=
  let '(neg, s1) := sign (strip s) in
  match digitpart s1 with
  | Some (ds, []) => Ok (apply_sign neg (digits_value ds))
  | _ => Raise ValueError
  end.

(** The exponent of a float literal, when there is one. *)
Definition exponent (s : text) : option (Z * text) :=
  match s with
  | [] => Some (0, [])
  | a :: s' =>
      if ((code a =? 101)%nat || (code a =? 69)%nat)%bool
      then let '(neg, s1) := sign s' in
           match digitpart s1 with
           | Some (ds, r) => Some (apply_sign neg (digits_value ds), r)
           | None => None
           end
      else Some (0, s)
  end.

Definition pow10 (e : Z) : Q :=
  if 0 <=? e then inject_Z (10 ^ e) else 1 # Z.to_pos (10 ^ (- e)).

(** The value of [int_digits . frac_digits e exp]. *)
Definition decimal_value (ip fp : list Z) (e : Z) : Q :=
  (inject_Z (digits_value (ip ++ fp))
   * pow10 (e - Z.of_nat (length fp)))%Q.

(** The unsigned number of a float literal: [12], [12.], [12.5], [.5],
    each with an optional exponent. *)
Definition floatnumber (s : text) : option Q :=
  match digitpart s with
  | Some (ip, r) =>
      match r with
      | d :: r' =>
          if (code d =? 46)%nat
          then match digitpart r' with
               | Some (fp, r'') =>
                   match exponent r'' with
                   | Some (e, []) => Some (decimal_value ip fp e)
                   | _ => None
                   end
               | None =>
                   match exponent r' with
                   | Some (e, []) => Some (decimal_value ip [] e)
                   | _ => None
                   end
               end
          else match exponent r with
               | Some (e, []) => Some (decimal_value ip [] e)
               | _ => None
               end
      | [] => Some (decimal_value ip [] 0)
      end
  | None =>
      match s with
      | d :: r' =>
          if (code d =? 46)%nat
          then match digitpart r' with
               | Some (fp, r'') =>
                   match exponent r'' with
                   | Some (e, []) => Some (decimal_value [] fp e)
                   | _ => None
                   end
               | None => None
               end
          else None
      | [] => None
      end
  end.

Definition fneg (neg : bool) (q : Q) : Q := if neg then (- q)%Q else q.

(** [float(s)]. *)
Definition py_float (s : text) : result pyfloat :=
  let '(neg, s1) := sign (strip s) in
  let w := map lower s1 in
  if text_eqb w (txt "inf") || text_eqb w (txt "infinity")
  then Ok (FInf neg)
  else if text_eqb w (txt "nan")
  then Ok FNaN
  else match floatnumber s1 with
       | Some q => Ok (FFinite (fneg neg q))
       | None => Raise ValueError
       end.

(** Arithmetic on floats, as far as the scripts use it. *)
Definition fadd (a b : pyfloat) : pyfloat :=
  match a, b with
  | FNaN, _ | _, FNaN => FNaN
  | FInf s, FInf t => if Bool.eqb s t then FInf s else FNaN
  | FInf s, FFinite _ | FFinite _, FInf s => FInf s
  | FFinite x, FFinite y => FFinite (x + y)
  end.

(** [a / n] for a positive integer [n]. *)
Definition fdiv_pos (a : pyfloat) (n : positive) : pyfloat :=
  match a with
  | FFinite x => FFinite (x / inject_Z (Zpos n))
  | other => other
  end.

End PyNum.

(** ** The regular expressions of [parse_parabricks_output]

    The fragment of Python's [re] the patterns are written in: literal
    characters, the classes [\d], [\s], [[\d.]] and [.], each taken once or
    under [+], [*] or the lazy [*?], and capture groups around them.  The
    matcher backtracks in the order of [re]: a greedy repetition tries the
    longest run first, a lazy one the shortest. *)

Module Re.
Import PyStr.

Inductive cclass :=
| CChar (a : ascii)
| CDigit
| CSpace
| CDigitDot
| CAny (dotall : bool).

Inductive quant := One | Plus | Star | LazyStar.

Inductive item :=
| Atom (c : cclass) (q : quant)
| GOpen
| GClose.

Definition regex := list item.

Definition cmatch (c : cclass) (a : ascii) : bool :=
  match c with
  | CChar b => Ascii.eqb a b
  | CDigit => is_decimal a
  | CSpace => is_space a
  | CDigitDot => is_decimal a || (code a =? 46)%nat
  | CAny dotall => dotall || negb (code a =? 10)%nat
  end.

(** Groups closed so far (in order), and where the open group began. *)
Record caps := { closed : list text; opened : text }.

Definition open_group (st : caps) (s : text) : caps :=
  {| closed := closed st; opened := s |}.

Definition close_group (st : caps) (s : text) : caps :=
  {| closed := closed st ++ [take (length (opened st) - length s) (opened st)];
     opened := opened st |}.

(** A match anchored at the start of [s]: the groups and the rest. *)
Fixpoint match_here (r : regex) (s : text) (st : caps) {struct r}
  : option (list text * text) :=
  match r with
  | [] => Some (closed st, s)
  | GOpen :: r' => match_here r' s (open_group st s)
  | GClose :: r' => match_here r' s (close_group st s)
  | Atom c One :: r' =>
      match s with
      | a :: s' => if cmatch c a then match_here r' s' st else None
      | [] => None
      end
  | Atom c Star :: r' =>
      (fix star (s : text) : option (list text * text) :=
         match s with
         | a :: s' =>
             if cmatch c a
             then match star s' with
                  | Some m => Some m
                  | None => match_here r' s st
                  end
             else match_here r' s st
         | [] => match_here r' s st
         end) s
  | Atom c Plus :: r' =>
      match s with
      | a :: s1 =>
          if cmatch c a
          then (fix star (s : text) : option (list text * text) :=
                  match s with
                  | a :: s' =>
                      if cmatch c a
                      then match star s' with
                           | Some m => Some m
                           | None => match_here r' s st
                           end
                      else match_here r' s st
                  | [] => match_here r' s st
                  end) s1
          else None
      | [] => None
      end
  | Atom c LazyStar :: r' =>
      (fix lazy (s : text) : option (list text * text) :=
         match match_here r' s st with
         | Some m => Some m
         | None =>
             match s with
             | a :: s' => if cmatch c a then lazy s' else None
             | [] => None
             end
         end) s
  end.

Definition no_caps : caps := {| closed := []; opened := [] |}.

(** [re.search]: the match at the leftmost position that has one. *)
Fixpoint search (r : regex) (s : text) : option (list text * text) :=
  match match_here r s no_caps with
  | Some m => Some m
  | None =>
      match s with
      | _ :: s' => search r s'
      | [] => None
      end
  end.

(** [m.group(1)] *)
Definition group1 (m : list text * text) : text := nth 0 (fst m) [].
Definition group2 (m : list text * text) : text := nth 1 (fst m) [].
Definition group3 (m : list text * text) : text := nth 2 (fst m) [].

(** [re.findall] for a pattern with one group: the group of each match,
    left to right, the matches not overlapping.  [skip] is the number of
    characters of the last match still to be passed. *)
Fixpoint findall_from (r : regex) (skip : nat) (s : text) : list text :=
  match skip with
  | S k =>
      match s with
      | _ :: s' => findall_from r k s'
      | [] => []
      end
  | O =>
      match match_here r s no_caps with
      | Some m =>
          group1 m ::
          match s with
          | _ :: s' => findall_from r (length s - length (snd m) - 1) s'
          | [] => []
          end
      | None =>
          match s with
          | _ :: s' => findall_from r O s'
          | [] => []
          end
      end
  end.

Definition findall (r : regex) (s : text) : list text := findall_from r O s.

(** Pattern text. *)
Definition lit (s : string) : regex :=
  map (fun a => Atom (CChar a) One) (list_ascii_of_string s).

Definition group (r : regex) : regex := GOpen :: r ++ [GClose].

End Re.

(** ** [parse_parabricks_output] *)

Module Extract.
Import PyStr PyNum Re.

(** A metrics dictionary. *)
Abbreviation dict := (gmap string pyval).

(** The sentinel of the per-sample row. *)
Definition NA : pyval := PStr (txt "NA").

(** [d.get(key, "NA")] *)
Definition get_or_NA (d : dict) (key : string) : pyval :=
  default NA (d !! key).

Definition pat_bwa_time : regex :=
  lit "bwalib run finished in " ++ group [Atom CDigitDot Plus]
  ++ lit " seconds".

Definition pat_sorting_time : regex :=
  lit "Sorting and Marking: " ++ group [Atom CDigitDot Plus]
  ++ lit " seconds".

Definition pat_bqsr_time : regex :=
  lit "BQSR and writing final BAM:" ++ [Atom CSpace Star]
  ++ group [Atom CDigitDot Plus] ++ lit " seconds".

Definition pat_time_reading : regex :=
  lit "Time spent reading:" ++ [Atom CSpace Star]
  ++ group [Atom CDigitDot Plus] ++ [Atom CSpace Star] ++ lit "seconds".

Definition pat_monitor_time : regex :=
  lit "Time spent monitoring" ++ [Atom (CAny false) LazyStar] ++ lit ":"
  ++ [Atom CSpace Star] ++ group [Atom CDigitDot Plus].

Definition pat_regions_processed : regex :=
  lit "Regions-Processed"
  ++ [Atom CSpace Plus; Atom CDigit Plus;
      Atom CSpace Plus; Atom CDigit Plus; Atom CSpace Plus]
  ++ group [Atom CDigit Plus]
  ++ [Atom CSpace Plus; Atom CDigit Plus].

Definition pat_regions_per_minute : regex :=
  lit "Regions/Minute" ++ [Atom CSpace Plus] ++ group [Atom CDigit Plus].

(** The rate block, compiled with [re.DOTALL]. *)
Definition pat_rate_block : regex :=
  lit "Rate stats" ++ [Atom (CAny true) LazyStar] ++ lit ":"
  ++ [Atom CSpace Star] ++ lit "min rate:" ++ [Atom CSpace Star]
  ++ group [Atom CDigitDot Plus]
  ++ [Atom (CAny true) LazyStar] ++ lit "max rate:" ++ [Atom CSpace Star]
  ++ group [Atom CDigitDot Plus]
  ++ [Atom (CAny true) LazyStar] ++ lit "avg rate:" ++ [Atom CSpace Star]
  ++ group [Atom CDigitDot Plus].

Definition rules : list (string * regex) :=
  [ ("bwa_time", pat_bwa_time);
    ("sorting_time", pat_sorting_time);
    ("bqsr_time", pat_bqsr_time);
    ("time_reading", pat_time_reading);
    ("monitor_time", pat_monitor_time);
    ("regions_processed", pat_regions_processed);
    ("regions_per_minute", pat_regions_per_minute) ]%string.

(** [metrics[key] = float(g)] *)
Definition set_float (key : string) (g : text) (metrics : dict)
  : result dict :=
  v ← py_float g; Ok (<[key := PFloat v]> metrics).

(** One turn of the [for key, pattern in ...] loop. *)
Definition rule_step (kp : string * regex) (output_str : text)
    (metrics : dict) : result dict :=
  match search (snd kp) output_str with
  | Some m => set_float (fst kp) (group1 m) metrics
  | None => Ok metrics
  end.

Definition rate_block_step (output_str : text) (metrics : dict)
  : result dict :=
  match search pat_rate_block output_str with
  | Some rate_block =>
      m1 ← set_float "min_rate" (group1 rate_block) metrics;
      m2 ← set_float "max_rate" (group2 rate_block) m1;
      set_float "avg_rate" (group3 rate_block) m2
  | None => Ok metrics
  end.

(** [if key not in metrics: ... findall ... [-1]] *)
Definition fallback_step (key : string) (pattern : regex)
    (output_str : text) (metrics : dict) : result dict :=
  match metrics !! key with
  | Some _ => Ok metrics
  | None =>
      match last (findall pattern output_str) with
      | Some g => set_float key g metrics
      | None => Ok metrics
      end
  end.

(** The statements of the function body, in order. *)
Definition steps : list (text -> dict -> result dict) :=
  map rule_step rules
  ++ [ rate_block_step;
       fallback_step "regions_processed" pat_regions_processed;
       fallback_step "regions_per_minute" pat_regions_per_minute ].

Fixpoint run_steps (sts : list (text -> dict -> result dict))
    (output_str : text) (metrics : dict) : result dict :=
  match sts with
  | [] => Ok metrics
  | st :: sts' => m ← st output_str metrics; run_steps sts' output_str m
  end.

Definition parse_parabricks_output (output_str : text) : result dict :=
  run_steps steps output_str ∅.

(** [m'] has every key of [m]. *)
Definition grows (m m' : dict) : Prop :=
  forall k, is_Some (m !! k) -> is_Some (m' !! k).

(** No value of [m] is the sentinel ["NA"] or [None]. *)
Definition captured (m : dict) : Prop :=
  forall k v, m !! k = Some v -> v <> NA /\ v <> PNone.

(** A statement of the body keeps what the dictionary holds. *)
Definition step_keeps (st : text -> dict -> result dict) : Prop :=
  forall s m m', st s m = Ok m' ->
                 grows m m' /\ (captured m -> captured m').

(** A statement that raises nothing but [ValueError]. *)
Definition raises_ValueError (st : text -> dict -> result dict) : Prop :=
  forall s m e, st s m = Raise e -> e = ValueError.

(** The value a key has after its turn of the loop: the first match. *)
Definition first_match (pat : regex) (s : text) : option pyval :=
  match search pat s with
  | Some m =>
      match py_float (group1 m) with
      | Ok v => Some (PFloat v)
      | Raise _ => None
      end
  | None => None
  end.

End Extract.

(** ** Log records and the events of a run *)

Inductive log_site :=
| AtCondaEnv | AtFastqMissing | AtCountReads | AtFlagstatParse
| AtFlagstatRead | AtCountVariants | AtGpuMonitor | AtIostatMissing
| AtDiskIO | AtQualityReports | AtFq2bam | AtHaplotypeCaller
| AtProcessSamples | AtMerge | AtProcessing.

Inductive stage := Fq2bam | HaplotypeCaller.

Inductive event :=
| LogError (site : log_site) (subject : text) (exc : option pyexc)
    (attached : text)
| LogInfo (site : log_site) (subject : text) (attached : text)
| StartMonitor
| StartStage (st : stage)
| WriteCsv (path : text) (rows : list (list pyval)).

(** ** [parse_quality_reports] *)

Module Quality.
Import PyStr PyNum Extract.

(** A block of statements that updates [metrics] in place and may stop on
    an exception: the dictionary as the block leaves it, and the
    exception, if one was raised. *)
Definition upd := dict -> dict * option pyexc.

Definition skip : upd := fun metrics => (metrics, None).

Definition throw (e : pyexc) : upd := fun metrics => (metrics, Some e).

Definition andthen (f g : upd) : upd := fun metrics =>
  match f metrics with
  | (m, None) => g m
  | stopped => stopped
  end.

(** [metrics[key] = v], where evaluating [v] may raise. *)
Definition assign (key : string) (v : result pyval) : upd := fun metrics =>
  match v with
  | Ok x => (<[key := x]> metrics, None)
  | Raise e => (metrics, Some e)
  end.

(** [l[i]] *)
Definition index {A} (l : list A) (i : nat) : result A :=
  match l !! i with
  | Some x => Ok x
  | None => Raise IndexError
  end.

Definition float_of (tok : result text) : result pyval :=
  t ← tok; f ← py_float t; Ok (PFloat f).

(** The loop over [enumerate(lines)] of the insert-size report; [lines]
    is the part of the file from the current line on. *)
Fixpoint insert_size_loop (lines : list text) : upd :=
  match lines with
  | [] => skip
  | line :: rest =>
      andthen
        (if contains line (txt "MEAN_INSERT_SIZE")
         then match rest with
              | next :: _ =>
                  assign "mean_insert_size" (float_of (index (split next) 0))
              | [] => skip
              end
         else skip)
        (insert_size_loop rest)
  end.

Fixpoint gcbias_loop (lines : list text) : upd :=
  match lines with
  | [] => skip
  | line :: rest =>
      andthen
        (if startswith line (txt "All Reads")
         then assign "gc_bias" (float_of (index (split line) 8))
         else skip)
        (gcbias_loop rest)
  end.

(** The loop of the per-cycle quality report: the values appended to
    [qualities]. *)
Fixpoint quality_loop (lines : list text) (header_passed : bool)
    (qualities : list pyfloat) : result (list pyfloat) :=
  match lines with
  | [] => Ok qualities
  | line :: rest =>
      if match strip line with [] => false | _ => true end
         && negb (startswith line (txt "#"))
      then
        if negb header_passed
        then quality_loop rest true qualities
        else
          let parts := split line in
          match parts !! 1%nat with
          | Some p1 =>
              if isdigit (remove_char "." p1)
              then q ← py_float p1;
                   quality_loop rest header_passed (qualities ++ [q])
              else quality_loop rest header_passed qualities
          | None => quality_loop rest header_passed qualities
          end
      else quality_loop rest header_passed qualities
  end.

(** [sum(qualities) / len(qualities) if qualities else 0] *)
Definition mean (qualities : list pyfloat) : pyval :=
  match qualities with
  | [] => PInt 0
  | _ => PFloat (fdiv_pos (fold_left fadd qualities (FFinite 0))
                          (Pos.of_nat (length qualities)))
  end.

(** A block keeps what the dictionary holds, also when it stops on an
    exception. *)
Definition upd_keeps (u : upd) : Prop :=
  forall m, grows m (fst (u m)) /\ (captured m -> captured (fst (u m))).

(** A block changes no key but [key]. *)
Definition touches_only (key : string) (u : upd) : Prop :=
  forall m k, k <> key -> fst (u m) !! k = m !! k.

(** The three report files of a sample; [None] is a file that cannot be
    opened or read. *)
Record reports := {
  insert_size_txt : option text;
  gcbias_summary_txt : option text;
  mean_quality_by_cycle_txt : option text
}.

Definition with_open (file : option text) (body : list text -> upd) : upd :=
  match file with
  | Some content => body (file_lines content)
  | None => throw OSError
  end.

Definition read_insert_size (r : reports) : upd :=
  with_open (insert_size_txt r) insert_size_loop.

Definition read_gcbias (r : reports) : upd :=
  with_open (gcbias_summary_txt r) gcbias_loop.

Definition read_mean_quality (r : reports) : upd :=
  with_open (mean_quality_by_cycle_txt r) (fun lines =>
    assign "mean_quality" (qs ← quality_loop lines false []; Ok (mean qs))).

(** The body of the [try]. *)
Definition phases (r : reports) : list upd :=
  [read_insert_size r; read_gcbias r; read_mean_quality r].

Definition try_body (r : reports) : upd :=
  fold_right andthen skip (phases r).

Definition parse_quality_reports (sample_id : text) (r : reports)
  : list event * dict :=
  match try_body r ∅ with
  | (metrics, None) => ([], metrics)
  | (metrics, Some e) =>
      ([LogError AtQualityReports sample_id (Some e) []], metrics)
  end.

End Quality.

(** ** Counting reads and variants, resource probes *)

Module Probes.
Import PyStr PyNum Quality.

(** The standard output of an external command run with [check=True];
    [None] when [subprocess.run] raised (the command is missing or its
    exit status is not zero). *)
Abbreviation cmd_output := (option text).

(** [count_reads]: [lines] is the number of lines [gunzip -c] printed,
    [None] when the pipe could not be set up or read. *)
Definition count_reads (fastq_file : text) (lines : option nat)
  : list event * pyval :=
  match lines with
  | Some num_lines => ([], PInt (Z.of_nat num_lines / 4))
  | None =>
      ([LogError AtCountReads fastq_file (Some OSError) []], PNone)
  end.

(** [int(line.split()[0])] *)
Definition first_int (line : text) : result Z :=
  tok ← index (split line) 0; py_int tok.

(** The loop of [count_aligned_reads] over the flagstat lines. *)
Fixpoint flagstat_loop (lines : list text)
    (total_reads properly_paired : option Z)
  : result (option Z * option Z) :=
  match lines with
  | [] => Ok (total_reads, properly_paired)
  | line :: rest =>
      t ← (if contains line (txt "in total")
           then z ← first_int line; Ok (Some z)
           else Ok total_reads);
      p ← (if contains line (txt "properly paired")
           then z ← first_int line; Ok (Some z)
           else Ok properly_paired);
      flagstat_loop rest t p
  end.

(** Truth value of an [int] or [None]. *)
Definition truthy (v : option Z) : bool :=
  match v with
  | Some z => negb (z =? 0)
  | None => false
  end.

Definition int_or_None (v : option Z) : pyval :=
  match v with
  | Some z => PInt z
  | None => PNone
  end.

Definition count_aligned_reads (bam_file : text) (flagstat : cmd_output)
  : list event * (pyval * pyval) :=
  match flagstat with
  | None =>
      ([LogError AtFlagstatRead bam_file (Some CalledProcessError) []],
       (PNone, PNone))
  | Some out =>
      match flagstat_loop (splitlines out) None None with
      | Ok (total_reads, properly_paired) =>
          if truthy total_reads && truthy properly_paired
          then ([], (int_or_None total_reads, int_or_None properly_paired))
          else ([LogError AtFlagstatParse bam_file None []], (PNone, PNone))
      | Raise e =>
          ([LogError AtFlagstatRead bam_file (Some e) []], (PNone, PNone))
      end
  end.

(** The first line of [bcftools stats] with the record count. *)
Fixpoint variants_loop (lines : list text) : result pyval :=
  match lines with
  | [] => Ok PNone
  | line :: rest =>
      if contains line (txt "number of records:")
      then after ← index (split_sep (txt "number of records:") line) 1;
           tok ← index (split (strip after)) 0;
           z ← py_int tok;
           Ok (PInt z)
      else variants_loop rest
  end.

Definition count_variants (vcf_file : text) (bcftools : cmd_output)
  : list event * pyval :=
  match bcftools with
  | None =>
      ([LogError AtCountVariants vcf_file (Some CalledProcessError) []],
       PNone)
  | Some out =>
      match variants_loop (splitlines out) with
      | Ok v => ([], v)
      | Raise e => ([LogError AtCountVariants vcf_file (Some e) []], PNone)
      end
  end.

(** [psutil]: the CPU percentage and the bytes of memory in use. *)
Definition get_cpu_ram_usage (cpu_percent : pyfloat) (used : Z)
  : pyval * pyval :=
  (PFloat cpu_percent, PFloat (FFinite (inject_Z used / inject_Z (1024 * 1024)))).

(** The lines of one [nvidia-smi] answer. *)
Fixpoint gpu_lines (lines : list text) (peak_util peak_mem : Z)
  : result (Z * Z) :=
  match lines with
  | [] => Ok (peak_util, peak_mem)
  | line :: rest =>
      match split_char "," line with
      | [a; b] =>
          util ← py_int a;
          mem ← py_int b;
          gpu_lines rest (Z.max peak_util util) (Z.max peak_mem mem)
      | _ => Raise ValueError
      end
  end.

(** The [while] loop of [get_gpu_usage_monitor]: [ticks] holds what the
    probe answers at each turn the loop takes inside its window. *)
Fixpoint monitor_loop (ticks : list cmd_output) (peak_util peak_mem : Z)
  : list event * (pyval * pyval) :=
  match ticks with
  | [] => ([], (PInt peak_util, PInt peak_mem))
  | probe :: rest =>
      match probe with
      | None =>
          ([LogError AtGpuMonitor [] (Some CalledProcessError) []],
           (PNone, PNone))
      | Some out =>
          match gpu_lines (splitlines (strip out)) peak_util peak_mem with
          | Ok (u, m) => monitor_loop rest u m
          | Raise e =>
              ([LogError AtGpuMonitor [] (Some e) []], (PNone, PNone))
          end
      end
  end.

Definition get_gpu_usage_monitor (ticks : list cmd_output)
  : list event * (pyval * pyval) :=
  monitor_loop ticks 0 0.

(** [b > a] for a float [b] and a peak [a] (the integer 0 or a float). *)
Definition float_gt (b a : pyfloat) : bool :=
  match b, a with
  | FNaN, _ | _, FNaN => false
  | FInf nb, FInf na => negb nb && na
  | FInf nb, FFinite _ => negb nb
  | FFinite _, FInf na => na
  | FFinite x, FFinite y => negb (Qle_bool x y)
  end.

Definition val_gt (b : pyfloat) (a : pyval) : bool :=
  match a with
  | PInt z => float_gt b (FFinite (inject_Z z))
  | PFloat f => float_gt b f
  | _ => false
  end.

(** [max(a, b)] *)
Definition py_max (a : pyval) (b : pyfloat) : pyval :=
  if val_gt b a then PFloat b else a.

Fixpoint iostat_loop (lines : list text) (peak_read peak_write : pyval)
  : result (pyval * pyval) :=
  match lines with
  | [] => Ok (peak_read, peak_write)
  | line :: rest =>
      if match strip line with [] => false | _ => true end
         && negb (startswith line (txt "Device"))
      then
        let parts := split line in
        p2 ← index parts 2; r ← py_float p2;
        p3 ← index parts 3; w ← py_float p3;
        iostat_loop rest (py_max peak_read (fdiv_pos r 1024))
                         (py_max peak_write (fdiv_pos w 1024))
      else iostat_loop rest peak_read peak_write
  end.

Definition get_disk_io (sample_id : text) (iostat_found : bool)
    (iostat : cmd_output) : list event * (pyval * pyval) :=
  if negb iostat_found
  then ([LogError AtIostatMissing [] None []], (PNone, PNone))
  else match iostat with
       | None =>
           ([LogError AtDiskIO sample_id (Some CalledProcessError) []],
            (PNone, PNone))
       | Some out =>
           match iostat_loop (drop 3 (splitlines (strip out)))
                   (PInt 0) (PInt 0) with
           | Ok peaks => ([], peaks)
           | Raise e =>
               ([LogError AtDiskIO sample_id (Some e) []], (PNone, PNone))
           end
       end.

End Probes.

(** ** The stage runners of [pipeline_functions.py] *)

Module Stages.

(** One run of the container: whether [subprocess.run] could start it,
    its exit status and output, and the log file the tool leaves in the
    temporary directory ([None] when it cannot be read). *)
Record stage_run := {
  launched : bool;
  exit_code : Z;
  stdout : text;
  stderr : text;
  logfile : option text
}.

(** The common body of the two runners: only [CalledProcessError] is
    caught. *)
Definition run_stage (st : stage) (site : log_site) (subject : text)
    (r : stage_run) : list event * result (text * bool) :=
  if negb (launched r)
  then ([StartStage st], Raise OSError)
  else if exit_code r =? 0
  then match logfile r with
       | Some log =>
           let full_output := stdout r ++ log in
           ([StartStage st; LogInfo site subject full_output],
            Ok (full_output, true))
       | None => ([StartStage st], Raise OSError)
       end
  else ([StartStage st;
         LogError site subject (Some CalledProcessError) (stderr r)],
        Ok (stderr r, false)).

Definition run_parabricks_fq2bam (sample_id : text) (r : stage_run)
  : list event * result (text * bool) :=
  run_stage Fq2bam AtFq2bam sample_id r.

Definition run_parabricks_haplotypecaller (input_bam : text)
    (r : stage_run) : list event * result (text * bool) :=
  run_stage HaplotypeCaller AtHaplotypeCaller input_bam r.

End Stages.

(** ** [process_sample] *)

Module Sample.
Import PyStr PyNum Extract Quality Probes Stages.

(** How a function body goes on: with a value, by [return], or by an
    exception. *)
Inductive flow (A : Type) :=
| Next (a : A)
| Return
| Throw (e : pyexc).
Arguments Next {A} a.
Arguments Return {A}.
Arguments Throw {A} e.

(** A piece of the body: the events it leaves, and how it goes on. *)
Record proc (A : Type) := Proc { trace : list event; outcome : flow A }.
Arguments Proc {A} trace outcome.
Arguments trace {A} p.
Arguments outcome {A} p.

#[global] Instance proc_ret : MRet proc := fun A a => Proc [] (Next a).

#[global] Instance proc_bind : MBind proc := fun A B k p =>
  match outcome p with
  | Next a => let q := k a in Proc (trace p ++ trace q) (outcome q)
  | Return => Proc (trace p) Return
  | Throw e => Proc (trace p) (Throw e)
  end.

Definition emit (evs : list event) : proc unit := Proc evs (Next tt).

(** A call that cannot raise. *)
Definition call {A} (r : list event * A) : proc A :=
  Proc (fst r) (Next (snd r)).

(** A call whose exception is not caught here. *)
Definition call_raising {A} (r : list event * result A) : proc A :=
  Proc (fst r)
       match snd r with
       | Ok a => Next a
       | Raise e => Throw e
       end.

Definition return_ {A} : proc A := Proc [] Return.

Definition FASTQ_DIR : text := txt "./fastq_files".
Definition ALIGNMENT_DIR : text := txt "./alignment".
Definition VCF_DIR : text := txt "./vcf_files".
Definition LOG_DIR : text := txt "./logs".

(** [os.path.join(a, b)] on POSIX. *)
Definition path_join (a b : text) : text :=
  if startswith b (txt "/") then b
  else match a with
       | [] => b
       | _ => if endswith a (txt "/") then a ++ b else a ++ txt "/" ++ b
       end.

(** What one call of [process_sample] finds outside the program. *)
Record inputs := {
  fastq1_exists : bool;
  fastq2_exists : bool;
  fastq1_lines : option nat;
  gpu_ticks : list cmd_output;
  fq2bam_run : stage_run;
  fq2bam_seconds : pyfloat;
  hc_run : stage_run;
  hc_seconds : pyfloat;
  flagstat_out : cmd_output;
  bcftools_out : cmd_output;
  cpu_percent : pyfloat;
  ram_used : Z;
  iostat_found : bool;
  iostat_out : cmd_output;
  quality_files : reports;
  metrics_writable : bool
}.

Definition check_conda_env (conda_default_env : text) : proc unit :=
  if text_eqb conda_default_env (txt "bioinfo_env")
  then mret tt
  else Proc [LogError AtCondaEnv [] None []] (Throw (SystemExit 1)).

(** [(properly_paired / total) * 100 if total > 0 else 0] *)
Definition alignment_rate (properly_paired_aligned total_reads_aligned : Z)
  : pyval :=
  if 0 <? total_reads_aligned
  then PFloat (FFinite
         ((inject_Z properly_paired_aligned / inject_Z total_reads_aligned)
          * inject_Z 100))
  else PInt 0.

Definition header : list pyval :=
  map (fun s => PStr (txt s))
    [ "Sample"; "Reads Processed"; "Bases Processed"; "fq2bam Time (sec)";
      "HaplotypeCaller Time (sec)"; "BWA Time (sec)"; "Sorting Time (sec)";
      "BQSR Time (sec)"; "Alignment Rate (%)"; "Variants Called";
      "Regions Processed"; "Regions/Minute"; "CPU Usage (%)";
      "RAM Usage (MB)"; "Peak GPU Usage (%)"; "Peak GPU Memory (MB)";
      "Disk Read Speed (MB/s)"; "Disk Write Speed (MB/s)";
      "Time Spent Reading (sec)"; "Min Rate (bases/GPU/min)";
      "Max Rate (bases/GPU/min)"; "Avg Rate (bases/GPU/min)";
      "Monitor Time (sec)"; "Mean Insert Size"; "GC Bias";
      "Mean Quality Score" ]%string.

(** The values [process_sample] has in hand when it builds the row. *)
Record collected := {
  c_sample_id : text;
  c_total_reads : Z;
  c_fq2bam_time : pyfloat;
  c_haplotypecaller_time : pyfloat;
  c_fq2bam_metrics : dict;
  c_hc_metrics : dict;
  c_alignment_rate : pyval;
  c_num_variants : pyval;
  c_cpu_usage : pyval;
  c_ram_usage : pyval;
  c_gpu_util : pyval;
  c_gpu_mem : pyval;
  c_disk_read_speed : pyval;
  c_disk_write_speed : pyval;
  c_quality_metrics : dict
}.

Definition row (c : collected) : list pyval :=
  [ PStr (c_sample_id c); PInt (c_total_reads c);
    PInt (c_total_reads c * 150);
    PFloat (c_fq2bam_time c); PFloat (c_haplotypecaller_time c);
    get_or_NA (c_fq2bam_metrics c) "bwa_time";
    get_or_NA (c_fq2bam_metrics c) "sorting_time";
    get_or_NA (c_fq2bam_metrics c) "bqsr_time";
    c_alignment_rate c; c_num_variants c;
    get_or_NA (c_hc_metrics c) "regions_processed";
    get_or_NA (c_hc_metrics c) "regions_per_minute";
    c_cpu_usage c; c_ram_usage c; c_gpu_util c; c_gpu_mem c;
    c_disk_read_speed c; c_disk_write_speed c;
    get_or_NA (c_fq2bam_metrics c) "time_reading";
    get_or_NA (c_fq2bam_metrics c) "min_rate";
    get_or_NA (c_fq2bam_metrics c) "max_rate";
    get_or_NA (c_fq2bam_metrics c) "avg_rate";
    get_or_NA (c_fq2bam_metrics c) "monitor_time";
    get_or_NA (c_quality_metrics c) "mean_insert_size";
    get_or_NA (c_quality_metrics c) "gc_bias";
    get_or_NA (c_quality_metrics c) "mean_quality" ].

(** [open(path, 'w')] and the two [writerow] calls. *)
Definition write_metrics (writable : bool) (path : text) (c : collected)
  : proc unit :=
  if writable
  then emit [WriteCsv path [header; row c]]
  else Proc [] (Throw OSError).

Definition process_sample (conda_default_env : text) (sample_id : text)
    (i : inputs) : proc unit :=
  _ ← check_conda_env conda_default_env;
  if negb (fastq1_exists i) || negb (fastq2_exists i)
  then Proc [LogError AtFastqMissing sample_id None []] Return
  else
  let fastq1 :=
    path_join (path_join FASTQ_DIR sample_id)
              (sample_id ++ txt "_1.fastq.gz") in
  let output_bam :=
    path_join ALIGNMENT_DIR (sample_id ++ txt "_aligned.bam") in
  let output_vcf := path_join VCF_DIR (sample_id ++ txt ".vcf") in
  _ ← emit [LogInfo AtProcessing sample_id []];
  total_reads ← call (count_reads fastq1 (fastq1_lines i));
  match total_reads with
  | PInt total_reads =>
      _ ← emit [StartMonitor];
      '(fq2bam_output, success) ←
        call_raising (run_parabricks_fq2bam sample_id (fq2bam_run i));
      if negb success then return_ else
      fq2bam_metrics ←
        call_raising ([], parse_parabricks_output fq2bam_output);
      '(hc_output, success_hc) ←
        call_raising (run_parabricks_haplotypecaller output_bam (hc_run i));
      if negb success_hc then return_ else
      hc_metrics ← call_raising ([], parse_parabricks_output hc_output);
      aligned ← call (count_aligned_reads output_bam (flagstat_out i));
      match aligned with
      | (PInt total_reads_aligned, PInt properly_paired_aligned) =>
          num_variants ← call (count_variants output_vcf (bcftools_out i));
          let '(cpu_usage, ram_usage) :=
            get_cpu_ram_usage (cpu_percent i) (ram_used i) in
          '(gpu_util, gpu_mem) ← call (get_gpu_usage_monitor (gpu_ticks i));
          '(disk_read_speed, disk_write_speed) ←
            call (get_disk_io sample_id (iostat_found i) (iostat_out i));
          quality_metrics ←
            call (parse_quality_reports sample_id (quality_files i));
          write_metrics (metrics_writable i)
            (path_join LOG_DIR (sample_id ++ txt "_metrics.csv"))
            {| c_sample_id := sample_id;
               c_total_reads := total_reads;
               c_fq2bam_time := fq2bam_seconds i;
               c_haplotypecaller_time := hc_seconds i;
               c_fq2bam_metrics := fq2bam_metrics;
               c_hc_metrics := hc_metrics;
               c_alignment_rate :=
                 alignment_rate properly_paired_aligned total_reads_aligned;
               c_num_variants := num_variants;
               c_cpu_usage := cpu_usage;
               c_ram_usage := ram_usage;
               c_gpu_util := gpu_util;
               c_gpu_mem := gpu_mem;
               c_disk_read_speed := disk_read_speed;
               c_disk_write_speed := disk_write_speed;
               c_quality_metrics := quality_metrics |}
      | _ => return_
      end
  | _ => return_
  end.

(** The cells of the row that come from a dictionary: position, the
    dictionary and the key. *)
Definition dict_columns : list (nat * (collected -> dict) * string) :=
  [ (5, c_fq2bam_metrics, "bwa_time");
    (6, c_fq2bam_metrics, "sorting_time");
    (7, c_fq2bam_metrics, "bqsr_time");
    (10, c_hc_metrics, "regions_processed");
    (11, c_hc_metrics, "regions_per_minute");
    (18, c_fq2bam_metrics, "time_reading");
    (19, c_fq2bam_metrics, "min_rate");
    (20, c_fq2bam_metrics, "max_rate");
    (21, c_fq2bam_metrics, "avg_rate");
    (22, c_fq2bam_metrics, "monitor_time");
    (23, c_quality_metrics, "mean_insert_size");
    (24, c_quality_metrics, "gc_bias");
    (25, c_quality_metrics, "mean_quality") ]%nat%string.

(** The same surroundings with other quality reports. *)
Definition with_quality (q : reports) (i : inputs) : inputs :=
  {| fastq1_exists := fastq1_exists i;
     fastq2_exists := fastq2_exists i;
     fastq1_lines := fastq1_lines i;
     gpu_ticks := gpu_ticks i;
     fq2bam_run := fq2bam_run i;
     fq2bam_seconds := fq2bam_seconds i;
     hc_run := hc_run i;
     hc_seconds := hc_seconds i;
     flagstat_out := flagstat_out i;
     bcftools_out := bcftools_out i;
     cpu_percent := cpu_percent i;
     ram_used := ram_used i;
     iostat_found := iostat_found i;
     iostat_out := iostat_out i;
     quality_files := q;
     metrics_writable := metrics_writable i |}.

(** Log records as opposed to the other events. *)
Definition is_log (ev : event) : bool :=
  match ev with
  | LogError _ _ _ _ | LogInfo _ _ _ => true
  | _ => false
  end.

Definition logs_only (l : list event) : Prop :=
  forall ev, ev ∈ l -> is_log ev = true.

(** The run passed the checks that come before the stages. *)
Definition reached_stages (conda_default_env : text) (i : inputs) : Prop :=
  conda_default_env = txt "bioinfo_env"
  /\ fastq1_exists i = true /\ fastq2_exists i = true
  /\ exists n, fastq1_lines i = Some n.

(** The alignment stage reported success and its output was parsed. *)
Definition fq2bam_succeeded (sample_id : text) (i : inputs) : Prop :=
  exists out fqm,
    snd (run_parabricks_fq2bam sample_id (fq2bam_run i)) = Ok (out, true)
    /\ parse_parabricks_output out = Ok fqm.

(** The values in hand at the end of a run that reaches the row, tied to
    what the run found outside. *)
Record collected_from (sample_id : text) (i : inputs) (c : collected)
  : Prop := {
  cf_sample : c_sample_id c = sample_id;
  cf_reads : exists n, fastq1_lines i = Some n
               /\ c_total_reads c = Z.of_nat n / 4;
  cf_fq2bam_time : c_fq2bam_time c = fq2bam_seconds i;
  cf_hc_time : c_haplotypecaller_time c = hc_seconds i;
  cf_fq2bam : exists out,
      snd (run_parabricks_fq2bam sample_id (fq2bam_run i)) = Ok (out, true)
      /\ parse_parabricks_output out = Ok (c_fq2bam_metrics c);
  cf_hc : exists bam out,
      snd (run_parabricks_haplotypecaller bam (hc_run i)) = Ok (out, true)
      /\ parse_parabricks_output out = Ok (c_hc_metrics c);
  cf_rate : exists bam total pp,
      snd (count_aligned_reads bam (flagstat_out i)) = (PInt total, PInt pp)
      /\ c_alignment_rate c = alignment_rate pp total;
  cf_variants : exists vcf,
      c_num_variants c = snd (count_variants vcf (bcftools_out i));
  cf_cpu_ram : (c_cpu_usage c, c_ram_usage c)
               = get_cpu_ram_usage (cpu_percent i) (ram_used i);
  cf_gpu : (c_gpu_util c, c_gpu_mem c)
           = snd (get_gpu_usage_monitor (gpu_ticks i));
  cf_disk : (c_disk_read_speed c, c_disk_write_speed c)
            = snd (get_disk_io sample_id (iostat_found i) (iostat_out i));
  cf_quality : c_quality_metrics c
               = snd (parse_quality_reports sample_id (quality_files i))
}.

End Sample.

(** ** Writing a row with [csv.writer] *)

Module Csv.

(** [str(z)] *)
Definition str_int (z : Z) : text :=
  list_ascii_of_string (DecimalString.NilZero.string_of_int (Z.to_int z)).

Section Writer.
(** [repr] of a float, which the model leaves open. *)
Variable float_repr : pyfloat -> text.

(** The text [csv.writer] puts in a cell, before any quoting: [None]
    becomes the empty string, a string is taken as it is, a number is
    written with [str]. *)
Definition cell_text (v : pyval) : text :=
  match v with
  | PNone => []
  | PStr s => s
  | PInt z => str_int z
  | PFloat f => float_repr f
  end.

Definition writerow (r : list pyval) : list text := map cell_text r.
End Writer.

End Csv.

(** ** [process_samples] *)

Module Batch.
Import PyStr Sample.

(** [[line.strip() for line in f if line.strip()]] *)
Definition nonblank (line : text) : bool :=
  match strip line with
  | [] => false
  | _ => true
  end.

Definition read_samples (content : text) : list text :=
  map strip (List.filter nonblank (file_lines content)).

(** What a batch finds outside the program: the environment variable,
    the manifest ([None] when it cannot be opened), the surroundings of
    the task submitted at each position, and the order in which
    [as_completed] hands the tasks back. *)
Record batch_env := {
  conda_default_env : text;
  sample_file : option text;
  task_inputs : nat -> inputs;
  completion : list nat
}.

(** The futures, in the order of submission, each with its sample. *)
Definition submit_all (env : batch_env) (samples : list text)
  : list (text * proc unit) :=
  imap (fun n sample =>
          (sample,
           process_sample (conda_default_env env) sample (task_inputs env n)))
       samples.

(** The loop over [as_completed(futures)]. *)
Fixpoint collect (futures : list (text * proc unit)) (order : list nat)
  : list event * result unit :=
  match order with
  | [] => ([], Ok tt)
  | n :: rest =>
      match futures !! n with
      | Some (sample, p) =>
          match outcome p with
          | Throw e =>
              if is_Exception e
              then let '(evs, r) := collect futures rest in
                   (LogError AtProcessSamples sample (Some e) [] :: evs, r)
              else ([], Raise e)
          | _ => collect futures rest
          end
      | None => collect futures rest
      end
  end.

Record batch_result := {
  dispatched : list (text * proc unit);
  scheduler_log : list event;
  batch_outcome : result unit
}.

Definition process_samples (env : batch_env) : batch_result :=
  match sample_file env with
  | None =>
      {| dispatched := []; scheduler_log := [];
         batch_outcome := Raise OSError |}
  | Some content =>
      let futures := submit_all env (read_samples content) in
      let '(evs, r) := collect futures (completion env) in
      {| dispatched := futures; scheduler_log := evs; batch_outcome := r |}
  end.

End Batch.

(** ** [merge_metrics] *)

Module Merge.
Import PyStr.

(** A file as [csv.reader] yields it: rows of cells. *)
Abbreviation csv_rows := (list (list text)).

(** One turn of the loop over [os.listdir(LOG_DIR)]; a file that cannot
    be opened ([None]) raises. *)
Definition merge_file (acc : csv_rows * bool)
    (entry : text * option csv_rows) : result (csv_rows * bool) :=
  let '(merged_rows, header_written) := acc in
  let '(filename, file) := entry in
  if endswith filename (txt "_metrics.csv")
  then match file with
       | None => Raise OSError
       | Some rows =>
           match rows with
           | [] => Ok (merged_rows, header_written)
           | first :: others =>
               if header_written
               then Ok (merged_rows ++ others, true)
               else Ok ((merged_rows ++ [first]) ++ others, true)
           end
       end
  else Ok (merged_rows, header_written).

Fixpoint merge_loop (listing : list (text * option csv_rows))
    (acc : csv_rows * bool) : result (csv_rows * bool) :=
  match listing with
  | [] => Ok acc
  | entry :: rest => acc' ← merge_file acc entry; merge_loop rest acc'
  end.

(** The files the loop opens: those whose name ends in [_metrics.csv]. *)
Definition selected (listing : list (text * option csv_rows))
  : list (option csv_rows) :=
  map snd
    (List.filter (fun e => endswith (fst e) (txt "_metrics.csv")) listing).

Definition merged_filename (threads gpus concurrent : Z) : text :=
  txt "processing_metrics_t" ++ Csv.str_int threads
  ++ txt "g" ++ Csv.str_int gpus
  ++ txt "c" ++ Csv.str_int concurrent ++ txt ".csv".

(** [listing] is the content of [LOG_DIR] in the order of [os.listdir],
    [None] when the directory cannot be listed.  The result is the name
    of the merged file and the rows written to it. *)
Definition merge_metrics (threads gpus concurrent : Z)
    (listing : option (list (text * option csv_rows)))
  : result (text * csv_rows) :=
  match listing with
  | None => Raise OSError
  | Some entries =>
      '(merged_rows, _) ← merge_loop entries ([], false);
      Ok (merged_filename threads gpus concurrent, merged_rows)
  end.

End Merge.

(** * Further definitions *)

Module ExtractKeys.

(** The names [parse_parabricks_output] can put in its dictionary. *)
Definition metric_keys : list string :=
  [ "bwa_time"; "sorting_time"; "bqsr_time"; "time_reading";
    "monitor_time"; "regions_processed"; "regions_per_minute";
    "min_rate"; "max_rate"; "avg_rate" ]%string.

End ExtractKeys.

(** ** Fetching the reads: [download_bam] and [run_bam2fq] *)

Module Fetch.
Import PyStr Stages Sample.

(** The regular files on disk, by path, with their bytes.  Directories
    are not kept: every [os.makedirs(..., exist_ok=True)] is taken to
    succeed, and [os.path.exists] is asked of files only. *)
Abbreviation files := (gmap text text).

(** [os.path.basename(p)] on POSIX: what follows the last slash. *)
Fixpoint basename_aux (cur : text) (p : text) : text :=
  match p with
  | [] => rev cur
  | a :: p' =>
      if Ascii.eqb a "/" then basename_aux [] p'
      else basename_aux (a :: cur) p'
  end.

Definition basename (p : text) : text := basename_aux [] p.

(** [s.replace(old, new)] for a non-empty [old]: every occurrence, from
    the left, without overlap; [skip] counts the characters of an
    occurrence that was just replaced. *)
Fixpoint replace_aux (old new : text) (skip : nat) (s : text) : text :=
  match s with
  | [] => []
  | a :: s' =>
      match skip with
      | S k => replace_aux old new k s'
      | O =>
          if startswith s old
          then new ++ replace_aux old new (length old - 1) s'
          else a :: replace_aux old new O s'
      end
  end.

Definition str_replace (old new : text) (s : text) : text :=
  replace_aux old new O s.

(** The truth value of a [str] or [None]. *)
Definition truthy_str (v : option text) : bool :=
  match v with
  | Some (_ :: _) => true
  | _ => false
  end.

(** The records of the logging calls in [download_bam], [run_bam2fq],
    [pipeline_script.main] and [prepare_fastq], by call site. *)
Inductive note :=
| AlreadyExists (bam_file : text)
| Downloading (bam_file : text)
| Downloaded (bam_file : text)
| DownloadFailed (bam_file : text)
| Converted (bam_file : text) (stdout : text)
| Bam2fqFailed (input_bam : text) (stderr : text)
| NoBam (sample_id : text)
| NoSingleFastq (sample_id : text)
| NoPairedFastq (sample_id : text)
| VcfCompleted (sample_id : text)
| DeletedRawBam (path : text)
| DeletedOutputBam (path : text)
| VcfFailed (sample_id : text)
| AlignmentFailed (sample_id : text)
| Converting (sample_id : text)
| NoFastq (sample_id : text)
| FastqCompleted (sample_id : text).

(** What the storage bucket answers to [requests.get]: nothing usable
    ([requests.get] or [raise_for_status] raises), or a body, of which
    [chunks] get written before the stream ends ([complete]) or breaks. *)
Inductive response :=
| Refused
| Body (chunks : list text) (complete : bool).

(** What one call of [download_bam] finds outside the program. *)
Record remote := {
  answer : response;
  can_create : bool;      (* [open(temp_path, 'wb')] succeeds *)
  can_rename : bool       (* [os.rename] succeeds *)
}.

Definition bam_file_of (sample_id : text) : text := sample_id ++ txt ".bam".

Definition temp_path_of (bam_path : text) : text :=
  bam_path ++ txt ".incomplete".

(** [os.path.join(output_dir, bam_file)] *)
Definition final_path (output_dir sample_id : text) : text :=
  path_join output_dir (bam_file_of sample_id).

Definition download_bam (sample_id output_dir : text) (w : remote)
    (fs : files) : list note * files * option text :=
  let bam_file := bam_file_of sample_id in
  let bam_path := path_join output_dir bam_file in
  match fs !! bam_path with
  | Some _ => ([AlreadyExists bam_file], fs, Some bam_path)
  | None =>
      match answer w with
      | Refused =>
          ([Downloading bam_file; DownloadFailed bam_file], fs, None)
      | Body chunks complete =>
          let temp_path := temp_path_of bam_path in
          if negb (can_create w)
          then ([Downloading bam_file; DownloadFailed bam_file], fs, None)
          else
            let fs1 := <[temp_path := concat chunks]> fs in
            if complete && can_rename w
            then ([Downloading bam_file; Downloaded bam_file],
                  <[bam_path := concat chunks]> (delete temp_path fs1),
                  Some bam_path)
            else ([Downloading bam_file; DownloadFailed bam_file],
                  fs1, None)
      end
  end.

Definition fastq_names (input_bam output_dir : text) : text * text :=
  let base_name := str_replace (txt ".bam") [] (basename input_bam) in
  (path_join output_dir (base_name ++ txt "_1.fastq.gz"),
   path_join output_dir (base_name ++ txt "_2.fastq.gz")).

(** Only [CalledProcessError] is caught. *)
Definition run_bam2fq (input_bam output_dir : text) (r : stage_run)
  : list note * result (option text * option text) :=
  let '(fastq1, fastq2) := fastq_names input_bam output_dir in
  if negb (launched r)
  then ([], Raise OSError)
  else if exit_code r =? 0
  then ([Converted (basename input_bam) (stdout r)],
        Ok (Some fastq1, Some fastq2))
  else ([Bam2fqFailed input_bam (stderr r)], Ok (None, None)).

Definition RAW_BAM_DIR : text := txt "./raw_bams".

(** The records [download_bam] and [run_bam2fq] leave. *)
Definition is_fetch_note (n : note) : bool :=
  match n with
  | AlreadyExists _ | Downloading _ | Downloaded _ | DownloadFailed _
  | Converted _ _ | Bam2fqFailed _ _ => true
  | _ => false
  end.

(** The paths at which [gpu_script.process_sample] looks for the reads. *)
Definition expected_fastq (sample_id : text) : text * text :=
  (path_join (path_join FASTQ_DIR sample_id)
     (sample_id ++ txt "_1.fastq.gz"),
   path_join (path_join FASTQ_DIR sample_id)
     (sample_id ++ txt "_2.fastq.gz")).

End Fetch.

(** ** [pipeline_script.main] and [run_pipeline.prepare_fastq] *)

Module Driver.
Import PyStr Stages Sample Fetch.

(** A record of the driver itself, or one left by a stage runner. *)
Inductive action :=
| Note (n : note)
| Tool (e : event).

(** What one run of the driver finds outside the program: the bucket,
    the three container runs with what each does to the files on disk,
    and which files [os.remove] can delete. *)
Record world := {
  bucket : remote;
  bam2fq : stage_run;
  bam2fq_effect : files -> files;
  fq2bam : stage_run;
  fq2bam_effect : files -> files;
  hc : stage_run;
  hc_effect : files -> files;
  removable : text -> bool
}.

(** The runners return tuples of two, and the truth value of a tuple is
    that of its length not being 0. *)
Definition tuple_len {A B} (t : A * B) : nat := 2.

Definition truthy_pair {A B} (t : A * B) : bool :=
  negb (tuple_len t =? 0)%nat.

(** [if os.path.exists(p): os.remove(p); logging.info(...)] *)
Definition remove_if_exists (w : world) (p : text) (n : note) (fs : files)
  : list action * files * result unit :=
  match fs !! p with
  | None => ([], fs, Ok tt)
  | Some _ =>
      if removable w p then ([Note n], delete p fs, Ok tt)
      else ([], fs, Raise OSError)
  end.

Definition output_bam_of (sample_id : text) : text :=
  path_join ALIGNMENT_DIR (sample_id ++ txt "_aligned.bam").

Definition output_vcf_of (sample_id : text) : text :=
  path_join VCF_DIR (sample_id ++ txt ".vcf").

Definition cleanup (w : world) (bam_path output_bam : text) (fs : files)
  : list action * files * result unit :=
  match remove_if_exists w bam_path (DeletedRawBam bam_path) fs with
  | (l5, fs5, Ok _) =>
      match remove_if_exists w output_bam (DeletedOutputBam output_bam)
              fs5 with
      | (l6, fs6, r) => (l5 ++ l6, fs6, r)
      end
  | (l5, fs5, Raise e) => (l5, fs5, Raise e)
  end.

(** Step 5 and 6 of [main]. *)
Definition align_and_call (sample_id bam_path : text) (w : world)
    (fs : files) : list action * files * result unit :=
  let output_bam := output_bam_of sample_id in
  let '(l3, r3) := run_parabricks_fq2bam sample_id (fq2bam w) in
  let fs3 := fq2bam_effect w fs in
  match r3 with
  | Raise e => (map Tool l3, fs3, Raise e)
  | Ok t3 =>
      if truthy_pair t3
      then
        let '(l4, r4) := run_parabricks_haplotypecaller output_bam (hc w) in
        let fs4 := hc_effect w fs3 in
        match r4 with
        | Raise e => (map Tool l3 ++ map Tool l4, fs4, Raise e)
        | Ok t4 =>
            if truthy_pair t4
            then
              let '(l5, fs5, r5) := cleanup w bam_path output_bam fs4 in
              (map Tool l3 ++ map Tool l4
               ++ Note (VcfCompleted sample_id) :: l5, fs5, r5)
            else (map Tool l3 ++ map Tool l4
                  ++ [Note (VcfFailed sample_id)], fs4, Ok tt)
        end
      else (map Tool l3 ++ [Note (AlignmentFailed sample_id)], fs3, Ok tt)
  end.

Definition main (sample_id : text) (single_end : bool) (w : world)
    (fs : files) : list action * files * result unit :=
  let '(l1, fs1, bam_path) := download_bam sample_id RAW_BAM_DIR (bucket w) fs in
  if negb (truthy_str bam_path)
  then (map Note l1 ++ [Note (NoBam sample_id)], fs1, Ok tt)
  else
    let bam_path := default [] bam_path in
    let fastq_dir := path_join FASTQ_DIR sample_id in
    let '(l2, r2) := run_bam2fq bam_path fastq_dir (bam2fq w) in
    let fs2 := bam2fq_effect w fs1 in
    match r2 with
    | Raise e => (map Note (l1 ++ l2), fs2, Raise e)
    | Ok (fastq1, fastq2) =>
        let go :=
          let '(l, fs', r) := align_and_call sample_id bam_path w fs2 in
          (map Note (l1 ++ l2) ++ l, fs', r) in
        if single_end
        then if negb (truthy_str fastq1)
             then (map Note (l1 ++ l2) ++ [Note (NoSingleFastq sample_id)],
                   fs2, Ok tt)
             else go
        else if negb (truthy_str fastq1) || negb (truthy_str fastq2)
             then (map Note (l1 ++ l2) ++ [Note (NoPairedFastq sample_id)],
                   fs2, Ok tt)
             else go
    end.

(** [run_pipeline.prepare_fastq] *)
Definition prepare_fastq (sample_id : text) (single_end : bool)
    (w : world) (fs : files) : list note * files * result unit :=
  let fastq_dir := path_join FASTQ_DIR sample_id in
  let '(l1, fs1, bam_path) := download_bam sample_id RAW_BAM_DIR (bucket w) fs in
  if negb (truthy_str bam_path)
  then (l1 ++ [NoBam sample_id], fs1, Ok tt)
  else
    let bam_path := default [] bam_path in
    let '(l2, r2) := run_bam2fq bam_path fastq_dir (bam2fq w) in
    let fs2 := bam2fq_effect w fs1 in
    match r2 with
    | Raise e => (l1 ++ Converting sample_id :: l2, fs2, Raise e)
    | Ok (fastq1, fastq2_) =>
        let fastq2 := if single_end then None else fastq2_ in
        if negb (truthy_str fastq1)
           || (negb single_end && negb (truthy_str fastq2))
        then (l1 ++ Converting sample_id :: l2 ++ [NoFastq sample_id],
              fs2, Ok tt)
        else (l1 ++ Converting sample_id :: l2
              ++ [FastqCompleted sample_id], fs2, Ok tt)
    end.

End Driver.

(** ** [merge_kinship_with_latlong.py] *)

Module Kinship.
Import PyStr.

(** A value that is a [str] or [None]. *)
Abbreviation cell := (option text).

(** The dictionary of [load_ecotypes]: the key and the coordinates come
    from [csv.DictReader] rows, where a field missing from a short row
    is [None]. *)
Abbreviation latlong_map := (gmap cell (cell * cell)).

(** [s.lstrip(c)] for one character [c]. *)
Fixpoint lstrip_char (c : ascii) (s : text) : text :=
  match s with
  | a :: s' => if Ascii.eqb a c then lstrip_char c s' else s
  | [] => []
  end.

Definition NEW_FIELDS : list text :=
  [ txt "Lat1"; txt "Long1"; txt "Lat2"; txt "Long2" ].

(** [dict(zip(keys, values))]: of two pairs with one key the later
    stays. *)
Definition dict_zip {V} (keys : list text) (values : list V)
  : gmap text V :=
  fold_left (fun d kv => <[kv.1 := kv.2]> d) (zip keys values) ∅.

Definition NA_pair : cell * cell := (Some (txt "NA"), Some (txt "NA")).

(** [row.get(key)] *)
Definition get (row : gmap text cell) (key : text) : cell :=
  match row !! key with
  | Some v => v
  | None => None
  end.

(** [None] is written as the empty string. *)
Definition rendered (v : cell) : text := default [] v.

(** [DictWriter.writerow]: a key outside the field names raises
    [ValueError]; a field the row lacks is written as the empty string,
    and so is [None]. *)
Definition writerow (fieldnames : list text) (row : gmap text cell)
  : result (list text) :=
  if forallb (fun k => bool_decide (k ∈ fieldnames))
       (map fst (map_to_list row))
  then Ok (map (fun key => rendered (default (Some []) (row !! key)))
             fieldnames)
  else Raise ValueError.

(** [DictWriter.writeheader] *)
Definition writeheader (fieldnames : list text) : result (list text) :=
  writerow fieldnames (dict_zip fieldnames (map Some fieldnames)).

(** The coordinates a line gets. *)
Definition coordinates (latlong : latlong_map) (fieldnames : list text)
    (line : text) : (cell * cell) * (cell * cell) :=
  let row := dict_zip (take (length (split line)) fieldnames)
               (map Some (split line)) in
  (default NA_pair (latlong !! get row (txt "IID1")),
   default NA_pair (latlong !! get row (txt "IID2"))).

(** The dictionary made of one line of the kinship file. *)
Definition merged_row (latlong : latlong_map) (fieldnames : list text)
    (line : text) : gmap text cell :=
  let parts := split line in
  let row := dict_zip (take (length parts) fieldnames) (map Some parts) in
  let iid1 := get row (txt "IID1") in
  let iid2 := get row (txt "IID2") in
  let '(lat1, long1) := default NA_pair (latlong !! iid1) in
  let '(lat2, long2) := default NA_pair (latlong !! iid2) in
  <[txt "Long2" := long2]>
    (<[txt "Lat2" := lat2]>
       (<[txt "Long1" := long1]> (<[txt "Lat1" := lat1]> row))).

(** The loop over the lines after the header: the rows written, and how
    the loop ends. *)
Fixpoint merge_lines (latlong : latlong_map) (fieldnames : list text)
    (lines : list text) : list (list text) * result unit :=
  match lines with
  | [] => ([], Ok tt)
  | line :: rest =>
      match strip line with
      | [] => merge_lines latlong fieldnames rest
      | _ =>
          match writerow fieldnames (merged_row latlong fieldnames line) with
          | Ok r =>
              let '(rs, e) := merge_lines latlong fieldnames rest in
              (r :: rs, e)
          | Raise e => ([], Raise e)
          end
      end
  end.

Definition fieldnames_of (kin_lines : list text) : list text :=
  let header_line := strip (lstrip_char "#" (hd [] kin_lines)) in
  split header_line ++ NEW_FIELDS.

(** [merge_kinship], on the lines the kinship file yields ([readline]
    gives the empty string on an empty file): the rows written to the
    output file, and how the function ends. *)
Definition merge_kinship (kin_lines : list text) (latlong : latlong_map)
  : list (list text) * result unit :=
  let fieldnames := fieldnames_of kin_lines in
  match writeheader fieldnames with
  | Ok h =>
      let '(rs, e) := merge_lines latlong fieldnames (tl kin_lines) in
      (h :: rs, e)
  | Raise e => ([], Raise e)
  end.

End Kinship.

(** ** [load_ecotypes] *)

Module Ecotypes.
Import PyStr Kinship.

(** The dictionary [csv.DictReader] makes of a row: the fields of the
    row by name, and [None] under the names a short row does not reach.
    (The surplus of a long row goes under the key [None], which
    [load_ecotypes] never asks for.) *)
Definition reader_row (fieldnames : list text) (row : list text)
  : gmap text cell :=
  fold_left (fun d key => <[key := None]> d)
    (drop (length row) fieldnames)
    (dict_zip fieldnames (map Some row)).

Inductive loaded :=
| Loaded (latlong : latlong_map)
| KeyError (key : text).

(** The loop over the reader; rows without any field are skipped by the
    reader.  The right-hand side of the assignment is evaluated before
    the subscript on its left. *)
Fixpoint load_rows (fieldnames : list text) (rows : list (list text))
    (latlong : latlong_map) : loaded :=
  match rows with
  | [] => Loaded latlong
  | [] :: rest => load_rows fieldnames rest latlong
  | row :: rest =>
      let d := reader_row fieldnames row in
      match d !! txt "latitude" with
      | None => KeyError (txt "latitude")
      | Some latitude =>
          match d !! txt "longitude" with
          | None => KeyError (txt "longitude")
          | Some longitude =>
              match d !! txt "id" with
              | None => KeyError (txt "id")
              | Some id_ =>
                  load_rows fieldnames rest
                    (<[id_ := (latitude, longitude)]> latlong)
              end
          end
      end
  end.

(** [load_ecotypes], on the rows [csv.reader] finds in the file: the
    first one holds the field names. *)
Definition load_ecotypes (rows : list (list text)) : loaded :=
  match rows with
  | [] => Loaded ∅
  | fieldnames :: data => load_rows fieldnames data ∅
  end.

Definition COLUMNS : list text :=
  [ txt "id"; txt "latitude"; txt "longitude" ].

End Ecotypes.

(** ** The peaks of [get_disk_io] *)

Module DiskPeaks.
Import PyNum Probes.

(** A peak as the loop of [get_disk_io] can hold it: the integer 0 it
    starts from, or a float above 0. *)
Definition is_peak (v : pyval) : Prop :=
  v = PInt 0 \/ exists f, v = PFloat f /\ float_gt f (FFinite 0) = true.

End DiskPeaks.

(** ** [install_dependencies.py]: the packages *)

Module Install.
Import PyStr.

(** The exceptions met here: those of [pyexc], and three more. *)
Inductive exc :=
| Base (e : pyexc)
| JSONDecodeError
| TypeError
| KeyError.

(** [except Exception] *)
Definition caught_as_Exception (e : exc) : bool :=
  match e with
  | Base e => is_Exception e
  | _ => true
  end.

Inductive outcome (A : Type) :=
| Done (a : A)
| Raised (e : exc).
Arguments Done {A} a.
Arguments Raised {A} e.

(** What [json.loads] returns; the members of an object are those of
    the [dict], each key once. *)
#[local] Unset Elimination Schemes.
Inductive json :=
| JNull
| JBool (b : bool)
| JNumber
| JString (s : text)
| JArray (items : list json)
| JObject (members : list (text * json)).
#[local] Set Elimination Schemes.

(** [for pkg in v]: the items of a list, the keys of a dict, the
    characters of a string; nothing else can be iterated. *)
Definition iterate (v : json) : outcome (list json) :=
  match v with
  | JArray items => Done items
  | JObject members => Done (map (fun m => JString (fst m)) members)
  | JString s => Done (map (fun c => JString [c]) s)
  | _ => Raised TypeError
  end.

Fixpoint member (key : text) (members : list (text * json))
  : option json :=
  match members with
  | [] => None
  | (k, v) :: rest => if text_eqb k key then Some v else member key rest
  end.

(** [pkg[key]] for a string [key]: only a dict can be asked. *)
Definition subscript (pkg : json) (key : text) : outcome json :=
  match pkg with
  | JObject members =>
      match member key members with
      | Some v => Done v
      | None => Raised KeyError
      end
  | _ => Raised TypeError
  end.

(** [v == s] for a string [s] *)
Definition equals_str (v : json) (s : text) : bool :=
  match v with
  | JString t => text_eqb t s
  | _ => false
  end.

(** The truth value of a [str] or [None]. *)
Definition truthy (v : option text) : bool :=
  match v with
  | Some (_ :: _) => true
  | _ => false
  end.

(** The loop over the installed packages: whether it comes to its
    [return]. *)
Fixpoint listed_as_required (base_package_name : text)
    (required_version : option text) (installed_packages : list json)
  : outcome bool :=
  match installed_packages with
  | [] => Done false
  | pkg :: rest =>
      match subscript pkg (txt "name") with
      | Raised e => Raised e
      | Done name =>
          if equals_str name base_package_name
          then if negb (truthy required_version)
               then Done true
               else match subscript pkg (txt "version") with
                    | Raised e => Raised e
                    | Done version =>
                        if equals_str version (default [] required_version)
                        then Done true
                        else listed_as_required base_package_name
                               required_version rest
                    end
          else listed_as_required base_package_name required_version rest
      end
  end.

(** What one call of [install_package] finds outside the program:
    whether [conda] can be started, what [json.loads] makes of the
    output of [conda list] ([None]: it is no JSON), and the exit status
    of [conda install]. *)
Record conda := {
  conda_found : bool;
  listed : option json;
  install_exit : Z
}.

(** An entry of the list of packages: a name, or a tuple of a name and
    a channel. *)
Inductive package :=
| Name (package_name : text)
| Tuple (package_name channel : text).

Definition name_of (pkg : package) : text :=
  match pkg with
  | Name n => n
  | Tuple n _ => n
  end.

(** The records of the logging calls, and the commands run. *)
Inductive step :=
| Checking (package_name : text)
| RunList (base_package_name : text)
| AlreadyInstalled (package_name : text)
| NotInstalled (package_name : text)
| RunInstall (package_name : text) (channel : option text)
| InstalledIn (package_name : text)
| InstallError (package_name : text) (e : exc)
| FailedToInstall (pkg : package) (e : exc).

(** [base_package_name, required_version] *)
Definition parse_spec (package_name : text)
  : outcome (text * option text) :=
  if contains package_name (txt "==")
  then match split_sep (txt "==") package_name with
       | [base_package_name; required_version] =>
           Done (base_package_name, Some required_version)
       | _ => Raised (Base ValueError)
       end
  else Done (package_name, None).

(** The body of the [try] of [install_package]. *)
Definition try_install (package_name : text) (channel : option text)
    (w : conda) : list step * outcome unit :=
  match parse_spec package_name with
  | Raised e => ([], Raised e)
  | Done (base_package_name, required_version) =>
      if negb (conda_found w) then ([], Raised (Base OSError))
      else
        match listed w with
        | None => ([RunList base_package_name], Raised JSONDecodeError)
        | Some installed_packages =>
            match
              match iterate installed_packages with
              | Raised e => Raised e
              | Done pkgs =>
                  listed_as_required base_package_name required_version
                    pkgs
              end
            with
            | Raised e => ([RunList base_package_name], Raised e)
            | Done true =>
                ([RunList base_package_name;
                  AlreadyInstalled package_name], Done tt)
            | Done false =>
                let channel := if truthy channel then channel else None in
                if install_exit w =? 0
                then ([RunList base_package_name;
                       NotInstalled package_name;
                       RunInstall package_name channel;
                       InstalledIn package_name], Done tt)
                else ([RunList base_package_name;
                       NotInstalled package_name;
                       RunInstall package_name channel],
                      Raised (Base CalledProcessError))
            end
        end
  end.

(** [except (subprocess.CalledProcessError, json.JSONDecodeError)] *)
Definition caught_by_install (e : exc) : bool :=
  match e with
  | Base CalledProcessError | JSONDecodeError => true
  | _ => false
  end.

Definition install_package (package_name : text) (channel : option text)
    (w : conda) : list step * outcome unit :=
  let '(l, r) := try_install package_name channel w in
  match r with
  | Raised e =>
      if caught_by_install e
      then (Checking package_name :: l ++ [InstallError package_name e],
            Raised (Base (SystemExit 1)))
      else (Checking package_name :: l, Raised e)
  | Done _ => (Checking package_name :: l, Done tt)
  end.

Definition call_install (pkg : package) (w : conda)
  : list step * outcome unit :=
  match pkg with
  | Tuple n c => install_package n (Some c) w
  | Name n => install_package n None w
  end.

(** The loop of [install_packages_sequentially], each package with what
    its call finds: the records, the packages that failed, and how the
    loop ends. *)
Fixpoint install_loop (packages : list (package * conda))
    (failed_packages : list package)
  : list step * list package * outcome unit :=
  match packages with
  | [] => ([], failed_packages, Done tt)
  | (pkg, w) :: rest =>
      let '(l, r) := call_install pkg w in
      match r with
      | Done _ =>
          let '(l', f, r') := install_loop rest failed_packages in
          (l ++ l', f, r')
      | Raised e =>
          if caught_as_Exception e
          then
            let '(l', f, r') :=
              install_loop rest (failed_packages ++ [pkg]) in
            (l ++ FailedToInstall pkg e :: l', f, r')
          else (l, failed_packages, Raised e)
      end
  end.

(** The call for this package ends by an exception that
    [except Exception] lets through. *)
Definition exits (pw : package * conda) : bool :=
  match snd (call_install (fst pw) (snd pw)) with
  | Raised e => negb (caught_as_Exception e)
  | Done _ => false
  end.

(** The call for this package raises. *)
Definition raises (pw : package * conda) : bool :=
  match snd (call_install (fst pw) (snd pw)) with
  | Raised _ => true
  | Done _ => false
  end.

Definition is_tuple (pkg : package) : bool :=
  match pkg with
  | Tuple _ _ => true
  | Name _ => false
  end.

(** An entry of the listing as [conda list --json] prints it: an object
    with a name and a version, both strings. *)
Definition entry (name version : text) : json :=
  JObject [ (txt "name", JString name); (txt "version", JString version) ].

(** [', '.join(failed_packages)] accepts strings only. *)
Fixpoint join_names (failed_packages : list package)
  : outcome (list text) :=
  match failed_packages with
  | [] => Done []
  | Name n :: rest =>
      match join_names rest with
      | Done ns => Done (n :: ns)
      | Raised e => Raised e
      end
  | Tuple _ _ :: _ => Raised TypeError
  end.

Inductive report :=
| Quiet
| Warned (names : list text).

Definition install_packages_sequentially
    (packages : list (package * conda))
  : list step * outcome report :=
  let '(l, failed_packages, r) := install_loop packages [] in
  match r with
  | Raised e => (l, Raised e)
  | Done _ =>
      match failed_packages with
      | [] => (l, Done Quiet)
      | _ =>
          match join_names failed_packages with
          | Done names => (l, Done (Warned names))
          | Raised e => (l, Raised e)
          end
      end
  end.

End Install.

(** ** Concrete runs used in the examples *)

Module Scenarios.
Import PyStr Extract Quality Probes Stages Sample.

Definition lines (l : list string) : text :=
  concat (map (fun s => txt s ++ [nl]) l).

(** A progress log with the counter at 1000 and then at 2500. *)
Definition two_progress_lines : text :=
  lines [ "Regions-Processed 1 12 1000 8";
          "Regions-Processed 1 30 2500 8" ]%string.

Definition fq2bam_ok_run : stage_run :=
  {| launched := true; exit_code := 0;
     stdout := lines [ "bwalib run finished in 12.5 seconds";
                       "Sorting and Marking: 3.2 seconds" ]%string;
     stderr := [];
     logfile := Some (lines [ "BQSR and writing final BAM: 7.0 seconds";
                              "Time spent reading: 4.5 seconds" ]%string) |}.

Definition fq2bam_failed_run : stage_run :=
  {| launched := true; exit_code := 1;
     stdout := [];
     stderr := lines [ "cudaSafeCall() failed: out of memory" ]%string;
     logfile := None |}.

Definition hc_ok_run : stage_run :=
  {| launched := true; exit_code := 0;
     stdout := two_progress_lines;
     stderr := [];
     logfile := Some (lines [ "Regions/Minute 42" ]%string) |}.

Definition flagstat_200_180 : text :=
  lines [ "200 + 0 in total (QC-passed reads + QC-failed reads)";
          "0 + 0 secondary";
          "180 + 0 properly paired (90.00% : N/A)" ]%string.

Definition flagstat_zero : text :=
  lines [ "0 + 0 in total (QC-passed reads + QC-failed reads)";
          "0 + 0 secondary";
          "0 + 0 properly paired (N/A : N/A)" ]%string.

Definition bcftools_42 : text :=
  lines [ "SN 0 number of samples: 1";
          "SN 0 number of records: 42" ]%string.

Definition reports_ok : reports :=
  {| insert_size_txt :=
       Some (lines [ "MEDIAN_INSERT_SIZE MODE MEAN_INSERT_SIZE";
                     "300 299 301.5" ]%string);
     gcbias_summary_txt :=
       Some (lines [ "All Reads 1 2 3 4 5 6 0.98 9" ]%string);
     mean_quality_by_cycle_txt :=
       Some (lines [ "# per-cycle quality"; "CYCLE MEAN_QUALITY";
                     "1 30.0"; "2 32.0" ]%string) |}.

(** The insert-size report is there, the bias summary is missing. *)
Definition reports_gcbias_missing : reports :=
  {| insert_size_txt := insert_size_txt reports_ok;
     gcbias_summary_txt := None;
     mean_quality_by_cycle_txt := mean_quality_by_cycle_txt reports_ok |}.

Definition ticks_ok : list cmd_output :=
  [ Some (lines [ "50, 1000" ]%string); Some (lines [ "70, 900" ]%string) ].

(** The probe answers once and fails on its second tick. *)
Definition ticks_second_fails : list cmd_output :=
  [ Some (lines [ "50, 1000" ]%string); None ].

Definition mk_inputs (fq hc : stage_run) (flagstat bcftools : cmd_output)
    (ticks : list cmd_output) (q : reports) : inputs :=
  {| fastq1_exists := true; fastq2_exists := true;
     fastq1_lines := Some 4000%nat;
     gpu_ticks := ticks;
     fq2bam_run := fq; fq2bam_seconds := FFinite (25 # 1);
     hc_run := hc; hc_seconds := FFinite (31 # 2);
     flagstat_out := flagstat; bcftools_out := bcftools;
     cpu_percent := FFinite (25 # 2); ram_used := 2097152;
     iostat_found := false; iostat_out := None;
     quality_files := q; metrics_writable := true |}.

(** A run in which everything works. *)
Definition good_inputs : inputs :=
  mk_inputs fq2bam_ok_run hc_ok_run (Some flagstat_200_180)
    (Some bcftools_42) ticks_ok reports_ok.

(** The alignment stage exits with status 1. *)
Definition failed_alignment_inputs : inputs :=
  mk_inputs fq2bam_failed_run hc_ok_run (Some flagstat_200_180)
    (Some bcftools_42) ticks_ok reports_ok.

(** Everything works, and the alignment holds no read. *)
Definition empty_alignment_inputs : inputs :=
  mk_inputs fq2bam_ok_run hc_ok_run (Some flagstat_zero)
    (Some bcftools_42) ticks_ok reports_ok.

(** The alignment exits with 0 and leaves no log file to read. *)
Definition fq2bam_no_log_run : stage_run :=
  {| launched := true; exit_code := 0;
     stdout := stdout fq2bam_ok_run; stderr := []; logfile := None |}.

Definition missing_log_inputs : inputs :=
  mk_inputs fq2bam_no_log_run hc_ok_run (Some flagstat_200_180)
    (Some bcftools_42) ticks_ok reports_ok.

Definition S1 : text := txt "S1".

Definition S1_metrics_csv : text := txt "./logs/S1_metrics.csv".

Definition bioinfo_env : text := txt "bioinfo_env".

(** The rows a run writes, if it writes any. *)
Definition rows_written (p : proc unit) : list (list pyval) :=
  match last (trace p) with
  | Some (WriteCsv _ rows) => rows
  | _ => []
  end.

Definition good_rows : list (list pyval) :=
  rows_written (process_sample bioinfo_env S1 good_inputs).

Definition batch_manifest : text :=
  lines [ "S1"; ""; "  S2  "; "S3" ]%string.

Definition batch_example : Batch.batch_env :=
  {| Batch.conda_default_env := bioinfo_env;
     Batch.sample_file := Some batch_manifest;
     Batch.task_inputs := fun n =>
       match n with
       | 1%nat => missing_log_inputs
       | _ => good_inputs
       end;
     Batch.completion := [2; 0; 1]%nat |}.

Definition cells (l : list string) : list text := map txt l.

(** Three per-sample files; the second has no "GC Bias" column. *)
Definition three_files : list (text * option Merge.csv_rows) :=
  [ (txt "S1_metrics.csv",
     Some [ cells [ "Sample"; "BWA Time (sec)"; "GC Bias" ]%string;
            cells [ "S1"; "12.5"; "0.98" ]%string ]);
    (txt "S2_metrics.csv",
     Some [ cells [ "Sample"; "BWA Time (sec)" ]%string;
            cells [ "S2"; "13.0" ]%string ]);
    (txt "S3_metrics.csv",
     Some [ cells [ "Sample"; "BWA Time (sec)"; "GC Bias" ]%string;
            cells [ "S3"; "11.0"; "0.97" ]%string ]);
    (txt "S1_fq2bam.log", None) ].

(** [bcftools stats] fails. *)
Definition no_variants_inputs : inputs :=
  mk_inputs fq2bam_ok_run hc_ok_run (Some flagstat_200_180) None
    ticks_ok reports_ok.

End Scenarios.

(** ** Further concrete runs *)

Module Cases.
Import PyStr Extract Quality Probes Stages Sample Fetch Driver.

(** A log with the rate block spread over two lines. *)
Definition rate_log : text :=
  Scenarios.lines [ "Rate stats (regions/min): min rate: 10.5";
                    "max rate: 99.0 avg rate: 50.25" ]%string.

(** The alignment succeeds and prints a time that is no number. *)
Definition bad_number_run : stage_run :=
  {| launched := true; exit_code := 0;
     stdout := Scenarios.lines
                 [ "bwalib run finished in 1.2.3 seconds" ]%string;
     stderr := [];
     logfile := Some [] |}.

Definition bad_number_inputs : inputs :=
  Scenarios.mk_inputs bad_number_run Scenarios.hc_ok_run
    (Some Scenarios.flagstat_200_180) (Some Scenarios.bcftools_42)
    Scenarios.ticks_ok Scenarios.reports_ok.

(** The batch of [Scenarios.batch_example], started in the base
    environment. *)
Definition wrong_env_batch : Batch.batch_env :=
  {| Batch.conda_default_env := txt "base";
     Batch.sample_file := Some Scenarios.batch_manifest;
     Batch.task_inputs := fun _ => Scenarios.good_inputs;
     Batch.completion := [2; 0; 1]%nat |}.

(** The raw BAM is on disk, the conversion works, and both the
    alignment and the variant calling exit with status 1. *)
Definition stages_fail : world :=
  {| bucket := {| answer := Refused; can_create := true;
                  can_rename := true |};
     bam2fq := Scenarios.hc_ok_run;
     bam2fq_effect := fun fs => fs;
     fq2bam := Scenarios.fq2bam_failed_run;
     fq2bam_effect := fun fs => fs;
     hc := Scenarios.fq2bam_failed_run;
     hc_effect := fun fs => fs;
     removable := fun _ => true |}.

Definition raw_bam_on_disk : files :=
  {[ txt "./raw_bams/S1.bam" := txt "BAM" ]}.

(** Three packages: the first is installed as required, the
    installation of the second exits with status 1. *)
Definition three_packages : list (Install.package * Install.conda) :=
  [ (Install.Name (txt "samtools==1.16.1"),
     {| Install.conda_found := true;
        Install.listed :=
          Some (Install.JArray
                  [Install.entry (txt "samtools") (txt "1.16.1")]);
        Install.install_exit := 0 |});
    (Install.Name (txt "bwa==0.7.18"),
     {| Install.conda_found := true;
        Install.listed := Some (Install.JArray []);
        Install.install_exit := 1 |});
    (Install.Tuple (txt "bcftools==1.16") (txt "bioconda"),
     {| Install.conda_found := true;
        Install.listed := Some (Install.JArray []);
        Install.install_exit := 0 |}) ].

End Cases.

(** * Properties *)

(** ** The progress counters of [parse_parabricks_output] *)

Module ExtractFacts.
Import PyStr PyNum Re Extract.

(** Where [re.search] finds nothing, [re.findall] finds nothing. *)
Lemma search_None_here r s :
  search r s = None -> match_here r s no_caps = None.
Proof.
  destruct s; simpl; destruct (match_here r _ no_caps); congruence.
Qed.

Lemma search_None_tail r a s :
  search r (a :: s) = None -> search r s = None.
Proof.
  simpl. destruct (match_here r (a :: s) no_caps); congruence.
Qed.

Lemma findall_from_search_None r s :
  search r s = None -> forall skip, findall_from r skip s = [].
Proof.
  induction s as [|a s IH]; intros Hs skip.
  - destruct skip; simpl; [|reflexivity].
    rewrite (search_None_here _ _ Hs). reflexivity.
  - pose proof (search_None_here _ _ Hs) as Hh.
    pose proof (IH (search_None_tail _ _ _ Hs)) as Ht.
    destruct skip; simpl.
    + rewrite Hh. apply Ht.
    + apply Ht.
Qed.

Lemma findall_search_None r s : search r s = None -> findall r s = [].
Proof. intros H. apply findall_from_search_None, H. Qed.

(** [set_float] sets exactly its key. *)
Lemma set_float_lookup key g (m m' : gmap string pyval) k :
  set_float key g m = Ok m' ->
  m' !! k = if decide (key = k)
            then match py_float g with Ok v => Some (PFloat v) | Raise _ => None end
            else m !! k.
Proof.
  unfold set_float. destruct (py_float g) as [v|e]; simpl; [|discriminate].
  intros [= <-]. apply lookup_insert.
Qed.

Lemma set_float_other key g (m m' : gmap string pyval) k :
  set_float key g m = Ok m' -> key <> k -> m' !! k = m !! k.
Proof.
  intros H Hne. rewrite (set_float_lookup _ _ _ _ k H).
  destruct (decide (key = k)); [contradiction|reflexivity].
Qed.

Lemma rule_step_other kp s (m m' : gmap string pyval) k :
  rule_step kp s m = Ok m' -> fst kp <> k -> m' !! k = m !! k.
Proof.
  unfold rule_step. destruct (search _ _).
  - apply set_float_other.
  - intros [= <-] _. reflexivity.
Qed.

Lemma rate_block_step_other s (m m' : gmap string pyval) k :
  rate_block_step s m = Ok m' ->
  k <> "min_rate"%string -> k <> "max_rate"%string ->
  k <> "avg_rate"%string ->
  m' !! k = m !! k.
Proof.
  unfold rate_block_step. destruct (search _ _) as [rb|].
  - destruct (set_float "min_rate" _ m) as [m1|] eqn:H1; simpl; [|discriminate].
    destruct (set_float "max_rate" _ m1) as [m2|] eqn:H2; simpl; [|discriminate].
    intros H3 ? ? ?.
    rewrite (set_float_other _ _ _ _ k H3), (set_float_other _ _ _ _ k H2),
      (set_float_other _ _ _ _ k H1); congruence.
  - intros [= <-] _ _ _. reflexivity.
Qed.

Lemma fallback_step_other key pat s (m m' : gmap string pyval) k :
  fallback_step key pat s m = Ok m' -> key <> k -> m' !! k = m !! k.
Proof.
  unfold fallback_step. destruct (m !! key).
  - intros [= <-] _. reflexivity.
  - destruct (last _).
    + apply set_float_other.
    + intros [= <-] _. reflexivity.
Qed.

Lemma rule_step_same key pat s (m m' : gmap string pyval) :
  m !! key = None ->
  rule_step (key, pat) s m = Ok m' -> m' !! key = first_match pat s.
Proof.
  unfold rule_step, first_match. simpl. intros Hm.
  destruct (search pat s) as [mt|].
  - intros H. rewrite (set_float_lookup _ _ _ _ key H).
    destruct (decide (key = key)); [reflexivity|contradiction].
  - intros [= <-]. exact Hm.
Qed.

(** The fall-back on [findall] changes nothing when it comes after the
    loop: either the key is there, or the pattern occurs nowhere. *)
Lemma fallback_step_after_search key pat s (m m' : gmap string pyval) :
  m !! key = first_match pat s ->
  (forall mt, search pat s = Some mt -> is_Some (m !! key)) ->
  fallback_step key pat s m = Ok m' -> m' = m.
Proof.
  unfold fallback_step. intros Hm Hsome.
  destruct (m !! key) eqn:Hk.
  - intros [= <-]. reflexivity.
  - destruct (search pat s) as [mt|] eqn:Hs.
    + destruct (Hsome mt eq_refl) as [? ?]. discriminate.
    + rewrite (findall_search_None _ _ Hs). simpl. intros [= <-]. reflexivity.
Qed.

End ExtractFacts.

Module ProgressCounters.
Import PyStr PyNum Re Extract ExtractFacts.

Lemma run_steps_cons st sts s (m m' : gmap string pyval) :
  run_steps (st :: sts) s m = Ok m' ->
  exists m1, st s m = Ok m1 /\ run_steps sts s m1 = Ok m'.
Proof.
  simpl. destruct (st s m) as [m1|e]; simpl; [|discriminate].
  intros H. exists m1. split; [reflexivity|exact H].
Qed.

Lemma rule_step_present key pat s (m m' : gmap string pyval) mt :
  rule_step (key, pat) s m = Ok m' ->
  search pat s = Some mt -> is_Some (m' !! key).
Proof.
  unfold rule_step. simpl. intros H Hs. rewrite Hs in H.
  unfold set_float in H.
  destruct (py_float (group1 mt)); simpl in H; [|discriminate].
  injection H as <-. rewrite lookup_insert_eq. eauto.
Qed.

Ltac next_step H m Hm :=
  apply run_steps_cons in H; destruct H as (m & Hm & H).

(** Whatever the output text, the value kept for a progress counter is
    the one of the first occurrence of its pattern: the fall-back on the
    last occurrence never takes effect. *)
Lemma regions_processed_first_match s (m : gmap string pyval) :
  parse_parabricks_output s = Ok m ->
  m !! "regions_processed"%string = first_match pat_regions_processed s.
Proof.
  unfold parse_parabricks_output, steps, rules. simpl map. simpl app.
  intros H.
  next_step H m1 H1. next_step H m2 H2. next_step H m3 H3.
  next_step H m4 H4. next_step H m5 H5. next_step H m6 H6.
  next_step H m7 H7. next_step H m8 H8. next_step H m9 H9.
  next_step H m10 H10. simpl in H. injection H as <-.
  assert (m5 !! "regions_processed"%string = None) as E5.
  { rewrite (rule_step_other _ _ _ _ _ H5), (rule_step_other _ _ _ _ _ H4),
      (rule_step_other _ _ _ _ _ H3), (rule_step_other _ _ _ _ _ H2),
      (rule_step_other _ _ _ _ _ H1); done. }
  pose proof (rule_step_same _ _ _ _ _ E5 H6) as E6.
  assert (m8 !! "regions_processed"%string = m6 !! "regions_processed"%string)
    as E8.
  { rewrite (rate_block_step_other _ _ _ _ H8), (rule_step_other _ _ _ _ _ H7);
      done. }
  assert (m9 = m8) as ->.
  { apply (fallback_step_after_search _ _ _ _ _ (eq_trans E8 E6)); [|exact H9].
    intros mt Hs. rewrite E8. eapply rule_step_present; eauto. }
  rewrite (fallback_step_other _ _ _ _ _ _ H10); [|done].
  congruence.
Qed.

Lemma regions_per_minute_first_match s (m : gmap string pyval) :
  parse_parabricks_output s = Ok m ->
  m !! "regions_per_minute"%string = first_match pat_regions_per_minute s.
Proof.
  unfold parse_parabricks_output, steps, rules. simpl map. simpl app.
  intros H.
  next_step H m1 H1. next_step H m2 H2. next_step H m3 H3.
  next_step H m4 H4. next_step H m5 H5. next_step H m6 H6.
  next_step H m7 H7. next_step H m8 H8. next_step H m9 H9.
  next_step H m10 H10. simpl in H. injection H as <-.
  assert (m6 !! "regions_per_minute"%string = None) as E6.
  { rewrite (rule_step_other _ _ _ _ _ H6), (rule_step_other _ _ _ _ _ H5),
      (rule_step_other _ _ _ _ _ H4),
      (rule_step_other _ _ _ _ _ H3), (rule_step_other _ _ _ _ _ H2),
      (rule_step_other _ _ _ _ _ H1); done. }
  pose proof (rule_step_same _ _ _ _ _ E6 H7) as E7.
  assert (m9 !! "regions_per_minute"%string = m7 !! "regions_per_minute"%string)
    as E9.
  { rewrite (fallback_step_other _ _ _ _ _ _ H9), (rate_block_step_other _ _ _ _ H8);
      done. }
  assert (m10 = m9) as ->.
  { apply (fallback_step_after_search _ _ _ _ _ (eq_trans E9 E7)); [|exact H10].
    intros mt Hs. rewrite E9. eapply rule_step_present; eauto. }
  congruence.
Qed.

(** C1 (the code at the input of the claim): on a progress log with the
    counter at 1000 and then at 2500, [re.findall] sees both values, last
    2500, and [parse_parabricks_output] keeps 1000, the first one. *)
Theorem progress_counter_keeps_first_occurrence :
  findall pat_regions_processed Scenarios.two_progress_lines
    = [txt "1000"; txt "2500"]
  /\ (m ← parse_parabricks_output Scenarios.two_progress_lines;
      Ok (m !! "regions_processed"%string))
     = Ok (Some (PFloat (FFinite (1000 # 1))))
  /\ py_float (txt "2500") = Ok (FFinite (2500 # 1)).
Proof. vm_compute. repeat split; reflexivity. Qed.

End ProgressCounters.

(** ** Runs of [process_sample] *)

Module SampleFacts.
Import PyStr PyNum Extract Quality Probes Stages Sample.

Lemma bind_trace_elem {A B} (p : proc A) (k : A -> proc B) (ev : event) :
  ev ∈ trace (p ≫= k) ->
  ev ∈ trace p \/ exists a, outcome p = Next a /\ ev ∈ trace (k a).
Proof.
  unfold mbind, proc_bind. destruct (outcome p) as [a| |e]; simpl.
  - rewrite elem_of_app. intros [H|H]; [left; exact H|right; eauto].
  - auto.
  - auto.
Qed.

Lemma logs_only_nil : logs_only [].
Proof. intros ev H. inversion H. Qed.

Lemma logs_only_one_error site subj e att :
  logs_only [LogError site subj e att].
Proof. intros ev H. apply list_elem_of_singleton in H. subst. reflexivity. Qed.

Lemma count_reads_logs f l : logs_only (fst (count_reads f l)).
Proof.
  destruct l; simpl; [apply logs_only_nil|apply logs_only_one_error].
Qed.

Lemma count_aligned_reads_logs b f : logs_only (fst (count_aligned_reads b f)).
Proof.
  unfold count_aligned_reads. destruct f as [out|]; [|apply logs_only_one_error].
  destruct (flagstat_loop _ _ _) as [[t p]|e]; [|apply logs_only_one_error].
  destruct (truthy t && truthy p);
    [apply logs_only_nil|apply logs_only_one_error].
Qed.

Lemma count_variants_logs v f : logs_only (fst (count_variants v f)).
Proof.
  unfold count_variants. destruct f as [out|]; [|apply logs_only_one_error].
  destruct (variants_loop _); [apply logs_only_nil|apply logs_only_one_error].
Qed.

Lemma monitor_loop_logs ticks : forall u m, logs_only (fst (monitor_loop ticks u m)).
Proof.
  induction ticks as [|[out|] ticks IH]; intros u m; simpl.
  - apply logs_only_nil.
  - destruct (gpu_lines _ _ _) as [[u' m']|e];
      [apply IH|apply logs_only_one_error].
  - apply logs_only_one_error.
Qed.

Lemma get_disk_io_logs s f o : logs_only (fst (get_disk_io s f o)).
Proof.
  unfold get_disk_io. destruct (negb f); [apply logs_only_one_error|].
  destruct o as [out|]; [|apply logs_only_one_error].
  destruct (iostat_loop _ _ _); [apply logs_only_nil|apply logs_only_one_error].
Qed.

Lemma parse_quality_reports_logs s r :
  logs_only (fst (parse_quality_reports s r)).
Proof.
  unfold parse_quality_reports. destruct (try_body r ∅) as [m [e|]];
    [apply logs_only_one_error|apply logs_only_nil].
Qed.

(** What a stage runner reports when it returns. *)
Lemma run_stage_events st site subj r ev :
  ev ∈ fst (run_stage st site subj r) -> is_log ev = false ->
  ev = StartStage st.
Proof.
  unfold run_stage.
  destruct (negb (launched r)); [|destruct (exit_code r =? 0)%Z;
    [destruct (logfile r)|]]; simpl; intros H Hl;
    repeat (apply elem_of_cons in H as [->|H]); try reflexivity;
    try discriminate; inversion H.
Qed.

Section Inversion.
Variables (env s : text) (i : inputs).

Ltac logs_absurd H Hl L :=
exfalso; apply L in H; rewrite H in Hl; discriminate.

Lemma process_sample_event ev :
ev ∈ trace (process_sample env s i) -> is_log ev = false ->
reached_stages env i /\
(ev = StartMonitor \/ ev = StartStage Fq2bam \/
 (fq2bam_succeeded s i /\
  (ev = StartStage HaplotypeCaller \/
   exists c, collected_from s i c
     /\ metrics_writable i = true
     /\ ev = WriteCsv (path_join LOG_DIR (s ++ txt "_metrics.csv"))
                      [header; row c]))).
Proof.
unfold process_sample. intros Hin Hl.
apply bind_trace_elem in Hin as [Hin | (a & Ho & Hin)].
{ unfold check_conda_env in Hin. destruct (text_eqb _ _); simpl in Hin.
  - inversion Hin.
  - apply list_elem_of_singleton in Hin. subst. discriminate. }
assert (env = txt "bioinfo_env") as Henv.
{ unfold check_conda_env, text_eqb in Ho. case_bool_decide; [assumption|discriminate]. }
clear Ho a. cbv beta in Hin.
destruct (negb _ || negb _) eqn:Hfq.
{ simpl in Hin. apply list_elem_of_singleton in Hin. subst. discriminate. }
apply orb_false_elim in Hfq as [Hf1 Hf2].
apply negb_false_iff in Hf1, Hf2.
cbv zeta in Hin.
apply bind_trace_elem in Hin as [Hin | (a1 & _ & Hin)].
{ simpl in Hin. apply list_elem_of_singleton in Hin. subst. discriminate. }
clear a1. cbv beta in Hin.
apply bind_trace_elem in Hin as [Hin | (total_reads & Ho & Hin)].
{ logs_absurd Hin Hl count_reads_logs. }
simpl in Ho. injection Ho as Ho.
destruct (fastq1_lines i) as [n|] eqn:Hn; simpl in Ho; subst total_reads;
  [|inversion Hin].
assert (reached_stages env i) as Hreach by (repeat split; eauto).
split; [exact Hreach|]. clear Hreach.
apply bind_trace_elem in Hin as [Hin | (a1 & _ & Hin)].
{ simpl in Hin. apply list_elem_of_singleton in Hin. auto. }
clear a1. cbv beta in Hin.
apply bind_trace_elem in Hin as [Hin | ([out succ] & Ho & Hin)].
{ right. left. simpl in Hin. eapply run_stage_events; eauto. }
simpl in Ho.
destruct (snd (run_parabricks_fq2bam s (fq2bam_run i))) as [[out' succ']|]
  eqn:Hfq; [|discriminate].
injection Ho as -> ->.
destruct succ; simpl in Hin; [|inversion Hin].
apply bind_trace_elem in Hin as [Hin | (fqm & Ho & Hin)].
{ inversion Hin. }
simpl in Ho. destruct (parse_parabricks_output out) as [fqm'|] eqn:Hfqm;
  [|discriminate].
injection Ho as ->. cbv beta in Hin.
right. right. split; [exists out, fqm; auto|].
apply bind_trace_elem in Hin as [Hin | ([hout hsucc] & Ho & Hin)].
{ left. simpl in Hin. eapply run_stage_events; eauto. }
simpl in Ho.
destruct (snd (run_parabricks_haplotypecaller _ (hc_run i)))
  as [[hout' hsucc']|] eqn:Hhc; [|discriminate].
injection Ho as -> ->.
destruct hsucc; simpl in Hin; [|inversion Hin].
apply bind_trace_elem in Hin as [Hin | (hcm & Ho & Hin)].
{ inversion Hin. }
simpl in Ho. destruct (parse_parabricks_output hout) as [hcm'|] eqn:Hhcm;
  [|discriminate].
injection Ho as ->. cbv beta in Hin.
apply bind_trace_elem in Hin as [Hin | ([ta pa] & Ho & Hin)].
{ logs_absurd Hin Hl count_aligned_reads_logs. }
simpl in Ho. injection Ho as Ho.
destruct ta as [| |total|]; try (inversion Hin; fail).
destruct pa as [| |pp|]; try (inversion Hin; fail).
apply bind_trace_elem in Hin as [Hin | (nv & Ho' & Hin)].
{ logs_absurd Hin Hl count_variants_logs. }
simpl in Ho'. injection Ho' as Hnv. cbv beta in Hin.
apply bind_trace_elem in Hin as [Hin | ([gu gm] & Ho' & Hin)].
{ logs_absurd Hin Hl monitor_loop_logs. }
simpl in Ho'. injection Ho' as Hgpu.
apply bind_trace_elem in Hin as [Hin | ([dr dw] & Ho' & Hin)].
{ logs_absurd Hin Hl get_disk_io_logs. }
simpl in Ho'. injection Ho' as Hdisk.
apply bind_trace_elem in Hin as [Hin | (qm & Ho' & Hin)].
{ logs_absurd Hin Hl parse_quality_reports_logs. }
simpl in Ho'. injection Ho' as Hqm. cbv beta in Hin.
unfold write_metrics in Hin.
destruct (metrics_writable i) eqn:Hw; simpl in Hin; [|inversion Hin].
apply list_elem_of_singleton in Hin.
right. eexists. split; [|split; [reflexivity|exact Hin]].
constructor; simpl; eauto.
Qed.
End Inversion.

Lemma outcome_bind {A B} (p : proc A) (k : A -> proc B) :
  outcome (p ≫= k)
  = match outcome p with
    | Next a => outcome (k a)
    | Return => Return
    | Throw e => Throw e
    end.
Proof. unfold mbind, proc_bind. destruct (outcome p); reflexivity. Qed.

Lemma trace_bind {A B} (p : proc A) (k : A -> proc B) :
  trace (p ≫= k)
  = trace p ++ match outcome p with
               | Next a => trace (k a)
               | _ => []
               end.
Proof.
  unfold mbind, proc_bind.
  destruct (outcome p); simpl; rewrite ?app_nil_r; reflexivity.
Qed.

Lemma check_conda_env_ok : check_conda_env (txt "bioinfo_env") = mret tt.
Proof. reflexivity. Qed.

Section Forward.
Variables (s : text) (i : inputs) (n : nat) (out hout : text)
  (fqm hcm : dict).
Hypothesis Hf1 : fastq1_exists i = true.
Hypothesis Hf2 : fastq2_exists i = true.
Hypothesis Hn : fastq1_lines i = Some n.
Hypothesis Hfq :
  snd (run_parabricks_fq2bam s (fq2bam_run i)) = Ok (out, true).
Hypothesis Hfqm : parse_parabricks_output out = Ok fqm.
Hypothesis Hhc :
  snd (run_parabricks_haplotypecaller
         (path_join ALIGNMENT_DIR (s ++ txt "_aligned.bam")) (hc_run i))
  = Ok (hout, true).
Hypothesis Hhcm : parse_parabricks_output hout = Ok hcm.

Lemma process_sample_unaligned :
  snd (count_aligned_reads
         (path_join ALIGNMENT_DIR (s ++ txt "_aligned.bam"))
         (flagstat_out i)) = (PNone, PNone) ->
  outcome (process_sample (txt "bioinfo_env") s i) = Return.
Proof.
  intros Ha. unfold process_sample.
  rewrite check_conda_env_ok, Hf1, Hf2. simpl in *.
  rewrite Hn. simpl. rewrite Hfq. simpl. rewrite Hfqm. simpl.
  rewrite Hhc. simpl. rewrite Hhcm. simpl. rewrite Ha. reflexivity.
Qed.

Lemma process_sample_aligned total pp :
  snd (count_aligned_reads
         (path_join ALIGNMENT_DIR (s ++ txt "_aligned.bam"))
         (flagstat_out i)) = (PInt total, PInt pp) ->
  outcome (process_sample (txt "bioinfo_env") s i)
  = (if metrics_writable i then Next tt else Throw OSError)
  /\ (metrics_writable i = true ->
      exists c,
        WriteCsv (path_join LOG_DIR (s ++ txt "_metrics.csv"))
                 [header; row c]
        ∈ trace (process_sample (txt "bioinfo_env") s i)).
Proof.
  intros Ha. unfold process_sample.
  rewrite check_conda_env_ok, Hf1, Hf2. simpl in *.
  rewrite Hn. simpl. rewrite Hfq. simpl. rewrite Hfqm. simpl.
  rewrite Hhc. simpl. rewrite Hhcm. simpl. rewrite Ha. simpl.
  destruct (get_gpu_usage_monitor (gpu_ticks i)) as [e1 [gu gm]].
  destruct (get_disk_io _ _ _) as [e2 [dr dw]]. simpl.
  unfold write_metrics. destruct (metrics_writable i); simpl.
  - split; [reflexivity|]. intros _. eexists.
    do 2 apply list_elem_of_further. rewrite !elem_of_app.
    do 7 right. apply list_elem_of_here.
  - split; [reflexivity|]. discriminate.
Qed.
End Forward.

End SampleFacts.

(** ** The derived alignment rate *)

Module AlignmentRate.
Import PyStr Extract Probes Stages Sample SampleFacts.

(** C2 (the code at a total of 0): on the flagstat output of an empty
    alignment both counts are read as 0, and [count_aligned_reads]
    answers [(None, None)], because its guard takes a count of 0 for a
    missing one; the run that got through both stages then returns
    before the rate is derived: it derives no rate and writes no row,
    although the expression of line 222 is written to give the integer 0
    at a total of 0.  The run on 200 reads of which 180 are properly
    paired has 90.0 in the ninth cell of its row. *)
Theorem zero_total_derives_no_rate :
  flagstat_loop (splitlines Scenarios.flagstat_zero) None None
    = Ok (Some 0, Some 0)
  /\ (forall bam,
        snd (count_aligned_reads bam (Some Scenarios.flagstat_zero))
        = (PNone, PNone))
  /\ outcome (process_sample Scenarios.bioinfo_env Scenarios.S1
                Scenarios.empty_alignment_inputs) = Return
  /\ (forall path rows,
        WriteCsv path rows
          ∉ trace (process_sample Scenarios.bioinfo_env Scenarios.S1
                     Scenarios.empty_alignment_inputs))
  /\ alignment_rate 0 0 = PInt 0
  /\ (exists r q,
        Scenarios.good_rows = [header; r]
        /\ r !! 8%nat = Some (PFloat (FFinite q)) /\ (q == 90)%Q).
Proof.
  split; [vm_compute; reflexivity|].
  split; [intros bam; reflexivity|].
  split; [vm_compute; reflexivity|].
  split.
  - intros path rows H. apply list_elem_of_In in H. vm_compute in H.
    repeat (destruct H as [H|H]; [discriminate H|]). exact H.
  - split; [reflexivity|]. do 2 eexists.
    split; [vm_compute; reflexivity|].
    split; [reflexivity|]. reflexivity.
Qed.

End AlignmentRate.

(** ** Zero counts in the flagstat output *)

Module ZeroCounts.
Import PyStr Extract Probes Stages Sample SampleFacts.

Lemma count_aligned_reads_zero bam out t p :
  flagstat_loop (splitlines out) None None = Ok (t, p) ->
  t = Some 0 \/ p = Some 0 ->
  snd (count_aligned_reads bam (Some out)) = (PNone, PNone).
Proof.
  intros Hl Hz. unfold count_aligned_reads. rewrite Hl.
  destruct Hz as [-> | ->]; simpl.
  - reflexivity.
  - rewrite andb_false_r. reflexivity.
Qed.

Lemma unaligned_run_writes_nothing env s i :
  (forall bam, snd (count_aligned_reads bam (flagstat_out i))
               = (PNone, PNone)) ->
  forall path rows, WriteCsv path rows ∉ trace (process_sample env s i).
Proof.
  intros Hna path rows Hin.
  destruct (process_sample_event env s i _ Hin eq_refl)
    as (_ & [H|[H|(_ & [H|(c & Hc & _ & _)])]]); try discriminate.
  destruct (cf_rate _ _ _ Hc) as (bam & total & pp & Ha & _).
  rewrite Hna in Ha. discriminate.
Qed.

(** C10: when the total or the properly-paired count read from the
    flagstat output is 0, [count_aligned_reads] answers [(None, None)],
    as it does when the command fails; no run of [process_sample] on
    such an output writes a metrics file, and a run that got through both
    stages returns at that point. *)
Theorem zero_counts_yield_no_row out t p :
  flagstat_loop (splitlines out) None None = Ok (t, p) ->
  t = Some 0 \/ p = Some 0 ->
  (forall bam,
     snd (count_aligned_reads bam (Some out)) = (PNone, PNone)
     /\ snd (count_aligned_reads bam (Some out))
        = snd (count_aligned_reads bam None))
  /\ (forall env s i, flagstat_out i = Some out ->
        forall path rows,
          WriteCsv path rows ∉ trace (process_sample env s i))
  /\ (forall s i, flagstat_out i = Some out ->
        reached_stages (txt "bioinfo_env") i ->
        fq2bam_succeeded s i ->
        (exists hout hcm,
           snd (run_parabricks_haplotypecaller
                  (path_join ALIGNMENT_DIR (s ++ txt "_aligned.bam"))
                  (hc_run i)) = Ok (hout, true)
           /\ parse_parabricks_output hout = Ok hcm) ->
        outcome (process_sample (txt "bioinfo_env") s i) = Return).
Proof.
  intros Hl Hz. split; [|split].
  - intros bam. split; [|rewrite (count_aligned_reads_zero _ _ _ _ Hl Hz)];
      eauto using count_aligned_reads_zero.
  - intros env s i Hi. apply unaligned_run_writes_nothing.
    intros bam. rewrite Hi. eapply count_aligned_reads_zero; eauto.
  - intros s i Hi (_ & Hf1 & Hf2 & n & Hn) (o & fqm & Hfq & Hfqm)
      (hout & hcm & Hhc & Hhcm).
    eapply process_sample_unaligned; eauto.
    rewrite Hi. eapply count_aligned_reads_zero; eauto.
Qed.

(** The flagstat output of an empty alignment. *)
Lemma zero_counts_yield_no_row_witness :
  (forall bam,
     snd (count_aligned_reads bam (Some Scenarios.flagstat_zero))
       = (PNone, PNone)
     /\ snd (count_aligned_reads bam (Some Scenarios.flagstat_zero))
        = snd (count_aligned_reads bam None))
  /\ (forall env s i, flagstat_out i = Some Scenarios.flagstat_zero ->
        forall path rows,
          WriteCsv path rows ∉ trace (process_sample env s i))
  /\ (forall s i, flagstat_out i = Some Scenarios.flagstat_zero ->
        reached_stages (txt "bioinfo_env") i ->
        fq2bam_succeeded s i ->
        (exists hout hcm,
           snd (run_parabricks_haplotypecaller
                  (path_join ALIGNMENT_DIR (s ++ txt "_aligned.bam"))
                  (hc_run i)) = Ok (hout, true)
           /\ parse_parabricks_output hout = Ok hcm) ->
        outcome (process_sample (txt "bioinfo_env") s i) = Return).
Proof.
  apply (zero_counts_yield_no_row Scenarios.flagstat_zero (Some 0) (Some 0)).
  - vm_compute. reflexivity.
  - left. reflexivity.
Defined.

End ZeroCounts.

(** ** A failing probe in [get_gpu_usage_monitor] *)

Module Monitor.
Import PyStr Extract Probes Stages Sample SampleFacts.

Lemma monitor_loop_failed_tick ticks :
  None ∈ ticks ->
  forall u m, snd (monitor_loop ticks u m) = (PNone, PNone).
Proof.
  induction ticks as [|probe ticks IH]; intros Hin u m.
  - inversion Hin.
  - simpl. destruct probe as [out|]; [|reflexivity].
    apply elem_of_cons in Hin as [Hin|Hin]; [discriminate|].
    destruct (gpu_lines _ _ _) as [[u' m']|e]; [|reflexivity].
    apply IH, Hin.
Qed.

(** C4: if the probe fails at any tick of the monitoring window,
    [get_gpu_usage_monitor] answers [(None, None)], whatever peaks the
    earlier ticks gave, and these are the two GPU cells of the row that
    [process_sample] writes. *)
Theorem failed_probe_voids_monitoring (ticks : list (option text)) :
  None ∈ ticks ->
  snd (get_gpu_usage_monitor ticks) = (PNone, PNone)
  /\ (forall env s i path rows,
        gpu_ticks i = ticks ->
        WriteCsv path rows ∈ trace (process_sample env s i) ->
        exists r, rows = [header; r]
                  /\ r !! 14%nat = Some PNone /\ r !! 15%nat = Some PNone).
Proof.
  intros Hin.
  assert (snd (get_gpu_usage_monitor ticks) = (PNone, PNone)) as Hm
    by (apply monitor_loop_failed_tick, Hin).
  split; [exact Hm|].
  intros env s i path rows Hi Hw.
  destruct (process_sample_event env s i _ Hw eq_refl)
    as (_ & [H|[H|(_ & [H|(c & Hc & _ & H)])]]); try discriminate.
  injection H as _ ->. exists (row c). split; [reflexivity|].
  pose proof (cf_gpu _ _ _ Hc) as Hg. rewrite Hi, Hm in Hg.
  injection Hg as Hu Hmem. simpl. rewrite Hu, Hmem. auto.
Qed.

(** A probe that answers "50, 1000" and then fails: the first tick alone
    would give the peaks 50 and 1000. *)
Lemma failed_probe_voids_monitoring_witness :
  snd (get_gpu_usage_monitor (take 1 Scenarios.ticks_second_fails))
    = (PInt 50, PInt 1000)
  /\ snd (get_gpu_usage_monitor Scenarios.ticks_second_fails)
     = (PNone, PNone)
  /\ (forall env s i path rows,
        gpu_ticks i = Scenarios.ticks_second_fails ->
        WriteCsv path rows ∈ trace (process_sample env s i) ->
        exists r, rows = [header; r]
                  /\ r !! 14%nat = Some PNone /\ r !! 15%nat = Some PNone).
Proof.
  split; [vm_compute; reflexivity|].
  apply (failed_probe_voids_monitoring Scenarios.ticks_second_fails).
  apply (list_elem_of_lookup_2 _ 1%nat). reflexivity.
Defined.

End Monitor.

(** ** Stage failures *)

Module StageFailure.
Import PyStr Extract Probes Stages Sample SampleFacts.

Lemma run_stage_nonzero st site subj r :
  launched r = true -> exit_code r <> 0 ->
  run_stage st site subj r
  = ([StartStage st;
      LogError site subj (Some CalledProcessError) (stderr r)],
     Ok (stderr r, false)).
Proof.
  intros Hl Hx. unfold run_stage. rewrite Hl. simpl.
  destruct (exit_code r =? 0) eqn:E; [|reflexivity].
  apply Z.eqb_eq in E. contradiction.
Qed.

(** A runner that reports success ran a command that exited with 0, and
    has logged the output it returns. *)
Lemma run_stage_success st site subj r out :
  snd (run_stage st site subj r) = Ok (out, true) ->
  exit_code r = 0
  /\ fst (run_stage st site subj r) = [StartStage st; LogInfo site subj out].
Proof.
  unfold run_stage. destruct (negb (launched r)); [discriminate|].
  destruct (exit_code r =? 0) eqn:E.
  - apply Z.eqb_eq in E. destruct (logfile r); [|discriminate].
    simpl. intros [= <-]. auto.
  - discriminate.
Qed.

Lemma run_stage_first_event st site subj r :
  exists rest, fst (run_stage st site subj r) = StartStage st :: rest.
Proof.
  unfold run_stage.
  destruct (negb (launched r)); [|destruct (exit_code r =? 0);
    [destruct (logfile r)|]]; simpl; eauto.
Qed.

(** The trace of a run whose alignment stage succeeded, up to the start
    of variant calling. *)
Lemma trace_up_to_haplotypecaller env s i out fqm :
  reached_stages env i ->
  snd (run_parabricks_fq2bam s (fq2bam_run i)) = Ok (out, true) ->
  parse_parabricks_output out = Ok fqm ->
  exists rest,
    trace (process_sample env s i)
    = [LogInfo AtProcessing s []; StartMonitor;
       StartStage Fq2bam; LogInfo AtFq2bam s out]
      ++ StartStage HaplotypeCaller :: rest.
Proof.
  intros (-> & Hf1 & Hf2 & n & Hn) Hfq Hfqm.
  destruct (run_stage_success _ _ _ _ _ Hfq) as (_ & Hev).
  unfold process_sample.
  rewrite check_conda_env_ok, Hf1, Hf2. simpl in *.
  rewrite Hn. simpl.
  unfold run_parabricks_fq2bam in *. rewrite Hfq, Hev. simpl.
  rewrite Hfqm. simpl.
  destruct (run_stage_first_event HaplotypeCaller AtHaplotypeCaller
              (path_join ALIGNMENT_DIR (s ++ txt "_aligned.bam")) (hc_run i))
    as (rest & Hrest).
  unfold run_parabricks_haplotypecaller. simpl in Hrest.
  destruct (run_stage HaplotypeCaller _ _ _) as [ev [[hout hsucc]|e]];
    simpl in *; subst ev.
  - destruct hsucc; simpl; eauto.
  - eauto.
Qed.

(** The trace of a run whose alignment stage reported a failure. *)
Lemma trace_fq2bam_failed env s i err :
  reached_stages env i ->
  run_parabricks_fq2bam s (fq2bam_run i)
  = ([StartStage Fq2bam;
      LogError AtFq2bam s (Some CalledProcessError) err], Ok (err, false)) ->
  process_sample env s i
  = Proc [LogInfo AtProcessing s []; StartMonitor; StartStage Fq2bam;
          LogError AtFq2bam s (Some CalledProcessError) err] Return.
Proof.
  intros (-> & Hf1 & Hf2 & n & Hn) Hfq.
  unfold process_sample.
  rewrite check_conda_env_ok, Hf1, Hf2. simpl in *.
  rewrite Hn. simpl. rewrite Hfq. reflexivity.
Qed.

(** C5: a runner whose command exits with a non-zero status reports
    failure and returns (and logs) the standard error text as it is;
    variant calling starts only in runs where the alignment stage
    reported success, and after that report; a run whose alignment stage
    failed returns at once, and a run in which either stage failed writes
    no metrics. *)
Theorem failed_stage_is_terminal :
  (forall subj r, launched r = true -> exit_code r <> 0 ->
     run_parabricks_fq2bam subj r
     = ([StartStage Fq2bam;
         LogError AtFq2bam subj (Some CalledProcessError) (stderr r)],
        Ok (stderr r, false))
     /\ run_parabricks_haplotypecaller subj r
        = ([StartStage HaplotypeCaller;
            LogError AtHaplotypeCaller subj (Some CalledProcessError)
              (stderr r)],
           Ok (stderr r, false)))
  /\ (forall env s i,
        StartStage HaplotypeCaller ∈ trace (process_sample env s i) ->
        exit_code (fq2bam_run i) = 0
        /\ exists out rest,
             snd (run_parabricks_fq2bam s (fq2bam_run i)) = Ok (out, true)
             /\ trace (process_sample env s i)
                = [LogInfo AtProcessing s []; StartMonitor;
                   StartStage Fq2bam; LogInfo AtFq2bam s out]
                  ++ StartStage HaplotypeCaller :: rest)
  /\ (forall env s i,
        reached_stages env i ->
        launched (fq2bam_run i) = true -> exit_code (fq2bam_run i) <> 0 ->
        process_sample env s i
        = Proc [LogInfo AtProcessing s []; StartMonitor; StartStage Fq2bam;
                LogError AtFq2bam s (Some CalledProcessError)
                  (stderr (fq2bam_run i))] Return)
  /\ (forall env s i path rows,
        (launched (fq2bam_run i) = true /\ exit_code (fq2bam_run i) <> 0)
        \/ (launched (hc_run i) = true /\ exit_code (hc_run i) <> 0) ->
        WriteCsv path rows ∉ trace (process_sample env s i)).
Proof.
  split; [|split; [|split]].
  - intros subj r Hl Hx. split; apply run_stage_nonzero; assumption.
  - intros env s i Hin.
    destruct (process_sample_event env s i _ Hin eq_refl)
      as (Hr & [H|[H|((out & fqm & Hfq & Hfqm) & _)]]); try discriminate.
    destruct (run_stage_success _ _ _ _ _ Hfq) as (Hx & _).
    split; [exact Hx|].
    destruct (trace_up_to_haplotypecaller env s i out fqm Hr Hfq Hfqm)
      as (rest & Ht).
    exists out, rest. auto.
  - intros env s i Hr Hl Hx. apply trace_fq2bam_failed; [exact Hr|].
    apply run_stage_nonzero; assumption.
  - intros env s i path rows Hfail Hin.
    destruct (process_sample_event env s i _ Hin eq_refl)
      as (_ & [H|[H|((out & fqm & Hfq & _) & [H|(c & Hc & _ & _)])]]);
      try discriminate.
    destruct Hfail as [[Hl Hx]|[Hl Hx]].
    + unfold run_parabricks_fq2bam in Hfq.
      rewrite (run_stage_nonzero _ _ _ _ Hl Hx) in Hfq. discriminate.
    + destruct (cf_hc _ _ _ Hc) as (bam & hout & Hhc & _).
      unfold run_parabricks_haplotypecaller in Hhc.
      rewrite (run_stage_nonzero _ _ _ _ Hl Hx) in Hhc. discriminate.
Qed.

(** The run of sample S1 whose alignment exits with status 1. *)
Lemma failed_stage_is_terminal_witness :
  process_sample Scenarios.bioinfo_env Scenarios.S1
    Scenarios.failed_alignment_inputs
  = Proc [LogInfo AtProcessing Scenarios.S1 []; StartMonitor;
          StartStage Fq2bam;
          LogError AtFq2bam Scenarios.S1 (Some CalledProcessError)
            (stderr Scenarios.fq2bam_failed_run)] Return.
Proof.
  apply (proj1 (proj2 (proj2 failed_stage_is_terminal))
           Scenarios.bioinfo_env Scenarios.S1
           Scenarios.failed_alignment_inputs).
  - repeat split; try reflexivity. exists 4000%nat. reflexivity.
  - reflexivity.
  - vm_compute. discriminate.
Defined.

End StageFailure.

(** ** The batch scheduler *)

Module BatchFacts.
Import PyStr PyNum Extract Probes Stages Sample SampleFacts Batch.

(** What the parts of [process_sample] can raise. *)
Lemma py_float_raises g e : py_float g = Raise e -> e = ValueError.
Proof.
  unfold py_float. destruct (sign (strip g)) as [neg s1].
  destruct (_ || _); [discriminate|].
  destruct (text_eqb _ _); [discriminate|].
  destruct (floatnumber s1); [discriminate|]. congruence.
Qed.

Lemma set_float_raises key g (m : gmap string pyval) e :
  set_float key g m = Raise e -> e = ValueError.
Proof.
  unfold set_float. destruct (py_float g) eqn:E; simpl; [discriminate|].
  intros [= <-]. eapply py_float_raises, E.
Qed.

Lemma rule_step_raises kp : raises_ValueError (rule_step kp).
Proof.
  intros s m e. unfold rule_step. destruct (Re.search _ _); [|discriminate].
  apply set_float_raises.
Qed.

Lemma rate_block_step_raises : raises_ValueError rate_block_step.
Proof.
  intros s m e. unfold rate_block_step.
  destruct (Re.search _ _) as [rb|]; [|discriminate].
  destruct (set_float "min_rate" _ m) as [m1|e1] eqn:H1; simpl.
  - destruct (set_float "max_rate" _ m1) as [m2|e2] eqn:H2; simpl.
    + apply set_float_raises.
    + intros [= <-]. eapply set_float_raises, H2.
  - intros [= <-]. eapply set_float_raises, H1.
Qed.

Lemma fallback_step_raises key pat : raises_ValueError (fallback_step key pat).
Proof.
  intros s m e. unfold fallback_step. destruct (m !! key); [discriminate|].
  destruct (last _); [|discriminate]. apply set_float_raises.
Qed.

Lemma run_steps_raises sts :
  Forall raises_ValueError sts -> raises_ValueError (run_steps sts).
Proof.
  induction 1 as [|st sts Hst _ IH]; intros s m e; simpl; [discriminate|].
  destruct (st s m) as [m1|e1] eqn:E; simpl.
  - apply IH.
  - intros [= <-]. eapply Hst, E.
Qed.

Lemma parse_parabricks_output_raises s e :
  parse_parabricks_output s = Raise e -> e = ValueError.
Proof.
  apply run_steps_raises. unfold steps, rules. simpl.
  repeat constructor;
    auto using rule_step_raises, rate_block_step_raises,
      fallback_step_raises.
Qed.

Lemma run_stage_raises st site subj r e :
  snd (run_stage st site subj r) = Raise e -> e = OSError.
Proof.
  unfold run_stage. destruct (negb (launched r)); simpl; [congruence|].
  destruct (exit_code r =? 0); [|discriminate].
  destruct (logfile r); simpl; [discriminate|congruence].
Qed.

(** [process_sample] leaves by [SystemExit] exactly when the environment
    check fails; what else it raises is an [Exception]. *)
Lemma process_sample_throws env s i e :
  outcome (process_sample env s i) = Throw e ->
  (env <> txt "bioinfo_env" /\ e = SystemExit 1)
  \/ (env = txt "bioinfo_env" /\ is_Exception e = true).
Proof.
  unfold process_sample, check_conda_env, text_eqb.
  case_bool_decide as Henv.
  2:{ simpl. intros [= <-]. left. auto. }
  intros H. right. split; [exact Henv|]. revert H.
  rewrite outcome_bind. simpl outcome at 1. cbv beta iota.
  destruct (negb _ || negb _); [discriminate|]. cbv zeta.
  rewrite outcome_bind. simpl outcome at 1. cbv beta iota.
  rewrite outcome_bind. simpl outcome at 1. cbv beta iota.
  destruct (snd (count_reads _ _)); try discriminate.
  rewrite outcome_bind. simpl outcome at 1. cbv beta iota.
  rewrite outcome_bind. simpl outcome at 1.
  destruct (snd (run_parabricks_fq2bam _ _)) as [[out succ]|e1] eqn:Hfq.
  2:{ intros [= <-]. apply run_stage_raises in Hfq. subst. reflexivity. }
  cbv beta iota. destruct succ; simpl negb; cbv iota; [|discriminate].
  rewrite outcome_bind. simpl outcome at 1.
  destruct (parse_parabricks_output out) as [fqm|e1] eqn:Hp1.
  2:{ intros [= <-]. apply parse_parabricks_output_raises in Hp1. subst. reflexivity. }
  cbv beta iota.
  rewrite outcome_bind. simpl outcome at 1.
  destruct (snd (run_parabricks_haplotypecaller _ _)) as [[hout hsucc]|e1] eqn:Hhc.
  2:{ intros [= <-]. apply run_stage_raises in Hhc. subst. reflexivity. }
  cbv beta iota. destruct hsucc; simpl negb; cbv iota; [|discriminate].
  rewrite outcome_bind. simpl outcome at 1.
  destruct (parse_parabricks_output hout) as [hcm|e1] eqn:Hp2.
  2:{ intros [= <-]. apply parse_parabricks_output_raises in Hp2. subst. reflexivity. }
  cbv beta iota.
  rewrite outcome_bind. simpl outcome at 1. cbv beta iota.
  destruct (snd (count_aligned_reads _ _)) as [[| |t|] [| |p|]];
    try discriminate.
  rewrite outcome_bind. simpl outcome at 1. cbv beta iota zeta.
  destruct (get_cpu_ram_usage _ _) as [cpu ram].
  rewrite outcome_bind. simpl outcome at 1.
  destruct (snd (get_gpu_usage_monitor _)) as [gu gm]. cbv beta iota.
  rewrite outcome_bind. simpl outcome at 1.
  destruct (snd (get_disk_io _ _ _)) as [dr dw]. cbv beta iota.
  rewrite outcome_bind. simpl outcome at 1. cbv beta iota.
  unfold write_metrics. destruct (metrics_writable i); simpl; [discriminate|].
  intros [= <-]. reflexivity.
Qed.

Lemma lookup_submit_all env l n s p :
  submit_all env l !! n = Some (s, p) ->
  l !! n = Some s
  /\ p = process_sample (conda_default_env env) s (task_inputs env n).
Proof.
  unfold submit_all. rewrite list_lookup_imap.
  destruct (l !! n) as [s'|]; simpl; [|discriminate].
  intros [= <- <-]. auto.
Qed.

Lemma submit_all_samples env l : (submit_all env l).*1 = l.
Proof.
  apply list_eq. intros n. unfold submit_all.
  rewrite list_lookup_fmap, list_lookup_imap.
  destruct (l !! n); reflexivity.
Qed.

(** The loop over the completed futures, when none of them left by
    [SystemExit]: it ends normally and has logged every exception. *)
Lemma collect_exceptions futures order :
  (forall n s p e, futures !! n = Some (s, p) -> outcome p = Throw e ->
                   is_Exception e = true) ->
  snd (collect futures order) = Ok tt
  /\ forall n s p e,
       n ∈ order -> futures !! n = Some (s, p) -> outcome p = Throw e ->
       LogError AtProcessSamples s (Some e) [] ∈ fst (collect futures order).
Proof.
  intros Hex. induction order as [|k order [IHo IHl]].
  - split; [reflexivity|]. intros n s p e Hn. inversion Hn.
  - simpl. destruct (futures !! k) as [[sk pk]|] eqn:Hk.
    + destruct (outcome pk) as [[]| |ek] eqn:Hok.
      * split; [exact IHo|]. intros n s p e Hn Hf Ho.
        apply elem_of_cons in Hn as [->|Hn]; [|eauto].
        rewrite Hk in Hf. injection Hf as <- <-. congruence.
      * split; [exact IHo|]. intros n s p e Hn Hf Ho.
        apply elem_of_cons in Hn as [->|Hn]; [|eauto].
        rewrite Hk in Hf. injection Hf as <- <-. congruence.
      * rewrite (Hex _ _ _ _ Hk Hok).
        destruct (collect futures order) as [evs r] eqn:Hc. simpl in *.
        split; [exact IHo|]. intros n s p e Hn Hf Ho.
        apply elem_of_cons in Hn as [->|Hn].
        -- rewrite Hk in Hf. injection Hf as <- <-.
           rewrite Hok in Ho. injection Ho as <-. apply list_elem_of_here.
        -- apply list_elem_of_further. eauto.
    + split; [exact IHo|]. intros n s p e Hn Hf Ho.
      apply elem_of_cons in Hn as [->|Hn]; [|eauto]. congruence.
Qed.

Lemma read_samples_spec content sample :
  sample ∈ read_samples content
  <-> exists line, line ∈ file_lines content
                   /\ strip line <> [] /\ sample = strip line.
Proof.
  unfold read_samples. rewrite list_elem_of_In, in_map_iff.
  split.
  - intros (line & <- & Hin). apply filter_In in Hin as [Hin Hnb].
    exists line. rewrite list_elem_of_In. repeat split; [exact Hin|].
    unfold nonblank in Hnb. destruct (strip line); [discriminate|discriminate].
  - intros (line & Hin & Hnb & ->). exists line. split; [reflexivity|].
    apply filter_In. rewrite <- list_elem_of_In. split; [exact Hin|].
    unfold nonblank. destruct (strip line); [contradiction|reflexivity].
Qed.

(** C6, as amended: the samples dispatched are the stripped non-blank
    lines of the manifest, each line once and in order; each is run by
    [process_sample] on its own surroundings; and when the run of a
    sample raises an exception of class [Exception], the scheduler logs
    it for that sample and still ends normally, whatever the other
    samples did and in whatever order the runs complete. *)
Theorem batch_runs_every_sample env content :
  sample_file env = Some content ->
  Permutation (completion env) (seq 0 (length (read_samples content))) ->
  (dispatched (process_samples env)).*1 = read_samples content
  /\ (forall sample,
        sample ∈ read_samples content
        <-> exists line, line ∈ file_lines content
                         /\ strip line <> [] /\ sample = strip line)
  /\ (forall n s p,
        dispatched (process_samples env) !! n = Some (s, p) ->
        p = process_sample (conda_default_env env) s (task_inputs env n))
  /\ (forall n s p e,
        dispatched (process_samples env) !! n = Some (s, p) ->
        outcome p = Throw e -> is_Exception e = true ->
        LogError AtProcessSamples s (Some e) []
          ∈ scheduler_log (process_samples env)
        /\ batch_outcome (process_samples env) = Ok tt).
Proof.
  intros Hfile Hperm. unfold process_samples. rewrite Hfile.
  destruct (collect _ _) as [evs r] eqn:Hc. simpl.
  split; [apply submit_all_samples|].
  split; [apply read_samples_spec|].
  split.
  - intros n s p Hn. apply lookup_submit_all in Hn as [_ ->]. reflexivity.
  - intros n s p e Hn Ho He.
    pose proof (lookup_submit_all _ _ _ _ _ Hn) as [Hs Hp].
    assert (conda_default_env env = txt "bioinfo_env") as Henv.
    { subst p. apply process_sample_throws in Ho as [[_ ->]|[H _]];
        [discriminate|exact H]. }
    destruct (collect_exceptions
                (submit_all env (read_samples content)) (completion env))
      as [Hok Hlog].
    { intros n' s' p' e' Hn' Ho'.
      apply lookup_submit_all in Hn' as [_ ->].
      apply process_sample_throws in Ho' as [[Hne _]|[_ H]];
        [contradiction|exact H]. }
    rewrite Hc in Hok, Hlog. simpl in *. split; [|exact Hok].
    apply (Hlog n s p e); [|exact Hn|exact Ho].
    apply list_elem_of_In. eapply Permutation_in; [symmetry; exact Hperm|].
    apply in_seq. apply lookup_lt_Some in Hs. lia.
Qed.

(** Three samples and a blank line; the second sample's log file is
    missing, and the runs complete in the order 3, 1, 2. *)
Lemma batch_runs_every_sample_witness :
  (dispatched (process_samples Scenarios.batch_example)).*1
    = [txt "S1"; txt "S2"; txt "S3"]
  /\ LogError AtProcessSamples (txt "S2") (Some OSError) []
       ∈ scheduler_log (process_samples Scenarios.batch_example)
  /\ batch_outcome (process_samples Scenarios.batch_example) = Ok tt.
Proof.
  destruct (batch_runs_every_sample Scenarios.batch_example
              Scenarios.batch_manifest) as (Hd & _ & _ & Hlog).
  - reflexivity.
  - apply (Permutation_cons_app [0; 1]%nat [] 2%nat). reflexivity.
  - split; [exact Hd|].
    apply (Hlog 1%nat (txt "S2")
             (process_sample Scenarios.bioinfo_env (txt "S2")
                Scenarios.missing_log_inputs) OSError).
    + vm_compute. reflexivity.
    + vm_compute. reflexivity.
    + reflexivity.
Defined.

(** C6 as stated fails: in a batch started outside the [bioinfo_env]
    environment the run of each sample leaves by [SystemExit(1)]; the
    scheduler, which catches [Exception] only, logs nothing for the
    first run it collects and ends by that [SystemExit] itself, so that
    the results of the other two runs are never collected. *)
Lemma system_exit_escapes_the_scheduler :
  (forall n s p,
     dispatched (process_samples Cases.wrong_env_batch) !! n = Some (s, p) ->
     outcome p = Throw (SystemExit 1))
  /\ completion Cases.wrong_env_batch = [2; 0; 1]%nat
  /\ (dispatched (process_samples Cases.wrong_env_batch)).*1
     = [txt "S1"; txt "S2"; txt "S3"]
  /\ scheduler_log (process_samples Cases.wrong_env_batch) = []
  /\ batch_outcome (process_samples Cases.wrong_env_batch)
     = Raise (SystemExit 1)
  /\ is_Exception (SystemExit 1) = false.
Proof.
  split.
  - intros n s p H.
    destruct n as [|[|[|n]]]; vm_compute in H; try discriminate H;
      injection H as _ <-; reflexivity.
  - repeat split; vm_compute; reflexivity.
Qed.

End BatchFacts.

(** ** The aggregator *)

Module MergeFacts.
Import PyStr Merge.

Lemma merge_loop_spec listing :
  forall files acc header_written,
    selected listing = map Some files ->
    exists hw,
      merge_loop listing (acc, header_written)
      = Ok (acc
            ++ (if header_written then [] else take 1 (concat files))
            ++ concat (map (drop 1) files), hw).
Proof.
  induction listing as [|[name file] listing IH];
    intros files acc hw Hsel.
  - destruct files; [|inversion Hsel].
    exists hw. simpl. destruct hw; rewrite ?app_nil_r; reflexivity.
  - unfold selected in Hsel. simpl in Hsel. simpl.
    destruct (endswith name _).
    + destruct files as [|f files]; [discriminate|].
      simpl in Hsel. injection Hsel as -> Hsel.
      destruct f as [|first others].
      * simpl. apply IH. exact Hsel.
      * destruct hw; simpl.
        -- destruct (IH files (acc ++ others) true Hsel) as [hw' ->].
           exists hw'. rewrite <- !app_assoc. reflexivity.
        -- destruct (IH files ((acc ++ [first]) ++ others) true Hsel)
             as [hw' ->].
           exists hw'. rewrite <- !app_assoc. reflexivity.
    + simpl. apply IH. exact Hsel.
Qed.

(** C7, as the code has it: the merge never pads.  When the per-sample
    files can be read, whatever their columns, it does not raise and
    writes the first row of the first non-empty file followed by the
    rows after the first of every file, each row as it was read; so every
    data row of every file is in the merged report, unchanged. *)
Theorem merge_copies_rows_unpadded threads gpus concurrent listing files :
  selected listing = map Some files ->
  merge_metrics threads gpus concurrent (Some listing)
  = Ok (merged_filename threads gpus concurrent,
        take 1 (concat files) ++ concat (map (drop 1) files))
  /\ forall file r,
       file ∈ files -> r ∈ drop 1 file ->
       r ∈ take 1 (concat files) ++ concat (map (drop 1) files).
Proof.
  intros Hsel. split.
  - unfold merge_metrics.
    destruct (merge_loop_spec listing files [] false Hsel) as [hw ->].
    reflexivity.
  - intros file r Hf Hr. apply elem_of_app. right.
    apply list_elem_of_In, in_concat. exists (drop 1 file).
    split; [apply in_map, list_elem_of_In, Hf|apply list_elem_of_In, Hr].
Qed.

(** Three files, the second without the "GC Bias" column. *)
Lemma merge_copies_rows_unpadded_witness :
  merge_metrics 8 1 4 (Some Scenarios.three_files)
  = Ok (txt "processing_metrics_t8g1c4.csv",
        [ Scenarios.cells [ "Sample"; "BWA Time (sec)"; "GC Bias" ]%string;
          Scenarios.cells [ "S1"; "12.5"; "0.98" ]%string;
          Scenarios.cells [ "S2"; "13.0" ]%string;
          Scenarios.cells [ "S3"; "11.0"; "0.97" ]%string ]).
Proof.
  exact (proj1 (merge_copies_rows_unpadded 8 1 4 Scenarios.three_files
           [ [ Scenarios.cells [ "Sample"; "BWA Time (sec)"; "GC Bias" ]%string;
               Scenarios.cells [ "S1"; "12.5"; "0.98" ]%string ];
             [ Scenarios.cells [ "Sample"; "BWA Time (sec)" ]%string;
               Scenarios.cells [ "S2"; "13.0" ]%string ];
             [ Scenarios.cells [ "Sample"; "BWA Time (sec)"; "GC Bias" ]%string;
               Scenarios.cells [ "S3"; "11.0"; "0.97" ]%string ] ]
           eq_refl)).
Defined.

(** C7 as stated fails: in the merged report of the three files the row
    of the second sample has two cells under a header of three, and none
    of them is the sentinel. *)
Lemma merge_does_not_pad :
  exists header r1 r2 r3,
    merge_metrics 8 1 4 (Some Scenarios.three_files)
    = Ok (txt "processing_metrics_t8g1c4.csv", [header; r1; r2; r3])
    /\ length header = 3%nat
    /\ r2 = Scenarios.cells [ "S2"; "13.0" ]%string
    /\ r2 <> Scenarios.cells [ "S2"; "13.0"; "NA" ]%string
    /\ txt "NA" ∉ r2.
Proof.
  do 4 eexists. split; [vm_compute; reflexivity|].
  split; [reflexivity|]. split; [reflexivity|].
  split; [discriminate|].
  intros H. apply list_elem_of_In in H. vm_compute in H.
  destruct H as [H|[H|[]]]; discriminate.
Qed.

End MergeFacts.

(** ** Cells that were not captured *)

Module Serialization.
Import PyStr Extract Probes Stages Sample SampleFacts Csv.

(** A key that is absent is written as ["NA"]. *)
Lemma absent_key_is_NA float_repr (d : gmap string pyval) key :
  d !! key = None -> cell_text float_repr (get_or_NA d key) = txt "NA".
Proof. unfold get_or_NA. intros ->. reflexivity. Qed.

(** Whenever [bcftools stats] fails, a row that is written has [None]
    for the variant count, which [csv.writer] writes as the empty cell. *)
Lemma missing_variants_cell float_repr env s i path rows :
  bcftools_out i = None ->
  WriteCsv path rows ∈ trace (process_sample env s i) ->
  exists r, rows = [header; r] /\ writerow float_repr r !! 9%nat = Some [].
Proof.
  intros Hb Hin.
  destruct (process_sample_event env s i _ Hin eq_refl)
    as (_ & [H|[H|(_ & [H|(c & Hc & _ & H)])]]); try discriminate.
  injection H as _ ->. exists (row c). split; [reflexivity|].
  destruct (cf_variants _ _ _ Hc) as (vcf & Hv).
  rewrite Hb in Hv. simpl in Hv. simpl. rewrite Hv. reflexivity.
Qed.

(** C8 (the code at a failing input): in the run of sample S1 whose
    [bcftools stats] call fails, the metrics file is written, its
    "Variants Called" cell holds [None] and is written as the empty
    string, not as ["NA"]; the same holds for the two disk cells, the
    disk probe being absent.  A metric missing from a dictionary is
    written as ["NA"]. *)
Theorem uncaptured_variants_cell_is_empty float_repr :
  exists r,
    Scenarios.rows_written
      (process_sample Scenarios.bioinfo_env Scenarios.S1
         Scenarios.no_variants_inputs) = [header; r]
    /\ header !! 9%nat = Some (PStr (txt "Variants Called"))
    /\ r !! 9%nat = Some PNone
    /\ writerow float_repr r !! 9%nat = Some []
    /\ writerow float_repr r !! 16%nat = Some []
    /\ writerow float_repr r !! 17%nat = Some []
    /\ writerow float_repr r !! 22%nat = Some (txt "NA")
    /\ [] <> txt "NA".
Proof.
  eexists. split; [vm_compute; reflexivity|].
  repeat split; discriminate.
Qed.

End Serialization.

(** ** Keys are never lost *)

Module Presence.
Import PyStr PyNum Extract Quality Probes Stages Sample SampleFacts.

Lemma grows_refl (m : gmap string pyval) : grows m m.
Proof. intros k H. exact H. Qed.

Lemma grows_trans (m1 m2 m3 : gmap string pyval) :
  grows m1 m2 -> grows m2 m3 -> grows m1 m3.
Proof. intros H12 H23 k H. apply H23, H12, H. Qed.

Lemma grows_insert (m : gmap string pyval) key v : grows m (<[key := v]> m).
Proof.
  intros k H. rewrite lookup_insert. destruct (decide (key = k)); eauto.
Qed.

Lemma captured_empty : captured ∅.
Proof. intros k v H. rewrite lookup_empty in H. discriminate. Qed.

Lemma captured_insert (m : gmap string pyval) key v :
  v <> NA -> v <> PNone -> captured m -> captured (<[key := v]> m).
Proof.
  intros H1 H2 Hm k w. rewrite lookup_insert.
  destruct (decide (key = k)).
  - intros [= <-]. auto.
  - apply Hm.
Qed.

Lemma set_float_keeps key g (m m' : gmap string pyval) :
  set_float key g m = Ok m' -> grows m m' /\ (captured m -> captured m').
Proof.
  unfold set_float. destruct (py_float g) as [v|]; simpl; [|discriminate].
  intros [= <-]. split; [apply grows_insert|].
  apply captured_insert; discriminate.
Qed.

Lemma keeps_refl (m : gmap string pyval) :
  grows m m /\ (captured m -> captured m).
Proof. split; [apply grows_refl|auto]. Qed.

Lemma keeps_trans (m1 m2 m3 : gmap string pyval) :
  grows m1 m2 /\ (captured m1 -> captured m2) ->
  grows m2 m3 /\ (captured m2 -> captured m3) ->
  grows m1 m3 /\ (captured m1 -> captured m3).
Proof.
  intros [G12 C12] [G23 C23]. split; [eapply grows_trans; eauto|auto].
Qed.

Lemma rule_step_keeps kp : step_keeps (rule_step kp).
Proof.
  intros s m m'. unfold rule_step. destruct (Re.search _ _).
  - apply set_float_keeps.
  - intros [= <-]. apply keeps_refl.
Qed.

Lemma rate_block_step_keeps : step_keeps rate_block_step.
Proof.
  intros s m m'. unfold rate_block_step.
  destruct (Re.search _ _) as [rb|]; [|intros [= <-]; apply keeps_refl].
  destruct (set_float "min_rate" _ m) as [m1|] eqn:H1; simpl; [|discriminate].
  destruct (set_float "max_rate" _ m1) as [m2|] eqn:H2; simpl; [|discriminate].
  intros H3.
  eapply keeps_trans; [eapply set_float_keeps, H1|].
  eapply keeps_trans; [eapply set_float_keeps, H2|].
  eapply set_float_keeps, H3.
Qed.

Lemma fallback_step_keeps key pat : step_keeps (fallback_step key pat).
Proof.
  intros s m m'. unfold fallback_step.
  destruct (m !! key); [intros [= <-]; apply keeps_refl|].
  destruct (last _); [apply set_float_keeps|intros [= <-]; apply keeps_refl].
Qed.

Lemma steps_keep : Forall step_keeps steps.
Proof.
  unfold steps, rules. simpl.
  repeat (apply List.Forall_cons;
          [first [ apply rule_step_keeps | apply rate_block_step_keeps
                 | apply fallback_step_keeps ]|]).
  apply List.Forall_nil.
Qed.

Lemma run_steps_keeps sts :
  Forall step_keeps sts -> step_keeps (run_steps sts).
Proof.
  induction 1 as [|st sts Hst _ IH]; intros s m m'; simpl.
  - intros [= <-]. apply keeps_refl.
  - destruct (st s m) as [m1|] eqn:E; simpl; [|discriminate].
    intros H. eapply keeps_trans; [eapply Hst, E|eapply IH, H].
Qed.

Lemma parse_parabricks_output_captured s (m : gmap string pyval) :
  parse_parabricks_output s = Ok m -> captured m.
Proof.
  unfold parse_parabricks_output. intros H.
  destruct (run_steps_keeps _ steps_keep _ _ _ H) as [_ Hc].
  apply Hc, captured_empty.
Qed.

(** The blocks of [parse_quality_reports]. *)
Lemma skip_keeps : upd_keeps skip.
Proof. intros m. apply keeps_refl. Qed.

Lemma throw_keeps e : upd_keeps (throw e).
Proof. intros m. apply keeps_refl. Qed.

Lemma andthen_keeps f g : upd_keeps f -> upd_keeps g -> upd_keeps (andthen f g).
Proof.
  intros Hf Hg m. unfold andthen. specialize (Hf m).
  destruct (f m) as [m1 [e|]]; simpl in *; [exact Hf|].
  eapply keeps_trans; [exact Hf|apply Hg].
Qed.

Lemma assign_keeps key v :
  (forall x, v = Ok x -> x <> NA /\ x <> PNone) -> upd_keeps (assign key v).
Proof.
  intros Hv m. unfold assign. destruct v as [x|e]; simpl; [|apply keeps_refl].
  destruct (Hv x eq_refl). split; [apply grows_insert|].
  apply captured_insert; assumption.
Qed.

Lemma float_of_value tok x : float_of tok = Ok x -> x <> NA /\ x <> PNone.
Proof.
  unfold float_of. destruct tok as [t|]; simpl; [|discriminate].
  destruct (py_float t); simpl; [|discriminate].
  intros [= <-]. split; discriminate.
Qed.

Lemma insert_size_loop_keeps lines : upd_keeps (insert_size_loop lines).
Proof.
  induction lines as [|line rest IH]; simpl; [apply skip_keeps|].
  apply andthen_keeps; [|exact IH].
  destruct (contains _ _); [|apply skip_keeps].
  destruct rest; [apply skip_keeps|].
  apply assign_keeps, float_of_value.
Qed.

Lemma gcbias_loop_keeps lines : upd_keeps (gcbias_loop lines).
Proof.
  induction lines as [|line rest IH]; simpl; [apply skip_keeps|].
  apply andthen_keeps; [|exact IH].
  destruct (startswith _ _); [|apply skip_keeps].
  apply assign_keeps, float_of_value.
Qed.

Lemma mean_value qs : mean qs <> NA /\ mean qs <> PNone.
Proof. destruct qs; split; discriminate. Qed.

Lemma with_open_keeps file body :
  (forall lines, upd_keeps (body lines)) -> upd_keeps (with_open file body).
Proof.
  intros H. destruct file; simpl; [apply H|apply throw_keeps].
Qed.

Lemma phases_keep r : Forall upd_keeps (phases r).
Proof.
  unfold phases. repeat apply List.Forall_cons; [| | |apply List.Forall_nil].
  - apply with_open_keeps, insert_size_loop_keeps.
  - apply with_open_keeps, gcbias_loop_keeps.
  - apply with_open_keeps. intros lines. apply assign_keeps.
    intros x. destruct (quality_loop _ _ _); simpl; [|discriminate].
    intros [= <-]. apply mean_value.
Qed.

Lemma fold_andthen_keeps us :
  Forall upd_keeps us -> upd_keeps (fold_right andthen skip us).
Proof.
  induction 1; simpl; [apply skip_keeps|]. apply andthen_keeps; assumption.
Qed.

Lemma parse_quality_reports_captured s r :
  captured (snd (parse_quality_reports s r)).
Proof.
  unfold parse_quality_reports, try_body.
  destruct (fold_andthen_keeps _ (phases_keep r) ∅) as [_ H].
  specialize (H captured_empty).
  destruct (fold_right andthen skip (phases r) ∅) as [m [e|]];
    simpl in *; exact H.
Qed.

(** The row shows each dictionary cell by [get]. *)
Lemma row_dict_column c j d k :
  (j, d, k) ∈ dict_columns -> row c !! j = Some (get_or_NA (d c) k).
Proof.
  unfold dict_columns. intros H.
  repeat (apply elem_of_cons in H as [[= -> -> ->]|H]; [reflexivity|]).
  inversion H.
Qed.

(** C3: a key that is in a metrics dictionary stays in it, with a value
    that is neither ["NA"] nor [None], through every later statement of
    [parse_parabricks_output] and of [parse_quality_reports] (for the
    latter also when the block stops on an exception); and in every row
    that [process_sample] writes, each cell that comes from a dictionary
    shows the value of its key when the key is present, and the two peak
    cells show what the monitor returned. *)
Theorem metrics_presence_monotone :
  (forall pre post s (m m' : gmap string pyval),
     steps = pre ++ post -> run_steps post s m = Ok m' ->
     grows m m' /\ (captured m -> captured m'))
  /\ (forall r pre post (m : gmap string pyval),
        phases r = pre ++ post ->
        grows m (fst (fold_right andthen skip post m))
        /\ (captured m -> captured (fst (fold_right andthen skip post m))))
  /\ (forall env s i path rows,
        WriteCsv path rows ∈ trace (process_sample env s i) ->
        exists c,
          rows = [header; row c] /\ collected_from s i c
          /\ (forall j d k v,
                (j, d, k) ∈ dict_columns -> d c !! k = Some v ->
                row c !! j = Some v /\ v <> NA /\ v <> PNone)
          /\ row c !! 14%nat
             = Some (fst (snd (get_gpu_usage_monitor (gpu_ticks i))))
          /\ row c !! 15%nat
             = Some (snd (snd (get_gpu_usage_monitor (gpu_ticks i))))).
Proof.
  split; [|split].
  - intros pre post s m m' Hsplit. apply run_steps_keeps.
    pose proof steps_keep as H. rewrite Hsplit in H.
    apply Forall_app in H as [_ H]. exact H.
  - intros r pre post m Hsplit. apply fold_andthen_keeps.
    pose proof (phases_keep r) as H. rewrite Hsplit in H.
    apply Forall_app in H as [_ H]. exact H.
  - intros env s i path rows Hin.
    destruct (process_sample_event env s i _ Hin eq_refl)
      as (_ & [H|[H|(_ & [H|(c & Hc & _ & H)])]]); try discriminate.
    injection H as _ ->. exists c. split; [reflexivity|].
    split; [exact Hc|]. split.
    + intros j d k v Hcol Hv.
      rewrite (row_dict_column _ _ _ _ Hcol). unfold get_or_NA.
      rewrite Hv. simpl. split; [reflexivity|].
      assert (captured (d c)) as Hcap; [|exact (Hcap k v Hv)].
      destruct (cf_fq2bam _ _ _ Hc) as (o1 & _ & H1).
      destruct (cf_hc _ _ _ Hc) as (b2 & o2 & _ & H2).
      pose proof (cf_quality _ _ _ Hc) as H3.
      unfold dict_columns in Hcol.
      repeat (apply elem_of_cons in Hcol as [[= -> -> ->]|Hcol];
              [first [ eapply parse_parabricks_output_captured; eassumption
                     | rewrite H3; apply parse_quality_reports_captured ]|]).
      inversion Hcol.
    + pose proof (cf_gpu _ _ _ Hc) as Hg. rewrite <- Hg. auto.
Qed.

(** The run of [Scenarios.good_inputs]. *)
Lemma metrics_presence_monotone_witness :
  exists c,
    Scenarios.good_rows = [header; row c]
    /\ collected_from Scenarios.S1 Scenarios.good_inputs c
    /\ (forall j d k v,
          (j, d, k) ∈ dict_columns -> d c !! k = Some v ->
          row c !! j = Some v /\ v <> NA /\ v <> PNone)
    /\ row c !! 14%nat
       = Some (fst (snd (get_gpu_usage_monitor
                           (gpu_ticks Scenarios.good_inputs))))
    /\ row c !! 15%nat
       = Some (snd (snd (get_gpu_usage_monitor
                           (gpu_ticks Scenarios.good_inputs)))).
Proof.
  apply (proj2 (proj2 metrics_presence_monotone)
           Scenarios.bioinfo_env Scenarios.S1 Scenarios.good_inputs
           Scenarios.S1_metrics_csv Scenarios.good_rows).
  apply (list_elem_of_lookup_2 _ 7%nat). vm_compute. reflexivity.
Defined.

End Presence.

(** ** Failures while reading the quality reports *)

Module QualityFailure.
Import PyStr PyNum Extract Quality Probes Stages Sample SampleFacts.

Lemma skip_touches key : touches_only key skip.
Proof. intros m k _. reflexivity. Qed.

Lemma throw_touches key e : touches_only key (throw e).
Proof. intros m k _. reflexivity. Qed.

Lemma assign_touches key v : touches_only key (assign key v).
Proof.
  intros m k Hk. unfold assign. destruct v; simpl; [|reflexivity].
  apply lookup_insert_ne. congruence.
Qed.

Lemma andthen_touches key f g :
  touches_only key f -> touches_only key g -> touches_only key (andthen f g).
Proof.
  intros Hf Hg m k Hk. unfold andthen. specialize (Hf m k Hk).
  destruct (f m) as [m1 [e|]]; simpl in *; [exact Hf|].
  rewrite (Hg m1 k Hk). exact Hf.
Qed.

Lemma insert_size_loop_touches lines :
  touches_only "mean_insert_size" (insert_size_loop lines).
Proof.
  induction lines as [|line rest IH]; simpl; [apply skip_touches|].
  apply andthen_touches; [|exact IH].
  destruct (contains _ _); [|apply skip_touches].
  destruct rest; [apply skip_touches|apply assign_touches].
Qed.

Lemma gcbias_loop_touches lines :
  touches_only "gc_bias" (gcbias_loop lines).
Proof.
  induction lines as [|line rest IH]; simpl; [apply skip_touches|].
  apply andthen_touches; [|exact IH].
  destruct (startswith _ _); [apply assign_touches|apply skip_touches].
Qed.

Lemma read_insert_size_touches r :
  touches_only "mean_insert_size" (read_insert_size r).
Proof.
  unfold read_insert_size, with_open. destruct (insert_size_txt r);
    [apply insert_size_loop_touches|apply throw_touches].
Qed.

Lemma read_gcbias_touches r : touches_only "gc_bias" (read_gcbias r).
Proof.
  unfold read_gcbias, with_open. destruct (gcbias_summary_txt r);
    [apply gcbias_loop_touches|apply throw_touches].
Qed.

(** The dictionary the function returns is the one the [try] block left. *)
Lemma parse_quality_reports_dict s r :
  snd (parse_quality_reports s r) = fst (try_body r ∅).
Proof.
  unfold parse_quality_reports. destruct (try_body r ∅) as [m [e|]];
    reflexivity.
Qed.

Lemma try_body_unfold r m :
  try_body r m
  = andthen (read_insert_size r)
      (andthen (read_gcbias r) (andthen (read_mean_quality r) skip)) m.
Proof. reflexivity. Qed.

(** With no bias summary, the block stops where the insert-size part
    left the dictionary. *)
Lemma gcbias_missing_dict r :
  gcbias_summary_txt r = None ->
  fst (try_body r ∅) = fst (read_insert_size r ∅).
Proof.
  intros Hg. rewrite try_body_unfold. unfold andthen at 1.
  destruct (read_insert_size r ∅) as [m1 [e|]]; [reflexivity|].
  unfold andthen, read_gcbias, with_open. rewrite Hg. reflexivity.
Qed.

Lemma mean_quality_missing_dict r :
  mean_quality_by_cycle_txt r = None ->
  fst (try_body r ∅)
  = fst (andthen (read_insert_size r) (read_gcbias r) ∅).
Proof.
  intros Hq. rewrite try_body_unfold. unfold andthen.
  destruct (read_insert_size r ∅) as [m1 [e|]]; [reflexivity|].
  destruct (read_gcbias r m1) as [m2 [e|]]; [reflexivity|].
  unfold read_mean_quality, with_open. rewrite Hq. reflexivity.
Qed.

(** What the run does next does not depend on the quality reports. *)
Lemma outcome_with_quality env s i q :
  outcome (process_sample env s (with_quality q i))
  = outcome (process_sample env s i).
Proof.
  unfold process_sample.
  rewrite !(outcome_bind (check_conda_env env)).
  destruct (outcome (check_conda_env env)); [|reflexivity|reflexivity].
  simpl fastq1_exists. simpl fastq2_exists.
  destruct (negb _ || negb _); [reflexivity|]. cbv zeta.
  rewrite !(outcome_bind (emit _)). simpl outcome at 1 3. cbv beta iota.
  rewrite !(outcome_bind (call _)). simpl outcome at 1 3. cbv beta iota.
  simpl fastq1_lines.
  destruct (snd (count_reads _ _)) as [| |n|];
    [reflexivity|reflexivity| |reflexivity].
  rewrite !(outcome_bind (emit _)). simpl outcome at 1 3. cbv beta iota.
  rewrite !(outcome_bind (call_raising _)). simpl fq2bam_run.
  destruct (outcome (call_raising (run_parabricks_fq2bam s (fq2bam_run i))))
    as [[out succ]| |]; [|reflexivity|reflexivity].
  destruct succ; simpl negb; cbv iota; [|reflexivity].
  rewrite !(outcome_bind (call_raising _)).
  destruct (outcome (call_raising ([], parse_parabricks_output out)))
    as [fqm| |]; [|reflexivity|reflexivity].
  rewrite !(outcome_bind (call_raising _)). simpl hc_run.
  destruct (outcome (call_raising (run_parabricks_haplotypecaller _ _)))
    as [[hout hsucc]| |]; [|reflexivity|reflexivity].
  destruct hsucc; simpl negb; cbv iota; [|reflexivity].
  rewrite !(outcome_bind (call_raising _)).
  destruct (outcome (call_raising ([], parse_parabricks_output hout)))
    as [hcm| |]; [|reflexivity|reflexivity].
  rewrite !(outcome_bind (call _)). simpl outcome at 1 3. cbv beta iota.
  simpl flagstat_out.
  destruct (snd (count_aligned_reads _ _)) as [[| |t|] [| |p|]];
    try reflexivity.
  rewrite !(outcome_bind (call _)). simpl outcome at 1 3. cbv beta iota zeta.
  simpl cpu_percent. simpl ram_used.
  destruct (get_cpu_ram_usage _ _) as [cpu ram].
  rewrite !(outcome_bind (call _)). simpl outcome at 1 3. simpl gpu_ticks.
  destruct (snd (get_gpu_usage_monitor _)) as [gu gm]. cbv beta iota.
  rewrite !(outcome_bind (call _)). simpl outcome at 1 3.
  simpl iostat_found. simpl iostat_out.
  destruct (snd (get_disk_io _ _ _)) as [dr dw]. cbv beta iota.
  rewrite !(outcome_bind (call _)). simpl outcome at 1 3. cbv beta iota.
  unfold write_metrics. simpl metrics_writable.
  destruct (metrics_writable i); reflexivity.
Qed.

(** C9, as the code has it: a failure while reading or parsing the
    quality reports never changes how the run of the sample goes on; it
    is logged, and the function returns the dictionary as the failure
    left it.  That is the empty dictionary when the insert-size report
    cannot be read; when the bias summary cannot be read it is what the
    insert-size report gave, without the bias and mean-quality keys; when
    the per-cycle report cannot be read the mean-quality key is absent. *)
Theorem quality_failure_keeps_captured s r :
  (forall env i,
     outcome (process_sample env s (with_quality r i))
     = outcome (process_sample env s i))
  /\ (forall m e,
        try_body r ∅ = (m, Some e) ->
        parse_quality_reports s r
        = ([LogError AtQualityReports s (Some e) []], m))
  /\ (insert_size_txt r = None ->
      parse_quality_reports s r
      = ([LogError AtQualityReports s (Some OSError) []], ∅))
  /\ (gcbias_summary_txt r = None ->
      snd (parse_quality_reports s r) = fst (read_insert_size r ∅)
      /\ snd (parse_quality_reports s r) !! "gc_bias"%string = None
      /\ snd (parse_quality_reports s r) !! "mean_quality"%string = None)
  /\ (mean_quality_by_cycle_txt r = None ->
      snd (parse_quality_reports s r)
      = fst (andthen (read_insert_size r) (read_gcbias r) ∅)
      /\ snd (parse_quality_reports s r) !! "mean_quality"%string = None).
Proof.
  split; [|split; [|split; [|split]]].
  - intros env i. apply outcome_with_quality.
  - intros m e H. unfold parse_quality_reports. rewrite H. reflexivity.
  - intros H. unfold parse_quality_reports. rewrite try_body_unfold.
    unfold andthen at 1. unfold read_insert_size, with_open. rewrite H.
    reflexivity.
  - intros H. rewrite parse_quality_reports_dict, (gcbias_missing_dict _ H).
    split; [reflexivity|].
    split; rewrite read_insert_size_touches by discriminate;
      apply lookup_empty.
  - intros H.
    rewrite parse_quality_reports_dict, (mean_quality_missing_dict _ H).
    split; [reflexivity|].
    unfold andthen.
    pose proof (read_insert_size_touches r ∅ "mean_quality"%string) as H1.
    destruct (read_insert_size r ∅) as [m1 [e|]]; simpl in *.
    + rewrite H1 by discriminate. apply lookup_empty.
    + rewrite read_gcbias_touches by discriminate.
      rewrite H1 by discriminate. apply lookup_empty.
Qed.

(** The reports of sample S1 with the bias summary missing. *)
Lemma quality_failure_keeps_captured_witness :
  snd (parse_quality_reports Scenarios.S1 Scenarios.reports_gcbias_missing)
  = fst (read_insert_size Scenarios.reports_gcbias_missing ∅)
  /\ snd (parse_quality_reports Scenarios.S1
            Scenarios.reports_gcbias_missing) !! "gc_bias"%string = None
  /\ snd (parse_quality_reports Scenarios.S1
            Scenarios.reports_gcbias_missing) !! "mean_quality"%string
     = None.
Proof.
  apply (proj1 (proj2 (proj2 (proj2
           (quality_failure_keeps_captured Scenarios.S1
              Scenarios.reports_gcbias_missing))))).
  reflexivity.
Defined.

(** C9 as stated fails: with the insert-size report in place and the
    bias summary missing, the failure is logged and the dictionary that
    comes back is not empty: it has the mean insert size. *)
Lemma quality_failure_is_not_empty :
  fst (parse_quality_reports Scenarios.S1 Scenarios.reports_gcbias_missing)
  = [LogError AtQualityReports Scenarios.S1 (Some OSError) []]
  /\ snd (parse_quality_reports Scenarios.S1
            Scenarios.reports_gcbias_missing) !! "mean_insert_size"%string
     = Some (PFloat (FFinite (300 # 1)))
  /\ snd (parse_quality_reports Scenarios.S1
            Scenarios.reports_gcbias_missing) <> ∅.
Proof.
  split; [vm_compute; reflexivity|].
  split; [vm_compute; reflexivity|].
  intros H.
  assert (snd (parse_quality_reports Scenarios.S1
                 Scenarios.reports_gcbias_missing)
            !! "mean_insert_size"%string = None) as Hn
    by (rewrite H; apply lookup_empty).
  vm_compute in Hn. discriminate.
Qed.

End QualityFailure.

(** * Further properties *)

(** ** More on [parse_parabricks_output] *)

Module ExtractMore.
Import PyStr PyNum Re Extract ExtractFacts ExtractKeys.

Lemma steps_cons st sts s (m m' : gmap string pyval) :
  run_steps (st :: sts) s m = Ok m' ->
  exists m1, st s m = Ok m1 /\ run_steps sts s m1 = Ok m'.
Proof.
  simpl. destruct (st s m) as [m1|e]; simpl; [|discriminate].
  intros H. exists m1. split; [reflexivity|exact H].
Qed.

Ltac split_step H m Hm :=
  apply steps_cons in H; destruct H as (m & Hm & H).

(** Rewrites [m' !! k] back through the statements that do not set [k]. *)
Ltac chase k :=
  repeat match goal with
  | H : fallback_step _ _ _ ?m = Ok ?m' |- context [?m' !! k] =>
      rewrite (fallback_step_other _ _ _ _ _ k H) by (simpl; congruence)
  | H : rate_block_step _ ?m = Ok ?m' |- context [?m' !! k] =>
      rewrite (rate_block_step_other _ _ _ k H) by (simpl; congruence)
  | H : rule_step _ _ ?m = Ok ?m' |- context [?m' !! k] =>
      rewrite (rule_step_other _ _ _ _ k H) by (simpl; congruence)
  end.

Ltac all_steps H :=
  unfold parse_parabricks_output, steps, rules in H; simpl map in H;
  simpl app in H;
  split_step H ipattern:(m1) ipattern:(H1);
  split_step H ipattern:(m2) ipattern:(H2);
  split_step H ipattern:(m3) ipattern:(H3);
  split_step H ipattern:(m4) ipattern:(H4);
  split_step H ipattern:(m5) ipattern:(H5);
  split_step H ipattern:(m6) ipattern:(H6);
  split_step H ipattern:(m7) ipattern:(H7);
  split_step H ipattern:(m8) ipattern:(H8);
  split_step H ipattern:(m9) ipattern:(H9);
  split_step H ipattern:(m10) ipattern:(H10);
  simpl in H; injection H as <-.

Lemma loop_key_first_match s (m : gmap string pyval) key pat :
  parse_parabricks_output s = Ok m ->
  (key, pat) ∈ rules ->
  m !! key = first_match pat s.
Proof.
  intros H Hin.
  pose proof (ProgressCounters.regions_processed_first_match s m H) as Hrp.
  pose proof (ProgressCounters.regions_per_minute_first_match s m H) as Hrm.
  all_steps H.
  unfold rules in Hin.
  repeat (apply elem_of_cons in Hin as [[= -> ->]|Hin]);
    try (inversion Hin; fail); try assumption.
  - chase "bwa_time"%string.
    apply (rule_step_same _ _ _ _ _ (lookup_empty _) H1).
  - chase "sorting_time"%string.
    eapply rule_step_same; [|exact H2].
    chase "sorting_time"%string. apply lookup_empty.
  - chase "bqsr_time"%string.
    eapply rule_step_same; [|exact H3].
    chase "bqsr_time"%string. apply lookup_empty.
  - chase "time_reading"%string.
    eapply rule_step_same; [|exact H4].
    chase "time_reading"%string. apply lookup_empty.
  - chase "monitor_time"%string.
    eapply rule_step_same; [|exact H5].
    chase "monitor_time"%string. apply lookup_empty.
Qed.


(** X1: whenever [parse_parabricks_output] returns, each key of the loop
    holds the float of the first match of its own pattern, and is absent
    when the pattern occurs nowhere: no rule depends on another, and for
    the two progress counters the later [findall] never changes it. *)
Theorem loop_keys_hold_first_match s (m : gmap string pyval) :
  parse_parabricks_output s = Ok m ->
  forall key pat, (key, pat) ∈ rules -> m !! key = first_match pat s.
Proof. intros H key pat Hin. eapply loop_key_first_match; eauto. Qed.

Lemma rate_block_step_result s (m m' : gmap string pyval) :
  rate_block_step s m = Ok m' ->
  match search pat_rate_block s with
  | None => m' = m
  | Some rb =>
      exists a b c,
        py_float (group1 rb) = Ok a /\ py_float (group2 rb) = Ok b
        /\ py_float (group3 rb) = Ok c
        /\ m' = <["avg_rate"%string := PFloat c]>
                 (<["max_rate"%string := PFloat b]>
                    (<["min_rate"%string := PFloat a]> m))
  end.
Proof.
  unfold rate_block_step. destruct (search pat_rate_block s) as [rb|].
  - unfold set_float.
    destruct (py_float (group1 rb)) as [a|]; simpl; [|discriminate].
    destruct (py_float (group2 rb)) as [b|]; simpl; [|discriminate].
    destruct (py_float (group3 rb)) as [c|]; simpl; [|discriminate].
    intros [= <-]. exists a, b, c. auto.
  - intros [= <-]. reflexivity.
Qed.

(** X2: the three rate keys come from the rate block only, and together:
    when the block pattern matches nowhere all three are absent, and when
    it matches they are the floats of its three groups. *)
Theorem rate_keys_all_or_none s (m : gmap string pyval) :
  parse_parabricks_output s = Ok m ->
  match search pat_rate_block s with
  | None =>
      m !! "min_rate"%string = None /\ m !! "max_rate"%string = None
      /\ m !! "avg_rate"%string = None
  | Some rb =>
      exists a b c,
        py_float (group1 rb) = Ok a /\ py_float (group2 rb) = Ok b
        /\ py_float (group3 rb) = Ok c
        /\ m !! "min_rate"%string = Some (PFloat a)
        /\ m !! "max_rate"%string = Some (PFloat b)
        /\ m !! "avg_rate"%string = Some (PFloat c)
  end.
Proof.
  intros H. all_steps H.
  assert (forall k, k = "min_rate"%string \/ k = "max_rate"%string
                    \/ k = "avg_rate"%string ->
                    m10 !! k = m8 !! k /\ m7 !! k = None) as Hk.
  { intros k [-> | [-> | ->]]; split.
    - chase "min_rate"%string. reflexivity.
    - chase "min_rate"%string. apply lookup_empty.
    - chase "max_rate"%string. reflexivity.
    - chase "max_rate"%string. apply lookup_empty.
    - chase "avg_rate"%string. reflexivity.
    - chase "avg_rate"%string. apply lookup_empty. }
  destruct (Hk "min_rate"%string) as [E1 N1]; [auto|].
  destruct (Hk "max_rate"%string) as [E2 N2]; [auto|].
  destruct (Hk "avg_rate"%string) as [E3 N3]; [auto|].
  rewrite E1, E2, E3. clear Hk E1 E2 E3.
  pose proof (rate_block_step_result _ _ _ H8) as Hr.
  destruct (search pat_rate_block s) as [rb|].
  - destruct Hr as (a & b & c & Ha & Hb & Hc & ->).
    exists a, b, c. repeat split; try assumption.
    + rewrite lookup_insert_ne by discriminate.
      rewrite lookup_insert_ne by discriminate. apply lookup_insert_eq.
    + rewrite lookup_insert_ne by discriminate. apply lookup_insert_eq.
    + apply lookup_insert_eq.
  - subst m8. auto.
Qed.

(** X3: the dictionary has no key besides the ten metric names. *)
Theorem metric_keys_only s (m : gmap string pyval) k :
  parse_parabricks_output s = Ok m ->
  is_Some (m !! k) -> k ∈ metric_keys.
Proof.
  intros H Hk. destruct (decide (k ∈ metric_keys)) as [|Hn]; [assumption|].
  exfalso. all_steps H. unfold metric_keys in Hn.
  repeat (apply not_elem_of_cons in Hn as [? Hn]).
  assert (m10 !! k = None) as E.
  { chase k. apply lookup_empty. }
  rewrite E in Hk. destruct Hk. discriminate.
Qed.


Lemma loop_keys_hold_first_match_witness :
  exists m,
    parse_parabricks_output Scenarios.two_progress_lines = Ok m
    /\ forall key pat,
         (key, pat) ∈ rules ->
         m !! key = first_match pat Scenarios.two_progress_lines.
Proof.
  destruct (parse_parabricks_output Scenarios.two_progress_lines)
    as [m|e] eqn:E.
  - exists m. split; [reflexivity|].
    exact (loop_keys_hold_first_match Scenarios.two_progress_lines m E).
  - vm_compute in E. discriminate E.
Defined.

Lemma rate_keys_all_or_none_witness :
  exists m a b c,
    parse_parabricks_output Cases.rate_log = Ok m
    /\ m !! "min_rate"%string = Some (PFloat a)
    /\ m !! "max_rate"%string = Some (PFloat b)
    /\ m !! "avg_rate"%string = Some (PFloat c).
Proof.
  destruct (parse_parabricks_output Cases.rate_log) as [m|e] eqn:E.
  - pose proof (rate_keys_all_or_none Cases.rate_log m E) as H.
    destruct (search pat_rate_block Cases.rate_log) as [rb|] eqn:S.
    + destruct H as (a & b & c & _ & _ & _ & Ha & Hb & Hc).
      exists m, a, b, c. repeat split; assumption.
    + vm_compute in S. discriminate S.
  - vm_compute in E. discriminate E.
Defined.

Lemma metric_keys_only_witness :
  exists m,
    parse_parabricks_output Cases.rate_log = Ok m
    /\ is_Some (m !! "avg_rate"%string)
    /\ "avg_rate"%string ∈ metric_keys.
Proof.
  destruct (parse_parabricks_output Cases.rate_log) as [m|e] eqn:E.
  - assert (Hs : is_Some (m !! "avg_rate"%string)).
    { vm_compute in E. injection E as <-. vm_compute. eauto. }
    exists m. split; [reflexivity|]. split; [exact Hs|].
    exact (metric_keys_only Cases.rate_log m "avg_rate"%string E Hs).
  - vm_compute in E. discriminate E.
Defined.

End ExtractMore.

(** ** More on the counters and the probes *)

Module ProbeFacts.
Import PyStr PyNum Extract Quality Probes Stages Sample SampleFacts.

Lemma count_aligned_reads_cases bam f :
  snd (count_aligned_reads bam f) = (PNone, PNone)
  \/ exists t p, snd (count_aligned_reads bam f) = (PInt t, PInt p)
                 /\ t <> 0 /\ p <> 0.
Proof.
  unfold count_aligned_reads. destruct f as [out|]; [|left; reflexivity].
  destruct (flagstat_loop _ _ _) as [[[t|] [p|]]|e]; simpl;
    try (left; reflexivity).
  - destruct (t =? 0) eqn:Et; simpl; [left; reflexivity|].
    destruct (p =? 0) eqn:Ep; simpl; [left; reflexivity|].
    right. exists t, p. apply Z.eqb_neq in Et, Ep. auto.
  - destruct (t =? 0); left; reflexivity.
Qed.

(** X4: [count_aligned_reads] answers either [(None, None)] or two
    integers that are both non-zero; so in a row that [process_sample]
    writes the total is never 0, and the rate cell is a float unless the
    total read from flagstat was negative. *)
Theorem aligned_counts_are_never_zero :
  (forall bam f,
     snd (count_aligned_reads bam f) = (PNone, PNone)
     \/ exists t p, snd (count_aligned_reads bam f) = (PInt t, PInt p)
                    /\ t <> 0 /\ p <> 0)
  /\ (forall env s i path rows,
        WriteCsv path rows ∈ trace (process_sample env s i) ->
        exists bam total pp r,
          snd (count_aligned_reads bam (flagstat_out i))
            = (PInt total, PInt pp)
          /\ total <> 0 /\ pp <> 0
          /\ rows = [header; r]
          /\ ((exists q, r !! 8%nat = Some (PFloat (FFinite q)))
              \/ (total < 0 /\ r !! 8%nat = Some (PInt 0)))).
Proof.
  split; [apply count_aligned_reads_cases|].
  intros env s i path rows Hin.
  destruct (process_sample_event env s i _ Hin eq_refl)
    as (_ & [H|[H|(_ & [H|(c & Hc & _ & H)])]]); try discriminate.
  injection H as _ ->.
  destruct (cf_rate _ _ _ Hc) as (bam & total & pp & Ha & Hr).
  destruct (count_aligned_reads_cases bam (flagstat_out i))
    as [Hn|(t & p & Hp & Ht & Hpp)]; [congruence|].
  rewrite Ha in Hp. injection Hp as <- <-.
  exists bam, total, pp, (row c). repeat split; try assumption.
  simpl. rewrite Hr. unfold alignment_rate.
  destruct (0 <? total) eqn:E.
  - left. eauto.
  - right. apply Z.ltb_ge in E. split; [lia|reflexivity].
Qed.

Lemma variants_loop_skip pre :
  Forall (fun l => contains l (txt "number of records:") = false) pre ->
  forall rest, variants_loop (pre ++ rest) = variants_loop rest.
Proof.
  induction 1 as [|l pre Hl _ IH]; intros rest; [reflexivity|].
  cbn [app variants_loop]. rewrite Hl. apply IH.
Qed.

(** X5: [count_variants] reads the count from the first line that has
    the label and looks no further: what follows that line does not
    matter, even when the line itself cannot be read; with no such line it
    answers [None] and logs nothing. *)
Theorem first_records_line_decides pre line :
  Forall (fun l => contains l (txt "number of records:") = false) pre ->
  contains line (txt "number of records:") = true ->
  (forall rest,
     variants_loop (pre ++ line :: rest) = variants_loop [line])
  /\ variants_loop pre = Ok PNone.
Proof.
  intros Hpre Hline. split.
  - intros rest. rewrite (variants_loop_skip _ Hpre).
    cbn [variants_loop]. rewrite Hline. reflexivity.
  - rewrite <- (app_nil_r pre). rewrite (variants_loop_skip _ Hpre).
    reflexivity.
Qed.

(** One line of a probe answer read as two integers. *)
Lemma gpu_lines_cons line rest pu pm u m :
  gpu_lines (line :: rest) pu pm = Ok (u, m) ->
  exists ta tb a b,
    split_char "," line = [ta; tb] /\ py_int ta = Ok a /\ py_int tb = Ok b
    /\ gpu_lines rest (Z.max pu a) (Z.max pm b) = Ok (u, m).
Proof.
  cbn [gpu_lines].
  destruct (split_char "," line) as [|ta [|tb [|? ?]]]; try discriminate.
  destruct (py_int ta) as [a|] eqn:Ha; simpl; [|discriminate].
  destruct (py_int tb) as [b|] eqn:Hb; simpl; [|discriminate].
  intros H. exists ta, tb, a, b. auto.
Qed.

Lemma gpu_lines_peaks lines :
  forall pu pm u m,
    gpu_lines lines pu pm = Ok (u, m) ->
    pu <= u /\ pm <= m
    /\ forall line, line ∈ lines ->
         exists ta tb a b,
           split_char "," line = [ta; tb]
           /\ py_int ta = Ok a /\ py_int tb = Ok b /\ a <= u /\ b <= m.
Proof.
  induction lines as [|line rest IH]; intros pu pm u m H.
  - simpl in H. injection H as <- <-. repeat split; try lia.
    intros line Hin. inversion Hin.
  - apply gpu_lines_cons in H as (ta & tb & a & b & Hs & Ha & Hb & H).
    destruct (IH _ _ _ _ H) as (Hu & Hm & Hall).
    repeat split; try lia.
    intros l Hin. apply elem_of_cons in Hin as [->|Hin]; [|auto].
    exists ta, tb, a, b. repeat split; auto; lia.
Qed.

Lemma monitor_loop_peaks ticks :
  forall pu pm u m,
    snd (monitor_loop ticks pu pm) = (PInt u, PInt m) ->
    pu <= u /\ pm <= m
    /\ forall tick, tick ∈ ticks ->
         exists out,
           tick = Some out
           /\ forall line, line ∈ splitlines (strip out) ->
                exists ta tb a b,
                  split_char "," line = [ta; tb]
                  /\ py_int ta = Ok a /\ py_int tb = Ok b
                  /\ a <= u /\ b <= m.
Proof.
  induction ticks as [|tick ticks IH]; intros pu pm u m H.
  - simpl in H. injection H as <- <-. repeat split; try lia.
    intros t Hin. inversion Hin.
  - simpl in H. destruct tick as [out|]; [|discriminate].
    destruct (gpu_lines _ _ _) as [[u1 m1]|e] eqn:Hg; [|discriminate].
    destruct (gpu_lines_peaks _ _ _ _ _ Hg) as (Hu1 & Hm1 & Hl1).
    destruct (IH _ _ _ _ H) as (Hu & Hm & Hall).
    repeat split; try lia.
    intros t Hin. apply elem_of_cons in Hin as [->|Hin]; [|auto].
    exists out. split; [reflexivity|].
    intros line Hline.
    destruct (Hl1 line Hline) as (ta & tb & a & b & ? & ? & ? & ? & ?).
    exists ta, tb, a, b. repeat split; auto; lia.
Qed.

(** A peak is the starting value or one of the readings. *)
Lemma gpu_lines_attained lines :
  forall pu pm u m,
    gpu_lines lines pu pm = Ok (u, m) ->
    (u = pu \/ exists line ta tb, line ∈ lines
                 /\ split_char "," line = [ta; tb] /\ py_int ta = Ok u)
    /\ (m = pm \/ exists line ta tb, line ∈ lines
                    /\ split_char "," line = [ta; tb] /\ py_int tb = Ok m).
Proof.
  induction lines as [|line rest IH]; intros pu pm u m H.
  - simpl in H. injection H as <- <-. auto.
  - apply gpu_lines_cons in H as (ta & tb & a & b & Hs & Ha & Hb & H).
    destruct (IH _ _ _ _ H) as [Hu Hm]. split.
    + destruct Hu as [->|(l & ta' & tb' & Hin & ? & ?)].
      * destruct (Z.max_spec pu a) as [[_ ->]|[_ ->]]; [|auto].
        right. exists line, ta, tb. repeat split; auto. apply list_elem_of_here.
      * right. exists l, ta', tb'. repeat split; auto.
        apply list_elem_of_further, Hin.
    + destruct Hm as [->|(l & ta' & tb' & Hin & ? & ?)].
      * destruct (Z.max_spec pm b) as [[_ ->]|[_ ->]]; [|auto].
        right. exists line, ta, tb. repeat split; auto. apply list_elem_of_here.
      * right. exists l, ta', tb'. repeat split; auto.
        apply list_elem_of_further, Hin.
Qed.

Lemma monitor_loop_attained ticks :
  forall pu pm u m,
    snd (monitor_loop ticks pu pm) = (PInt u, PInt m) ->
    (u = pu \/ exists out line ta tb,
                 Some out ∈ ticks /\ line ∈ splitlines (strip out)
                 /\ split_char "," line = [ta; tb] /\ py_int ta = Ok u)
    /\ (m = pm \/ exists out line ta tb,
                    Some out ∈ ticks /\ line ∈ splitlines (strip out)
                    /\ split_char "," line = [ta; tb] /\ py_int tb = Ok m).
Proof.
  induction ticks as [|tick ticks IH]; intros pu pm u m H.
  - simpl in H. injection H as <- <-. auto.
  - simpl in H. destruct tick as [out|]; [|discriminate].
    destruct (gpu_lines _ _ _) as [[u1 m1]|e] eqn:Hg; [|discriminate].
    destruct (gpu_lines_attained _ _ _ _ _ Hg) as [Hu1 Hm1].
    destruct (IH _ _ _ _ H) as [Hu Hm]. split.
    + destruct Hu as [->|(o & l & ta & tb & Hin & ? & ? & ?)].
      * destruct Hu1 as [->|(l & ta & tb & ? & ? & ?)]; [auto|].
        right. exists out, l, ta, tb. repeat split; auto.
        apply list_elem_of_here.
      * right. exists o, l, ta, tb. repeat split; auto.
        apply list_elem_of_further, Hin.
    + destruct Hm as [->|(o & l & ta & tb & Hin & ? & ? & ?)].
      * destruct Hm1 as [->|(l & ta & tb & ? & ? & ?)]; [auto|].
        right. exists out, l, ta, tb. repeat split; auto.
        apply list_elem_of_here.
      * right. exists o, l, ta, tb. repeat split; auto.
        apply list_elem_of_further, Hin.
Qed.

(** X6: when [get_gpu_usage_monitor] answers with numbers, these are not
    negative, every tick of the window was answered, every line of every
    answer is a pair of integers, no reading is above the peak returned
    for it, and each peak is 0 or one of the readings: the peaks are the
    maxima of 0 and the readings. *)
Theorem monitor_peaks_are_maxima ticks u m :
  snd (get_gpu_usage_monitor ticks) = (PInt u, PInt m) ->
  0 <= u /\ 0 <= m
  /\ (forall tick, tick ∈ ticks ->
        exists out,
          tick = Some out
          /\ forall line, line ∈ splitlines (strip out) ->
               exists ta tb a b,
                 split_char "," line = [ta; tb]
                 /\ py_int ta = Ok a /\ py_int tb = Ok b
                 /\ a <= u /\ b <= m)
  /\ (u = 0 \/ exists out line ta tb,
                 Some out ∈ ticks /\ line ∈ splitlines (strip out)
                 /\ split_char "," line = [ta; tb] /\ py_int ta = Ok u)
  /\ (m = 0 \/ exists out line ta tb,
                 Some out ∈ ticks /\ line ∈ splitlines (strip out)
                 /\ split_char "," line = [ta; tb] /\ py_int tb = Ok m).
Proof.
  intros H. destruct (monitor_loop_peaks _ _ _ _ _ H) as (Hu & Hm & Hall).
  destruct (monitor_loop_attained _ _ _ _ _ H) as [Au Am].
  repeat split; assumption.
Qed.


Lemma first_records_line_decides_witness :
  (forall rest,
     variants_loop ([txt "SN 0 number of samples: 1"]
                    ++ txt "SN 0 number of records: 42" :: rest)
     = Ok (PInt 42))
  /\ variants_loop [txt "SN 0 number of samples: 1"] = Ok PNone.
Proof.
  destruct (first_records_line_decides
              [txt "SN 0 number of samples: 1"]
              (txt "SN 0 number of records: 42")) as [H1 H2].
  - constructor; [vm_compute; reflexivity|constructor].
  - vm_compute. reflexivity.
  - split; [|exact H2]. intro rest. rewrite H1. vm_compute. reflexivity.
Defined.

Lemma monitor_peaks_are_maxima_witness :
  snd (get_gpu_usage_monitor Scenarios.ticks_ok) = (PInt 70, PInt 1000)
  /\ forall tick, tick ∈ Scenarios.ticks_ok ->
       exists out,
         tick = Some out
         /\ forall line, line ∈ splitlines (strip out) ->
              exists ta tb a b,
                split_char "," line = [ta; tb]
                /\ py_int ta = Ok a /\ py_int tb = Ok b
                /\ a <= 70 /\ b <= 1000.
Proof.
  assert (E : snd (get_gpu_usage_monitor Scenarios.ticks_ok)
              = (PInt 70, PInt 1000)) by (vm_compute; reflexivity).
  split; [exact E|].
  exact (proj1 (proj2 (proj2
           (monitor_peaks_are_maxima Scenarios.ticks_ok 70 1000 E)))).
Defined.

End ProbeFacts.

(** ** More on the aggregator, the manifest and the quality reports *)

Module BatchMore.
Import PyStr PyNum Extract Quality Probes Stages Sample SampleFacts Batch Merge.

Lemma merge_file_raises acc entry e :
  merge_file acc entry = Raise e -> e = OSError.
Proof.
  unfold merge_file. destruct acc as [rows hw], entry as [name file].
  destruct (endswith name _); [|discriminate].
  destruct file as [[|first others]|]; try discriminate.
  - destruct hw; discriminate.
  - congruence.
Qed.

Lemma merge_loop_unreadable listing :
  None ∈ selected listing ->
  forall acc, merge_loop listing acc = Raise OSError.
Proof.
  induction listing as [|[name file] listing IH]; intros Hin acc.
  - inversion Hin.
  - cbn [merge_loop]. unfold selected in Hin. cbn [List.filter fst] in Hin.
    destruct (merge_file acc (name, file)) as [acc'|e] eqn:Hm.
    + simpl. apply IH. unfold merge_file in Hm. destruct acc as [rows hw].
      destruct (endswith name _); [|exact Hin].
      cbn [map snd] in Hin. apply elem_of_cons in Hin as [Hin|Hin]; [|exact Hin].
      subst file. discriminate.
    + simpl. f_equal. eapply merge_file_raises, Hm.
Qed.

(** X7: the merge stops with [OSError] when [LOG_DIR] cannot be listed or
    when one of the files named [..._metrics.csv] cannot be opened,
    wherever that file stands in the listing: no merged report is written
    then.  Files with other names are never opened. *)
Theorem merge_stops_on_unreadable_file threads gpus concurrent :
  merge_metrics threads gpus concurrent None = Raise OSError
  /\ forall listing,
       None ∈ selected listing ->
       merge_metrics threads gpus concurrent (Some listing) = Raise OSError.
Proof.
  split; [reflexivity|]. intros listing Hin. unfold merge_metrics.
  rewrite (merge_loop_unreadable _ Hin). reflexivity.
Qed.

(** Stripping. *)
Lemma lstrip_head s a t : lstrip s = a :: t -> is_space a = false.
Proof.
  induction s as [|b s IH]; simpl; [discriminate|].
  destruct (is_space b) eqn:E; [exact IH|]. intros [= -> _]. exact E.
Qed.

Lemma lstrip_suffix s : exists sp, s = sp ++ lstrip s.
Proof.
  induction s as [|b s [sp IH]]; simpl; [exists []; reflexivity|].
  destruct (is_space b).
  - exists (b :: sp). simpl. f_equal. exact IH.
  - exists []. reflexivity.
Qed.

Lemma lstrip_fixed s :
  (forall a t, s = a :: t -> is_space a = false) -> lstrip s = s.
Proof.
  destruct s as [|a t]; [reflexivity|]. intros H. simpl.
  rewrite (H a t eq_refl). reflexivity.
Qed.

Lemma last_rev_head (l : text) : last (rev l) = head l.
Proof. destruct l as [|a t]; [reflexivity|]. simpl. apply last_snoc. Qed.

Lemma strip_ends s a :
  (head (strip s) = Some a -> is_space a = false)
  /\ (last (strip s) = Some a -> is_space a = false).
Proof.
  unfold strip, rstrip. set (x := lstrip s).
  destruct (lstrip_suffix (rev x)) as [sp Hsp].
  set (r := lstrip (rev x)) in *. split.
  - intros Hh.
    assert (x = rev r ++ rev sp) as Hx.
    { rewrite <- (rev_involutive x), Hsp, rev_app_distr. reflexivity. }
    destruct (rev r) as [|b t] eqn:Hr; [discriminate|].
    simpl in Hh. injection Hh as ->.
    apply (lstrip_head s a (t ++ rev sp)). fold x. rewrite Hx. reflexivity.
  - rewrite last_rev_head. intros Hh.
    destruct r as [|b t] eqn:Hr; [discriminate|].
    simpl in Hh. injection Hh as ->.
    apply (lstrip_head (rev x) a t). exact Hr.
Qed.

Lemma strip_fixed s :
  (forall a, head s = Some a -> is_space a = false) ->
  (forall a, last s = Some a -> is_space a = false) ->
  strip s = s.
Proof.
  intros Hh Hl. unfold strip, rstrip.
  rewrite (lstrip_fixed s).
  2:{ intros a t ->. apply Hh. reflexivity. }
  rewrite (lstrip_fixed (rev s)); [apply rev_involutive|].
  intros a t Hr. apply Hl. rewrite <- (rev_involutive s), Hr.
  rewrite last_rev_head. reflexivity.
Qed.

Lemma strip_idempotent s : strip (strip s) = strip s.
Proof.
  apply strip_fixed; intros a H.
  - exact (proj1 (strip_ends s a) H).
  - exact (proj2 (strip_ends s a) H).
Qed.

Lemma collect_nil order : collect [] order = ([], Ok tt).
Proof. induction order as [|n order IH]; [reflexivity|]. simpl. exact IH. Qed.

(** X8: a sample identifier read from the manifest is never empty and
    carries no white space at either end (stripping it again changes
    nothing); a manifest of blank lines dispatches nothing, and the batch
    then ends normally with an empty log. *)
Theorem sample_ids_are_stripped content :
  (forall sample, sample ∈ read_samples content ->
     sample <> [] /\ strip sample = sample
     /\ (forall a, head sample = Some a -> is_space a = false)
     /\ (forall a, last sample = Some a -> is_space a = false))
  /\ (forall env,
        sample_file env = Some content ->
        Forall (fun line => strip line = []) (file_lines content) ->
        dispatched (process_samples env) = []
        /\ scheduler_log (process_samples env) = []
        /\ batch_outcome (process_samples env) = Ok tt).
Proof.
  split.
  - intros sample Hin.
    apply BatchFacts.read_samples_spec in Hin as (line & _ & Hnb & ->).
    split; [exact Hnb|]. split; [apply strip_idempotent|].
    split; intros a H.
    + exact (proj1 (strip_ends line a) H).
    + exact (proj2 (strip_ends line a) H).
  - intros env Hf Hblank.
    assert (read_samples content = []) as Hr.
    { unfold read_samples. induction Hblank as [|l ls Hl _ IH]; [reflexivity|].
      cbn [List.filter]. unfold nonblank at 1. rewrite Hl. exact IH. }
    unfold process_samples. rewrite Hf, Hr.
    change (submit_all env []) with (@nil (text * proc unit)).
    rewrite collect_nil. auto.
Qed.

Lemma process_sample_wrong_env env s i :
  env <> txt "bioinfo_env" ->
  process_sample env s i
  = Proc [LogError AtCondaEnv [] None []] (Throw (SystemExit 1)).
Proof.
  intros Hne. unfold process_sample, check_conda_env, text_eqb.
  case_bool_decide; [contradiction|]. reflexivity.
Qed.

(** X9: outside the [bioinfo_env] environment no sample gets anywhere:
    every run is dispatched, logs the environment error and leaves by
    [SystemExit(1)] before any stage starts or anything is written, and
    that [SystemExit] is not caught by the scheduler: [process_samples]
    itself ends by [SystemExit(1)] with nothing in its own log. *)
Theorem wrong_environment_exits_the_batch env content :
  conda_default_env env <> txt "bioinfo_env" ->
  sample_file env = Some content ->
  read_samples content <> [] ->
  Permutation (completion env) (seq 0 (length (read_samples content))) ->
  batch_outcome (process_samples env) = Raise (SystemExit 1)
  /\ scheduler_log (process_samples env) = []
  /\ (dispatched (process_samples env)).*1 = read_samples content
  /\ forall n s p,
       dispatched (process_samples env) !! n = Some (s, p) ->
       p = Proc [LogError AtCondaEnv [] None []] (Throw (SystemExit 1)).
Proof.
  intros Henv Hf Hne Hperm.
  assert (forall n s p,
            submit_all env (read_samples content) !! n = Some (s, p) ->
            p = Proc [LogError AtCondaEnv [] None []] (Throw (SystemExit 1)))
    as Hall.
  { intros n s p Hn. apply BatchFacts.lookup_submit_all in Hn as [_ ->].
    apply process_sample_wrong_env, Henv. }
  unfold process_samples. rewrite Hf.
  destruct (collect _ _) as [evs r] eqn:Hc. simpl.
  assert (evs = [] /\ r = Raise (SystemExit 1)) as [-> ->].
  { destruct (completion env) as [|k order] eqn:Hco.
    - apply Permutation_nil in Hperm.
      destruct (read_samples content); [contradiction|discriminate].
    - assert (k < length (read_samples content))%nat as Hk.
      { apply in_seq with (start := 0%nat). simpl.
        eapply Permutation_in; [exact Hperm|]. left. reflexivity. }
      destruct (lookup_lt_is_Some_2 (submit_all env (read_samples content)) k)
        as [[s p] Hsp].
      { unfold submit_all. rewrite length_imap. exact Hk. }
      simpl in Hc. rewrite Hsp in Hc. rewrite (Hall _ _ _ Hsp) in Hc.
      simpl in Hc. injection Hc as <- <-. auto. }
  repeat split; [apply BatchFacts.submit_all_samples|exact Hall].
Qed.


Lemma wrong_environment_exits_the_batch_witness :
  batch_outcome (process_samples Cases.wrong_env_batch)
    = Raise (SystemExit 1)
  /\ scheduler_log (process_samples Cases.wrong_env_batch) = []
  /\ (dispatched (process_samples Cases.wrong_env_batch)).*1
     = [txt "S1"; txt "S2"; txt "S3"].
Proof.
  destruct (wrong_environment_exits_the_batch Cases.wrong_env_batch
              Scenarios.batch_manifest) as (H1 & H2 & H3 & _).
  - intro H. vm_compute in H. discriminate H.
  - reflexivity.
  - intro H. vm_compute in H. discriminate H.
  - apply (Permutation_cons_app [0; 1]%nat [] 2%nat). reflexivity.
  - split; [exact H1|]. split; [exact H2|exact H3].
Defined.

End BatchMore.

(** ** More on the runs of [process_sample] *)

Module RunFacts.
Import PyStr PyNum Extract Quality Probes Stages Sample SampleFacts.

Lemma run_stage_subject st site subj subj' r :
  snd (run_stage st site subj r) = snd (run_stage st site subj' r).
Proof.
  unfold run_stage. destruct (negb (launched r)); [reflexivity|].
  destruct (exit_code r =? 0); [|reflexivity].
  destruct (logfile r); reflexivity.
Qed.

Lemma count_aligned_reads_subject bam bam' f :
  snd (count_aligned_reads bam f) = snd (count_aligned_reads bam' f).
Proof.
  unfold count_aligned_reads. destruct f as [out|]; [|reflexivity].
  destruct (flagstat_loop _ _ _) as [[t p]|e]; [|reflexivity].
  destruct (truthy t && truthy p); reflexivity.
Qed.

(** The trace of a run that gets to the row. *)
Lemma trace_of_complete_run s i n out fqm hout hcm total pp :
  fastq1_exists i = true -> fastq2_exists i = true ->
  fastq1_lines i = Some n ->
  snd (run_parabricks_fq2bam s (fq2bam_run i)) = Ok (out, true) ->
  parse_parabricks_output out = Ok fqm ->
  snd (run_parabricks_haplotypecaller
         (path_join ALIGNMENT_DIR (s ++ txt "_aligned.bam")) (hc_run i))
    = Ok (hout, true) ->
  parse_parabricks_output hout = Ok hcm ->
  snd (count_aligned_reads
         (path_join ALIGNMENT_DIR (s ++ txt "_aligned.bam"))
         (flagstat_out i)) = (PInt total, PInt pp) ->
  metrics_writable i = true ->
  exists pre c,
    trace (process_sample (txt "bioinfo_env") s i)
    = pre ++ [WriteCsv (path_join LOG_DIR (s ++ txt "_metrics.csv"))
                       [header; row c]]
    /\ (forall path rows, WriteCsv path rows ∉ pre).
Proof.
  intros Hf1 Hf2 Hn Hfq Hfqm Hhc Hhcm Ha Hw.
  unfold process_sample.
  rewrite check_conda_env_ok, Hf1, Hf2. simpl in *.
  rewrite Hn. simpl. rewrite Hfq. simpl. rewrite Hfqm. simpl.
  rewrite Hhc. simpl. rewrite Hhcm. simpl. rewrite Ha. simpl.
  pose proof (monitor_loop_logs (gpu_ticks i) 0 0) as L3.
  fold (get_gpu_usage_monitor (gpu_ticks i)) in L3.
  destruct (get_gpu_usage_monitor (gpu_ticks i)) as [e1 [gu gm]].
  pose proof (get_disk_io_logs s (iostat_found i) (iostat_out i)) as L4.
  destruct (get_disk_io _ _ _) as [e2 [dr dw]].
  unfold write_metrics. rewrite Hw.
  cbn [trace outcome fst snd emit proc_bind mbind].
  match goal with
  | |- exists pre c,
         ?a :: ?b :: ?A ++ ?B ++ ?C ++ ?D ++ ?E ++ ?F ++ ?G
           ++ [WriteCsv _ [header; row ?c0]] = _ /\ _ =>
      exists (a :: b :: A ++ B ++ C ++ D ++ E ++ F ++ G), c0
  end.
  split.
  - cbn [app]. rewrite <- !app_assoc. reflexivity.
  - intros path rows Hin.
    apply elem_of_cons in Hin as [Hin|Hin]; [discriminate|].
    apply elem_of_cons in Hin as [Hin|Hin]; [discriminate|].
    rewrite !elem_of_app in Hin.
    destruct Hin as [Hin|[Hin|[Hin|[Hin|[Hin|[Hin|Hin]]]]]].
    + apply run_stage_events in Hin; [discriminate|reflexivity].
    + apply run_stage_events in Hin; [discriminate|reflexivity].
    + apply count_aligned_reads_logs in Hin. discriminate.
    + apply count_variants_logs in Hin. discriminate.
    + apply L3 in Hin. discriminate.
    + apply L4 in Hin. discriminate.
    + apply parse_quality_reports_logs in Hin. discriminate.
Qed.

(** A run that ends normally went through every step. *)
Lemma process_sample_next env s i :
  outcome (process_sample env s i) = Next tt ->
  env = txt "bioinfo_env"
  /\ fastq1_exists i = true /\ fastq2_exists i = true
  /\ (exists n, fastq1_lines i = Some n)
  /\ (exists out fqm,
        snd (run_parabricks_fq2bam s (fq2bam_run i)) = Ok (out, true)
        /\ parse_parabricks_output out = Ok fqm)
  /\ (exists hout hcm,
        snd (run_parabricks_haplotypecaller
               (path_join ALIGNMENT_DIR (s ++ txt "_aligned.bam")) (hc_run i))
          = Ok (hout, true)
        /\ parse_parabricks_output hout = Ok hcm)
  /\ (exists total pp,
        snd (count_aligned_reads
               (path_join ALIGNMENT_DIR (s ++ txt "_aligned.bam"))
               (flagstat_out i)) = (PInt total, PInt pp))
  /\ metrics_writable i = true.
Proof.
  unfold process_sample, check_conda_env, text_eqb.
  case_bool_decide as Henv; [|discriminate].
  split; [exact Henv|].
  rewrite outcome_bind in H. simpl outcome at 1 in H. cbv beta iota in H.
  destruct (negb (fastq1_exists i) || negb (fastq2_exists i)) eqn:Hfq;
    [discriminate|].
  apply orb_false_elim in Hfq as [Hf1 Hf2].
  apply negb_false_iff in Hf1, Hf2.
  split; [exact Hf1|]. split; [exact Hf2|].
  cbv zeta in H.
  rewrite outcome_bind in H. simpl outcome at 1 in H. cbv beta iota in H.
  rewrite outcome_bind in H. simpl outcome at 1 in H. cbv beta iota in H.
  destruct (fastq1_lines i) as [n|] eqn:Hn; [|discriminate].
  split; [eauto|]. cbn [count_reads snd] in H.
  rewrite outcome_bind in H. simpl outcome at 1 in H. cbv beta iota in H.
  rewrite outcome_bind in H. simpl outcome at 1 in H.
  destruct (snd (run_parabricks_fq2bam _ _)) as [[out succ]|e1] eqn:Hrun;
    [|discriminate].
  cbv beta iota in H.
  destruct succ; simpl negb in H; cbv iota in H; [|discriminate].
  rewrite outcome_bind in H. simpl outcome at 1 in H.
  destruct (parse_parabricks_output out) as [fqm|e1] eqn:Hp1; [|discriminate].
  split; [eauto|]. cbv beta iota in H.
  rewrite outcome_bind in H. simpl outcome at 1 in H.
  destruct (snd (run_parabricks_haplotypecaller _ _)) as [[hout hsucc]|e1]
    eqn:Hhc; [|discriminate].
  cbv beta iota in H.
  destruct hsucc; simpl negb in H; cbv iota in H; [|discriminate].
  rewrite outcome_bind in H. simpl outcome at 1 in H.
  destruct (parse_parabricks_output hout) as [hcm|e1] eqn:Hp2; [|discriminate].
  split; [eauto|]. cbv beta iota in H.
  rewrite outcome_bind in H. simpl outcome at 1 in H. cbv beta iota in H.
  destruct (snd (count_aligned_reads _ _)) as [[| |t|] [| |p|]] eqn:Ha;
    try discriminate.
  split; [eauto|].
  rewrite outcome_bind in H. simpl outcome at 1 in H. cbv beta iota zeta in H.
  destruct (get_cpu_ram_usage _ _) as [cpu ram].
  rewrite outcome_bind in H. simpl outcome at 1 in H.
  destruct (snd (get_gpu_usage_monitor _)) as [gu gm]. cbv beta iota in H.
  rewrite outcome_bind in H. simpl outcome at 1 in H.
  destruct (snd (get_disk_io _ _ _)) as [dr dw]. cbv beta iota in H.
  rewrite outcome_bind in H. simpl outcome at 1 in H. cbv beta iota in H.
  unfold write_metrics in H. destruct (metrics_writable i); [reflexivity|].
  discriminate.
Qed.

(** X10: a run of [process_sample] ends normally exactly when it has
    written its metrics file.  The file is written once, as the last
    thing the run does, at [LOG_DIR/<sample>_metrics.csv], and holds the
    header and one row of as many cells as the header. *)
Theorem normal_end_iff_metrics_written env s i :
  (outcome (process_sample env s i) = Next tt
   <-> exists path rows,
         WriteCsv path rows ∈ trace (process_sample env s i))
  /\ forall path rows,
       WriteCsv path rows ∈ trace (process_sample env s i) ->
       path = path_join LOG_DIR (s ++ txt "_metrics.csv")
       /\ exists pre r,
            trace (process_sample env s i) = pre ++ [WriteCsv path rows]
            /\ (forall path' rows', WriteCsv path' rows' ∉ pre)
            /\ rows = [header; r]
            /\ length r = length header.
Proof.
  assert (forall path rows,
            WriteCsv path rows ∈ trace (process_sample env s i) ->
            outcome (process_sample env s i) = Next tt
            /\ path = path_join LOG_DIR (s ++ txt "_metrics.csv")
            /\ exists pre r,
                 trace (process_sample env s i) = pre ++ [WriteCsv path rows]
                 /\ (forall path' rows', WriteCsv path' rows' ∉ pre)
                 /\ rows = [header; r]
                 /\ length r = length header) as Hinv.
  { intros path rows Hin.
    destruct (process_sample_event env s i _ Hin eq_refl)
      as ((-> & Hf1 & Hf2 & n & Hn)
          & [H|[H|((out & fqm & Hfq & Hfqm) & [H|(c & Hc & Hw & H)])]]);
      try discriminate.
    destruct (cf_hc _ _ _ Hc) as (bam & hout & Hhc & Hhcm).
    destruct (cf_rate _ _ _ Hc) as (bam' & total & pp & Ha & _).
    unfold run_parabricks_haplotypecaller in Hhc.
    rewrite (run_stage_subject _ _ bam
               (path_join ALIGNMENT_DIR (s ++ txt "_aligned.bam"))) in Hhc.
    rewrite (count_aligned_reads_subject bam'
               (path_join ALIGNMENT_DIR (s ++ txt "_aligned.bam"))) in Ha.
    destruct (process_sample_aligned s i n out hout fqm (c_hc_metrics c)
                Hf1 Hf2 Hn Hfq Hfqm Hhc Hhcm total pp Ha) as [Ho _].
    rewrite Hw in Ho. split; [exact Ho|].
    injection H as -> ->. split; [reflexivity|].
    destruct (trace_of_complete_run s i n out fqm hout (c_hc_metrics c)
                total pp Hf1 Hf2 Hn Hfq Hfqm Hhc Hhcm Ha Hw)
      as (pre & c' & Ht & Hpre).
    assert (row c' = row c) as Hrow.
    { rewrite Ht in Hin. apply elem_of_app in Hin as [Hin|Hin].
      - exfalso. exact (Hpre _ _ Hin).
      - apply list_elem_of_singleton in Hin. congruence. }
    exists pre, (row c). rewrite Ht, Hrow.
    split; [reflexivity|]. split; [exact Hpre|].
    split; [reflexivity|]. reflexivity. }
  split.
  - split.
    + intros Ho.
      destruct (process_sample_next _ _ _ Ho)
        as (-> & Hf1 & Hf2 & (n & Hn) & (out & fqm & Hfq & Hfqm)
            & (hout & hcm & Hhc & Hhcm) & (total & pp & Ha) & Hw).
      destruct (process_sample_aligned s i n out hout fqm hcm
                  Hf1 Hf2 Hn Hfq Hfqm Hhc Hhcm total pp Ha) as [_ Hin].
      destruct (Hin Hw) as (c & Hc). eauto.
    + intros (path & rows & Hin). apply (Hinv _ _ Hin).
  - intros path rows Hin. apply (Hinv _ _ Hin).
Qed.

(** X11: a number that [float] rejects in the alignment output (such as
    "1.2.3", which the pattern [[\d.]+] accepts) makes
    [parse_parabricks_output] raise [ValueError]; [process_sample] does not
    catch it: the run ends by that exception, variant calling never
    starts and no metrics are written. *)
Theorem malformed_number_fails_the_sample env s i out e :
  reached_stages env i ->
  snd (run_parabricks_fq2bam s (fq2bam_run i)) = Ok (out, true) ->
  parse_parabricks_output out = Raise e ->
  e = ValueError
  /\ outcome (process_sample env s i) = Throw ValueError
  /\ (StartStage HaplotypeCaller ∉ trace (process_sample env s i))
  /\ (forall path rows,
        WriteCsv path rows ∉ trace (process_sample env s i)).
Proof.
  intros (-> & Hf1 & Hf2 & n & Hn) Hfq Hp.
  pose proof (BatchFacts.parse_parabricks_output_raises _ _ Hp) as ->.
  split; [reflexivity|].
  assert (forall ev, ev ∈ trace (process_sample (txt "bioinfo_env") s i) ->
                     is_log ev = false -> ~ fq2bam_succeeded s i ->
                     ev = StartMonitor \/ ev = StartStage Fq2bam) as Hev.
  { intros ev Hin Hl Hno.
    destruct (process_sample_event _ s i _ Hin Hl) as (_ & [H|[H|(H & _)]]);
      auto. contradiction. }
  assert (~ fq2bam_succeeded s i) as Hno.
  { intros (out' & fqm & Hfq' & Hfqm). rewrite Hfq in Hfq'.
    injection Hfq' as <-. congruence. }
  split; [|split].
  - unfold process_sample.
    rewrite check_conda_env_ok, Hf1, Hf2. simpl in *.
    rewrite Hn. simpl. rewrite Hfq. simpl. rewrite Hp. reflexivity.
  - intros Hin. destruct (Hev _ Hin eq_refl Hno); discriminate.
  - intros path rows Hin. destruct (Hev _ Hin eq_refl Hno); discriminate.
Qed.


Lemma malformed_number_fails_the_sample_witness :
  outcome (process_sample Scenarios.bioinfo_env Scenarios.S1
             Cases.bad_number_inputs) = Throw ValueError
  /\ (StartStage HaplotypeCaller
        ∉ trace (process_sample Scenarios.bioinfo_env Scenarios.S1
                   Cases.bad_number_inputs)).
Proof.
  destruct (malformed_number_fails_the_sample Scenarios.bioinfo_env
              Scenarios.S1 Cases.bad_number_inputs
              (stdout Cases.bad_number_run) ValueError)
    as (_ & H1 & H2 & _).
  - repeat split; try reflexivity. exists 4000%nat. reflexivity.
  - vm_compute. reflexivity.
  - vm_compute. reflexivity.
  - split; [exact H1|exact H2].
Defined.

End RunFacts.

(** ** More on [parse_quality_reports] *)

Module QualityMore.
Import PyStr PyNum Extract Quality QualityFailure.

Lemma read_mean_quality_touches r :
  touches_only "mean_quality" (read_mean_quality r).
Proof.
  unfold read_mean_quality, with_open. destruct (mean_quality_by_cycle_txt r);
    [apply assign_touches|apply throw_touches].
Qed.

Lemma try_body_other r (m : gmap string pyval) k :
  k <> "mean_insert_size"%string -> k <> "gc_bias"%string ->
  k <> "mean_quality"%string ->
  fst (try_body r m) !! k = m !! k.
Proof.
  intros H1 H2 H3. rewrite try_body_unfold. unfold andthen.
  pose proof (read_insert_size_touches r m k H1) as E1.
  destruct (read_insert_size r m) as [m1 [e|]]; simpl in *; [exact E1|].
  pose proof (read_gcbias_touches r m1 k H2) as E2.
  destruct (read_gcbias r m1) as [m2 [e|]]; simpl in *; [congruence|].
  pose proof (read_mean_quality_touches r m2 k H3) as E3.
  destruct (read_mean_quality r m2) as [m3 [e|]]; simpl in *; congruence.
Qed.

Lemma try_body_complete r (m : gmap string pyval) :
  try_body r ∅ = (m, None) ->
  exists c1 c2 c3 qs,
    insert_size_txt r = Some c1 /\ gcbias_summary_txt r = Some c2
    /\ mean_quality_by_cycle_txt r = Some c3
    /\ quality_loop (file_lines c3) false [] = Ok qs
    /\ m !! "mean_quality"%string = Some (mean qs).
Proof.
  rewrite try_body_unfold. unfold andthen.
  destruct (read_insert_size r ∅) as [m1 [e|]] eqn:E1; [discriminate|].
  destruct (read_gcbias r m1) as [m2 [e|]] eqn:E2; [discriminate|].
  destruct (read_mean_quality r m2) as [m3 [e|]] eqn:E3; [discriminate|].
  unfold skip. intros [= <-].
  unfold read_insert_size, with_open in E1.
  destruct (insert_size_txt r) as [c1|]; [|discriminate].
  unfold read_gcbias, with_open in E2.
  destruct (gcbias_summary_txt r) as [c2|]; [|discriminate].
  unfold read_mean_quality, with_open in E3.
  destruct (mean_quality_by_cycle_txt r) as [c3|]; [|discriminate].
  unfold assign in E3.
  destruct (quality_loop (file_lines c3) false []) as [qs|] eqn:Hq;
    simpl in E3; [|discriminate].
  injection E3 as <-. exists c1, c2, c3, qs.
  repeat split; try reflexivity; try assumption. apply lookup_insert_eq.
Qed.

(** X12: the dictionary of [parse_quality_reports] has no key besides the
    three quality names; and when nothing was logged, all three reports
    were read and the mean quality is present, being the integer 0 when
    the per-cycle report has no numeric row and a float otherwise, while
    the other two keys may still be absent. *)
Theorem quality_keys_and_mean s r :
  (forall k, is_Some (snd (parse_quality_reports s r) !! k) ->
             k ∈ ["mean_insert_size"; "gc_bias"; "mean_quality"]%string)
  /\ (fst (parse_quality_reports s r) = [] ->
      exists c1 c2 c3 qs,
        insert_size_txt r = Some c1 /\ gcbias_summary_txt r = Some c2
        /\ mean_quality_by_cycle_txt r = Some c3
        /\ quality_loop (file_lines c3) false [] = Ok qs
        /\ snd (parse_quality_reports s r) !! "mean_quality"%string
           = Some (mean qs)
        /\ (qs = [] -> mean qs = PInt 0)
        /\ (qs <> [] -> exists f, mean qs = PFloat f)).
Proof.
  split.
  - intros k Hk. rewrite parse_quality_reports_dict in Hk.
    destruct (decide (k ∈ ["mean_insert_size"; "gc_bias"; "mean_quality"]%string))
      as [|Hn]; [assumption|exfalso].
    apply not_elem_of_cons in Hn as [H1 Hn].
    apply not_elem_of_cons in Hn as [H2 Hn].
    apply not_elem_of_cons in Hn as [H3 _].
    rewrite (try_body_other r ∅ k H1 H2 H3), lookup_empty in Hk.
    destruct Hk. discriminate.
  - intros Hlog. unfold parse_quality_reports in *.
    destruct (try_body r ∅) as [m [e|]] eqn:Ht; [discriminate|].
    destruct (try_body_complete r m Ht) as (c1 & c2 & c3 & qs & ? & ? & ? & ? & ?).
    exists c1, c2, c3, qs. repeat split; try assumption.
    + intros ->. reflexivity.
    + intros Hne. destruct qs; [contradiction|]. simpl. eauto.
Qed.


End QualityMore.

(** ** The download and the names of the reads *)

Module FetchFacts.
Import PyStr Stages Sample Fetch.

Lemma temp_path_neq p : temp_path_of p <> p.
Proof.
  unfold temp_path_of. intro H.
  apply (f_equal (@length ascii)) in H. rewrite length_app in H.
  simpl in H. lia.
Qed.

Lemma path_join_not_empty a b : b <> [] -> path_join a b <> [].
Proof.
  intros Hb. unfold path_join.
  destruct (startswith b (txt "/")); [exact Hb|].
  destruct a as [|x a]; [exact Hb|].
  destruct (endswith (x :: a) (txt "/")); discriminate.
Qed.

Lemma bam_file_not_empty s : bam_file_of s <> [].
Proof. unfold bam_file_of. destruct s; discriminate. Qed.

(** X13: [download_bam] answers with the final path or with [None], and
    with the path exactly when a file stands at it afterwards; a file
    already there is left alone and nothing is requested; no other file
    than the final one and the [.incomplete] one is touched; and a file
    that appears at the final path holds the whole body of a stream that
    ended, the [.incomplete] file being gone: a download that breaks
    leaves its bytes under the temporary name only. *)
Theorem download_is_all_or_nothing sample_id output_dir w fs :
  ((download_bam sample_id output_dir w fs).2
     = Some (final_path output_dir sample_id)
   \/ (download_bam sample_id output_dir w fs).2 = None)
  /\ truthy_str (download_bam sample_id output_dir w fs).2
     = bool_decide (is_Some ((download_bam sample_id output_dir w fs).1.2
                               !! final_path output_dir sample_id))
  /\ (is_Some (fs !! final_path output_dir sample_id) ->
      download_bam sample_id output_dir w fs
      = ([AlreadyExists (bam_file_of sample_id)], fs,
         Some (final_path output_dir sample_id)))
  /\ (forall p,
        p <> final_path output_dir sample_id ->
        p <> temp_path_of (final_path output_dir sample_id) ->
        (download_bam sample_id output_dir w fs).1.2 !! p = fs !! p)
  /\ (fs !! final_path output_dir sample_id = None ->
      forall c,
        (download_bam sample_id output_dir w fs).1.2
          !! final_path output_dir sample_id = Some c ->
        exists chunks,
          answer w = Body chunks true /\ c = concat chunks
          /\ (download_bam sample_id output_dir w fs).1.2
               !! temp_path_of (final_path output_dir sample_id) = None
          /\ Downloaded (bam_file_of sample_id)
               ∈ (download_bam sample_id output_dir w fs).1.1).
Proof.
  unfold download_bam. fold (final_path output_dir sample_id).
  set (bam_path := final_path output_dir sample_id).
  pose proof (temp_path_neq bam_path) as Hne.
  assert (Hp : exists a p, bam_path = a :: p).
  { pose proof (path_join_not_empty output_dir _
                  (bam_file_not_empty sample_id)) as H.
    fold (final_path output_dir sample_id) in H. fold bam_path in H. destruct bam_path; [contradiction|eauto]. }
  destruct Hp as (a0 & p0 & Hp).
  destruct (fs !! bam_path) as [c0|] eqn:E0.
  { simpl. rewrite E0, Hp. simpl. repeat split; eauto.
    intros [=]. }
  destruct (answer w) as [|chunks complete] eqn:Ea.
  { simpl. rewrite E0. repeat split; eauto.
    - intros [? [=]].
    - intros _ c [=]. }
  destruct (can_create w); simpl.
  2:{ rewrite E0. repeat split; eauto.
      - intros [? [=]].
      - intros _ c [=]. }
  destruct complete, (can_rename w); simpl.
  - rewrite lookup_insert_eq, Hp. simpl. rewrite <- Hp.
    repeat split; eauto.
    + intros [? [=]].
    + intros p H1 H2. rewrite lookup_insert_ne by congruence.
      rewrite lookup_delete_ne by congruence.
      rewrite lookup_insert_ne by congruence. reflexivity.
    + intros _ c [= <-]. exists chunks. repeat split.
      * rewrite lookup_insert_ne by congruence. apply lookup_delete_eq.
      * apply list_elem_of_further, list_elem_of_here.
  - rewrite lookup_insert_ne by congruence. rewrite E0.
    repeat split; eauto.
    + intros [? [=]].
    + intros p H1 H2. rewrite lookup_insert_ne by congruence. reflexivity.
    + intros _ c [=].
  - rewrite lookup_insert_ne by congruence. rewrite E0.
    repeat split; eauto.
    + intros [? [=]].
    + intros p H1 H2. rewrite lookup_insert_ne by congruence. reflexivity.
    + intros _ c [=].
  - rewrite lookup_insert_ne by congruence. rewrite E0.
    repeat split; eauto.
    + intros [? [=]].
    + intros p H1 H2. rewrite lookup_insert_ne by congruence. reflexivity.
    + intros _ c [=].
Qed.

End FetchFacts.

(** ** The names [run_bam2fq] gives to the reads *)

Module NameFacts.
Import PyStr Stages Sample Fetch.

Lemma basename_noslash b cur :
  "/"%char ∉ b -> basename_aux cur b = rev cur ++ b.
Proof.
  revert cur. induction b as [|x b IH]; intros cur Hb; simpl.
  - rewrite app_nil_r. reflexivity.
  - apply not_elem_of_cons in Hb as [Hx Hb].
    destruct (Ascii.eqb_spec x "/") as [->|_]; [contradiction|].
    rewrite IH by assumption. simpl. rewrite <- app_assoc. reflexivity.
Qed.

Lemma basename_app_slash a b cur :
  "/"%char ∉ b -> basename_aux cur (a ++ "/"%char :: b) = b.
Proof.
  intros Hb. revert cur. induction a as [|x a IH]; intros cur; simpl.
  - apply (basename_noslash b [] Hb).
  - destruct (Ascii.eqb x "/"); apply IH.
Qed.

Lemma startswith_noslash b :
  "/"%char ∉ b -> startswith b (txt "/") = false.
Proof.
  intros Hb. destruct b as [|x b]; [reflexivity|].
  apply not_elem_of_cons in Hb as [Hx _]. simpl.
  destruct (Ascii.eqb_spec x "/") as [->|_]; [contradiction|reflexivity].
Qed.

Lemma startswith_length s p :
  startswith s p = true -> (length p <= length s)%nat.
Proof.
  revert s. induction p as [|b p IH]; intros s H; simpl; [lia|].
  destruct s as [|a s]; [discriminate|]. simpl in *.
  apply andb_true_iff in H as [_ H]. apply IH in H. lia.
Qed.

Lemma startswith_refl p : startswith p p = true.
Proof.
  induction p as [|b p IH]; [reflexivity|]. simpl.
  rewrite Ascii.eqb_refl. exact IH.
Qed.

Lemma replace_aux_skip_all old new r k :
  (length r <= k)%nat -> replace_aux old new k r = [].
Proof.
  revert k. induction r as [|a r IH]; intros k Hk; [reflexivity|].
  simpl in Hk. destruct k as [|k]; [lia|]. simpl. apply IH. lia.
Qed.

Lemma replace_aux_self old new :
  old <> [] -> replace_aux old new 0 old = new.
Proof.
  destruct old as [|b r]; [contradiction|]. intros _.
  cbn [replace_aux]. rewrite startswith_refl.
  rewrite replace_aux_skip_all by (simpl; lia). apply app_nil_r.
Qed.

Section Replace.
Variables old new : text.

Lemma replace_aux_absent s :
  contains s old = false -> replace_aux old new 0 s = s.
Proof.
  induction s as [|a s IH]; intros H; [reflexivity|].
  cbn [contains] in H. apply orb_false_iff in H as [H1 H2].
  cbn [replace_aux]. rewrite H1. f_equal. apply IH. exact H2.
Qed.

(** No occurrence of [old] begins in a text and ends in an [old] that
    follows it. *)
Hypothesis old_not_empty : old <> [].
Hypothesis no_straddle :
  forall t, t <> [] -> startswith (t ++ old) old = startswith t old.

Lemma replace_aux_app_old s skip :
  (skip <= length s)%nat ->
  replace_aux old new skip (s ++ old) = replace_aux old new skip s ++ new.
Proof.
  revert skip. induction s as [|a s IH]; intros skip Hk.
  - simpl in Hk. assert (skip = 0%nat) as -> by lia.
    cbn [app]. rewrite (replace_aux_self old new old_not_empty).
    reflexivity.
  - destruct skip as [|k].
    + change ((a :: s) ++ old) with (a :: (s ++ old)).
      cbn [replace_aux].
      change (a :: (s ++ old)) with ((a :: s) ++ old).
      rewrite no_straddle by discriminate.
      destruct (startswith (a :: s) old) eqn:Es.
      * apply startswith_length in Es. simpl in Es.
        rewrite IH by lia. rewrite app_assoc. reflexivity.
      * rewrite IH by lia. reflexivity.
    + simpl in Hk. cbn [app replace_aux]. apply IH. lia.
Qed.

End Replace.

Section Remove.
Variable old : text.
Hypothesis old_not_empty : old <> [].

Lemma startswith_nil_old : startswith [] old = false.
Proof. destruct old; [contradiction|reflexivity]. Qed.

Lemma remove_length s skip :
  (skip <= length s)%nat ->
  (length (replace_aux old [] skip s) <= length s - skip)%nat
  /\ (contains (drop skip s) old = true ->
      (length (replace_aux old [] skip s) + length old
       <= length s - skip)%nat).
Proof.
  revert skip. induction s as [|a s IH]; intros skip Hk.
  - simpl in Hk. assert (skip = 0%nat) as -> by lia.
    cbn [replace_aux drop contains length].
    rewrite startswith_nil_old. split; [lia|discriminate].
  - destruct skip as [|k].
    + cbn [replace_aux drop].
      destruct (startswith (a :: s) old) eqn:Es.
      * apply startswith_length in Es. simpl in Es.
        assert (Ho : (0 < length old)%nat).
        { destruct old; [contradiction|simpl; lia]. }
        destruct (IH (length old - 1)%nat ltac:(lia)) as [H1 _].
        cbn [app length]. split; [lia|]. intros _. lia.
      * destruct (IH 0%nat ltac:(lia)) as [H1 H2]. cbn [length].
        split; [lia|]. intros Hc. cbn [drop contains] in Hc.
        rewrite Es in Hc. cbn [orb] in Hc. cbn [drop] in H2.
        specialize (H2 Hc). lia.
    + simpl in Hk. cbn [replace_aux drop].
      destruct (IH k ltac:(lia)) as [H1 H2]. cbn [length].
      split; [lia|]. intros Hc. specialize (H2 Hc). lia.
Qed.

Lemma remove_chars s skip c :
  c ∈ replace_aux old [] skip s -> c ∈ s.
Proof.
  revert skip. induction s as [|a s IH]; intros skip H; [exact H|].
  destruct skip as [|k]; cbn [replace_aux] in H.
  - destruct (startswith (a :: s) old).
    + apply list_elem_of_further. exact (IH _ H).
    + apply elem_of_cons in H as [->|H];
        [apply list_elem_of_here|apply list_elem_of_further; eauto].
  - apply list_elem_of_further. exact (IH _ H).
Qed.

End Remove.

Lemma startswith_nil t : startswith t [] = true.
Proof. destruct t; reflexivity. Qed.

Lemma no_straddle_bam t :
  t <> [] ->
  startswith (t ++ txt ".bam") (txt ".bam") = startswith t (txt ".bam").
Proof.
  intros Ht. change (txt ".bam") with [ "."; "b"; "a"; "m" ]%char.
  destruct t as [|a [|b [|c [|d t]]]]; [contradiction| | | |];
    cbn [app startswith Ascii.eqb Bool.eqb andb];
    rewrite ?andb_false_r, ?startswith_nil; reflexivity.
Qed.

Lemma base_name_of_download s :
  "/"%char ∉ s ->
  str_replace (txt ".bam") [] (basename (final_path RAW_BAM_DIR s))
  = str_replace (txt ".bam") [] s.
Proof.
  intros Hs.
  assert (Hb : "/"%char ∉ bam_file_of s).
  { unfold bam_file_of. rewrite elem_of_app. intros [H|H]; [auto|].
    vm_compute in H. repeat (apply elem_of_cons in H as [H|H];
                             [discriminate H|]).
    inversion H. }
  assert (Hf : final_path RAW_BAM_DIR s
               = txt "./raw_bams" ++ "/"%char :: bam_file_of s).
  { unfold final_path, path_join. rewrite (startswith_noslash _ Hb).
    reflexivity. }
  rewrite Hf. unfold basename.
  rewrite (basename_app_slash (txt "./raw_bams") _ [] Hb).
  unfold bam_file_of, str_replace.
  rewrite (replace_aux_app_old (txt ".bam") []);
    [apply app_nil_r|discriminate|apply no_straddle_bam|simpl; lia].
Qed.

Lemma path_join_inj d x y :
  startswith x (txt "/") = false -> startswith y (txt "/") = false ->
  path_join d x = path_join d y -> x = y.
Proof.
  intros Hx Hy. unfold path_join. rewrite Hx, Hy.
  destruct d as [|a d]; [auto|].
  destruct (endswith (a :: d) (txt "/")); intros H.
  - exact (app_inv_head _ _ _ H).
  - rewrite !app_assoc in H. exact (app_inv_head _ _ _ H).
Qed.

Lemma startswith_suffix_noslash x suf :
  "/"%char ∉ x -> startswith suf (txt "/") = false ->
  startswith (x ++ suf) (txt "/") = false.
Proof.
  intros Hx Hs. destruct x as [|a x]; [exact Hs|].
  apply not_elem_of_cons in Hx as [Ha _]. simpl.
  destruct (Ascii.eqb_spec a "/") as [->|_]; [contradiction|reflexivity].
Qed.

(** X14: for a sample identifier without a slash, the names under which
    [run_bam2fq] reports the reads made from the downloaded BAM are the
    names under which [gpu_script.process_sample] looks for them exactly
    when the identifier does not contain ".bam": [replace('.bam', '')]
    removes every occurrence, not only the extension. *)
Theorem fastq_names_agree_iff sample_id :
  "/"%char ∉ sample_id ->
  (fastq_names (final_path RAW_BAM_DIR sample_id)
     (path_join FASTQ_DIR sample_id) = expected_fastq sample_id
   <-> contains sample_id (txt ".bam") = false)
  /\ forall r,
       launched r = true -> exit_code r = 0 ->
       contains sample_id (txt ".bam") = false ->
       snd (run_bam2fq (final_path RAW_BAM_DIR sample_id)
              (path_join FASTQ_DIR sample_id) r)
       = Ok (Some (fst (expected_fastq sample_id)),
             Some (snd (expected_fastq sample_id))).
Proof.
  intros Hs.
  assert (Hiff : fastq_names (final_path RAW_BAM_DIR sample_id)
                   (path_join FASTQ_DIR sample_id)
                 = expected_fastq sample_id
                 <-> contains sample_id (txt ".bam") = false).
  { unfold fastq_names, expected_fastq.
    rewrite (base_name_of_download _ Hs). unfold str_replace. split.
    - intros H. injection H as H _.
      apply path_join_inj in H.
      + apply app_inv_tail in H.
        destruct (contains sample_id (txt ".bam")) eqn:Ec; [|reflexivity].
        destruct (remove_length (txt ".bam") ltac:(discriminate)
                    sample_id 0%nat ltac:(lia)) as [_ Hl].
        rewrite drop_0 in Hl. specialize (Hl Ec).
        replace (replace_aux (txt ".bam") [] 0 sample_id)
          with sample_id in Hl by (symmetry; exact H).
        simpl in Hl. lia.
      + apply startswith_suffix_noslash; [|reflexivity].
        intros Hc. apply Hs. exact (remove_chars _ _ _ _ Hc).
      + apply startswith_suffix_noslash; [exact Hs|reflexivity].
    - intros Hc. rewrite (replace_aux_absent _ _ _ Hc). reflexivity. }
  split; [exact Hiff|].
  intros r Hl He Hc. unfold run_bam2fq.
  rewrite (proj2 Hiff Hc). unfold expected_fastq.
  rewrite Hl, He. reflexivity.
Qed.

Lemma fastq_names_agree_iff_witness :
  fastq_names (final_path RAW_BAM_DIR (txt "S1"))
    (path_join FASTQ_DIR (txt "S1")) = expected_fastq (txt "S1")
  /\ fastq_names (final_path RAW_BAM_DIR (txt "ECA.bam7"))
       (path_join FASTQ_DIR (txt "ECA.bam7"))
     <> expected_fastq (txt "ECA.bam7").
Proof.
  assert (H1 : "/"%char ∉ txt "S1").
  { intros H. apply list_elem_of_In in H. vm_compute in H.
    intuition discriminate. }
  assert (H2 : "/"%char ∉ txt "ECA.bam7").
  { intros H. apply list_elem_of_In in H. vm_compute in H.
    intuition discriminate. }
  split.
  - apply (proj1 (fastq_names_agree_iff (txt "S1") H1)).
    vm_compute. reflexivity.
  - intros H.
    apply (proj1 (fastq_names_agree_iff (txt "ECA.bam7") H2)) in H.
    vm_compute in H. discriminate H.
Defined.

End NameFacts.

(** ** The driver of one sample *)

Module DriverFacts.
Import PyStr Stages Sample Fetch Driver FetchFacts.

Lemma download_bam_result sample_id output_dir w fs :
  (download_bam sample_id output_dir w fs).2
    = Some (final_path output_dir sample_id)
  \/ (download_bam sample_id output_dir w fs).2 = None.
Proof.
  unfold download_bam. fold (final_path output_dir sample_id).
  destruct (fs !! final_path output_dir sample_id); [left; reflexivity|].
  destruct (answer w) as [|chunks complete]; [right; reflexivity|].
  destruct (can_create w); [|right; reflexivity]. simpl.
  destruct (complete && can_rename w); [left|right]; reflexivity.
Qed.

Lemma download_bam_notes sample_id output_dir w fs n :
  n ∈ (download_bam sample_id output_dir w fs).1.1 ->
  is_fetch_note n = true.
Proof.
  unfold download_bam.
  destruct (fs !! path_join output_dir (bam_file_of sample_id)).
  { simpl. intros H. apply list_elem_of_singleton in H as ->. reflexivity. }
  destruct (answer w) as [|chunks complete];
    [|destruct (can_create w);
      [destruct (complete && can_rename w)|]]; simpl;
    intros H;
    repeat (apply elem_of_cons in H as [->|H]; [reflexivity|]);
    inversion H.
Qed.

Lemma run_bam2fq_cases input_bam output_dir r :
  (exists l e, run_bam2fq input_bam output_dir r = (l, Raise e))
  \/ (exists l, run_bam2fq input_bam output_dir r = (l, Ok (None, None))
                /\ forall n, n ∈ l -> is_fetch_note n = true)
  \/ (exists l, run_bam2fq input_bam output_dir r
                = (l, Ok (Some (fastq_names input_bam output_dir).1,
                          Some (fastq_names input_bam output_dir).2))
                /\ launched r = true /\ exit_code r = 0
                /\ forall n, n ∈ l -> is_fetch_note n = true).
Proof.
  unfold run_bam2fq.
  destruct (fastq_names input_bam output_dir) as [f1 f2].
  destruct (launched r); simpl; [|left; eauto].
  destruct (exit_code r =? 0) eqn:E; right; [right|left].
  - apply Z.eqb_eq in E. eexists. repeat split; eauto.
    intros n H. apply list_elem_of_singleton in H as ->. reflexivity.
  - eexists. split; eauto.
    intros n H. apply list_elem_of_singleton in H as ->. reflexivity.
Qed.

Lemma fastq_names_truthy input_bam output_dir :
  truthy_str (Some (fastq_names input_bam output_dir).1) = true
  /\ truthy_str (Some (fastq_names input_bam output_dir).2) = true.
Proof.
  unfold fastq_names. simpl. split.
  - destruct (path_join output_dir _) eqn:E; [|reflexivity].
    apply path_join_not_empty in E; [contradiction|].
    intros H. apply app_eq_nil in H as [_ H]. discriminate H.
  - destruct (path_join output_dir _) eqn:E; [|reflexivity].
    apply path_join_not_empty in E; [contradiction|].
    intros H. apply app_eq_nil in H as [_ H]. discriminate H.
Qed.

Lemma final_path_truthy output_dir sample_id :
  truthy_str (Some (final_path output_dir sample_id)) = true.
Proof.
  simpl. destruct (final_path output_dir sample_id) eqn:E; [|reflexivity].
  apply path_join_not_empty in E; [contradiction|].
  apply bam_file_not_empty.
Qed.

Lemma tool_not_note e l : Tool e ∉ map Note l.
Proof.
  intros H. apply list_elem_of_fmap in H as (n & Hn & _). discriminate Hn.
Qed.

Lemma note_not_tool n l : Note n ∉ map Tool l.
Proof.
  intros H. apply list_elem_of_fmap in H as (e & He & _). discriminate He.
Qed.

Lemma note_in_notes n l : Note n ∈ map Note l -> n ∈ l.
Proof.
  intros H. apply list_elem_of_fmap in H as (m & Hm & Hin).
  injection Hm as ->. exact Hin.
Qed.

(** A run of [main] that starts a stage is the run of steps 5 and 6
    after the records of the download and of the conversion. *)
Lemma main_reaches_stages sample_id single_end w fs e :
  Tool e ∈ (main sample_id single_end w fs).1.1 ->
  exists l12 fs2,
    main sample_id single_end w fs
    = (map Note l12
       ++ (align_and_call sample_id (final_path RAW_BAM_DIR sample_id)
             w fs2).1.1,
       (align_and_call sample_id (final_path RAW_BAM_DIR sample_id)
          w fs2).1.2,
       (align_and_call sample_id (final_path RAW_BAM_DIR sample_id)
          w fs2).2)
    /\ forall n, n ∈ l12 -> is_fetch_note n = true.
Proof.
  unfold main.
  pose proof (download_bam_result sample_id RAW_BAM_DIR (bucket w) fs) as Hr.
  pose proof (download_bam_notes sample_id RAW_BAM_DIR (bucket w) fs) as Hn.
  destruct (download_bam sample_id RAW_BAM_DIR (bucket w) fs)
    as [[l1 fs1] bp]. simpl in Hr, Hn.
  destruct Hr as [-> | ->].
  2:{ simpl. intros H. apply elem_of_app in H as [H|H].
      - destruct (tool_not_note _ _ H).
      - apply list_elem_of_singleton in H. discriminate H. }
  rewrite final_path_truthy. cbn [negb default from_option id].
  destruct (run_bam2fq_cases (final_path RAW_BAM_DIR sample_id)
              (path_join FASTQ_DIR sample_id) (bam2fq w))
    as [(l2 & e2 & ->) | [(l2 & -> & Hl2) | (l2 & -> & _ & _ & Hl2)]].
  - simpl. intros H. destruct (tool_not_note _ _ H).
  - destruct single_end; simpl; intros H;
      apply elem_of_app in H as [H|H];
      try (destruct (tool_not_note _ _ H));
      apply list_elem_of_singleton in H; discriminate H.
  - destruct (fastq_names_truthy (final_path RAW_BAM_DIR sample_id)
                (path_join FASTQ_DIR sample_id)) as [-> ->].
    cbn [negb orb].
    destruct (align_and_call sample_id (final_path RAW_BAM_DIR sample_id)
                w (bam2fq_effect w fs1)) as [[l fs'] r] eqn:Ea.
    intros _. exists (l1 ++ l2), (bam2fq_effect w fs1). rewrite Ea.
    split; [destruct single_end; reflexivity|].
    intros n H. apply elem_of_app in H as [H|H]; eauto.
Qed.

Lemma remove_if_exists_spec w p n fs :
  (exists l, remove_if_exists w p n fs = (l, delete p fs, Ok tt)
             /\ forall a, a ∈ l -> a = Note n)
  \/ (remove_if_exists w p n fs = ([], fs, Raise OSError)).
Proof.
  unfold remove_if_exists. destruct (fs !! p) eqn:E.
  - destruct (removable w p); [left|right; reflexivity].
    eexists. split; [reflexivity|].
    intros a H. apply list_elem_of_singleton in H. exact H.
  - left. exists []. rewrite (delete_id fs p E). split; [reflexivity|].
    intros a H. inversion H.
Qed.

Lemma cleanup_spec w bp ob fs :
  (cleanup w bp ob fs).2 = Ok tt ->
  (cleanup w bp ob fs).1.2 !! bp = None
  /\ (cleanup w bp ob fs).1.2 !! ob = None.
Proof.
  unfold cleanup.
  destruct (remove_if_exists_spec w bp (DeletedRawBam bp) fs)
    as [(l5 & -> & _) | ->]; [|discriminate].
  destruct (remove_if_exists_spec w ob (DeletedOutputBam ob)
              (delete bp fs)) as [(l6 & -> & _) | ->]; [|discriminate].
  simpl. intros _. split; [|apply lookup_delete_eq].
  destruct (decide (ob = bp)) as [->|Hne]; [apply lookup_delete_eq|].
  rewrite lookup_delete_ne by exact Hne. apply lookup_delete_eq.
Qed.

Lemma cleanup_notes w bp ob fs a :
  a ∈ (cleanup w bp ob fs).1.1 ->
  a = Note (DeletedRawBam bp) \/ a = Note (DeletedOutputBam ob).
Proof.
  unfold cleanup.
  destruct (remove_if_exists_spec w bp (DeletedRawBam bp) fs)
    as [(l5 & -> & H5) | ->]; [|intros H; inversion H].
  destruct (remove_if_exists_spec w ob (DeletedOutputBam ob)
              (delete bp fs)) as [(l6 & -> & H6) | ->]; simpl.
  - intros H. apply elem_of_app in H as [H|H]; eauto.
  - rewrite app_nil_r. eauto.
Qed.

Lemma run_stage_tools st site subj r :
  exists l res, run_stage st site subj r = (StartStage st :: l, res)
    /\ forall ev, ev ∈ l -> is_log ev = true.
Proof.
  unfold run_stage. destruct (launched r); simpl.
  - destruct (exit_code r =? 0); [destruct (logfile r)|];
      eexists _, _; (split; [reflexivity|]); intros ev H;
      repeat (apply elem_of_cons in H as [->|H]; [reflexivity|]);
      inversion H.
  - eexists _, _; (split; [reflexivity|]); intros ev H; inversion H.
Qed.

Lemma align_and_call_spec sample_id bp w fs :
  (forall s, (Note (AlignmentFailed s)
                ∉ (align_and_call sample_id bp w fs).1.1)
             /\ (Note (VcfFailed s)
                   ∉ (align_and_call sample_id bp w fs).1.1))
  /\ (forall t,
        snd (run_parabricks_fq2bam sample_id (fq2bam w)) = Ok t ->
        Tool (StartStage HaplotypeCaller)
          ∈ (align_and_call sample_id bp w fs).1.1)
  /\ ((align_and_call sample_id bp w fs).2 = Ok tt ->
      Note (VcfCompleted sample_id)
        ∈ (align_and_call sample_id bp w fs).1.1
      /\ (align_and_call sample_id bp w fs).1.2 !! bp = None
      /\ (align_and_call sample_id bp w fs).1.2
           !! output_bam_of sample_id = None).
Proof.
  unfold align_and_call, run_parabricks_fq2bam,
    run_parabricks_haplotypecaller.
  destruct (run_stage_tools Fq2bam AtFq2bam sample_id (fq2bam w))
    as (l3 & r3 & -> & _).
  destruct r3 as [t3|e3].
  2:{ cbn [fst snd]. repeat split; try discriminate;
        apply note_not_tool. }
  change (truthy_pair t3) with true. cbv iota.
  destruct (run_stage_tools HaplotypeCaller AtHaplotypeCaller
              (output_bam_of sample_id) (hc w)) as (l4 & r4 & -> & _).
  assert (Hhc : Tool (StartStage HaplotypeCaller)
                  ∈ map Tool (StartStage Fq2bam :: l3)
                    ++ map Tool (StartStage HaplotypeCaller :: l4)).
  { apply elem_of_app. right. apply list_elem_of_here. }
  assert (Hno : forall n, Note n ∉ map Tool (StartStage Fq2bam :: l3)
                          ++ map Tool (StartStage HaplotypeCaller :: l4)).
  { intros n H. apply elem_of_app in H as [H|H];
      exact (note_not_tool _ _ H). }
  destruct r4 as [t4|e4].
  2:{ cbn [fst snd]. repeat split; try discriminate; try apply Hno.
      intros _ _. exact Hhc. }
  change (truthy_pair t4) with true. cbv iota.
  pose proof (cleanup_spec w bp (output_bam_of sample_id)
                (hc_effect w (fq2bam_effect w fs))) as Hc.
  pose proof (cleanup_notes w bp (output_bam_of sample_id)
                (hc_effect w (fq2bam_effect w fs))) as Hn.
  destruct (cleanup w bp (output_bam_of sample_id)
              (hc_effect w (fq2bam_effect w fs))) as [[l5 fs5] r5].
  cbn [fst snd] in Hc, Hn. cbn [fst snd].
  assert (Hin : forall a,
            a ∈ map Tool (StartStage Fq2bam :: l3)
                ++ map Tool (StartStage HaplotypeCaller :: l4)
                ++ Note (VcfCompleted sample_id) :: l5 ->
            (exists e, a = Tool e)
            \/ a = Note (VcfCompleted sample_id)
            \/ a = Note (DeletedRawBam bp)
            \/ a = Note (DeletedOutputBam (output_bam_of sample_id))).
  { intros a H. rewrite !elem_of_app, elem_of_cons in H.
    destruct H as [H | [H | [-> | H]]].
    - apply list_elem_of_fmap in H as (e & -> & _). eauto.
    - apply list_elem_of_fmap in H as (e & -> & _). eauto.
    - auto.
    - destruct (Hn a H); auto. }
  split; [|split].
  - intros s. split; intros H; apply Hin in H;
      destruct H as [[e H] | [H | [H | H]]]; discriminate H.
  - intros t _. rewrite app_assoc. apply elem_of_app. left. exact Hhc.
  - intros Hr. split; [|exact (Hc Hr)].
    rewrite !elem_of_app, elem_of_cons. auto.
Qed.

(** X15: [main] tests the tuples the stage runners return, and a tuple
    of two is always true.  So once the alignment has been started, a
    runner that reports failure changes nothing: variant calling is
    started all the same, neither "Alignment failed" nor "VCF generation
    failed" is ever logged, and a run that ends normally has logged "VCF
    generation completed" and removed both the raw BAM and the aligned
    BAM. *)
Theorem driver_takes_failure_for_success sample_id single_end w fs :
  Tool (StartStage Fq2bam) ∈ (main sample_id single_end w fs).1.1 ->
  (forall s,
     (Note (AlignmentFailed s) ∉ (main sample_id single_end w fs).1.1)
     /\ (Note (VcfFailed s) ∉ (main sample_id single_end w fs).1.1))
  /\ (forall t,
        snd (run_parabricks_fq2bam sample_id (fq2bam w)) = Ok t ->
        Tool (StartStage HaplotypeCaller)
          ∈ (main sample_id single_end w fs).1.1)
  /\ ((main sample_id single_end w fs).2 = Ok tt ->
      Note (VcfCompleted sample_id) ∈ (main sample_id single_end w fs).1.1
      /\ (main sample_id single_end w fs).1.2
           !! final_path RAW_BAM_DIR sample_id = None
      /\ (main sample_id single_end w fs).1.2
           !! output_bam_of sample_id = None).
Proof.
  intros H.
  destruct (main_reaches_stages _ _ _ _ _ H) as (l12 & fs2 & -> & Hl).
  destruct (align_and_call_spec sample_id
              (final_path RAW_BAM_DIR sample_id) w fs2)
    as (Hno & Hhc & Hend).
  cbn [fst snd]. split; [|split].
  - intros s. destruct (Hno s) as [H1 H2].
    split; intros Hin; apply elem_of_app in Hin as [Hin|Hin];
      try contradiction;
      apply note_in_notes, Hl in Hin; discriminate Hin.
  - intros t Ht. apply elem_of_app. right. exact (Hhc t Ht).
  - intros Hr. destruct (Hend Hr) as (H1 & H2 & H3).
    split; [|split; assumption]. apply elem_of_app. right. exact H1.
Qed.

(** X16: in [run_pipeline.prepare_fastq] the single-end flag changes
    nothing, since [run_bam2fq] reports both names or none; and the
    completion is logged exactly when a BAM was at hand and the
    conversion was launched and exited with 0. *)
Theorem single_end_changes_nothing sample_id w fs :
  prepare_fastq sample_id true w fs = prepare_fastq sample_id false w fs
  /\ (forall single_end,
        FastqCompleted sample_id
          ∈ (prepare_fastq sample_id single_end w fs).1.1
        <-> is_Some (download_bam sample_id RAW_BAM_DIR (bucket w) fs).2
            /\ launched (bam2fq w) = true /\ exit_code (bam2fq w) = 0).
Proof.
  unfold prepare_fastq.
  pose proof (download_bam_result sample_id RAW_BAM_DIR (bucket w) fs) as Hr.
  pose proof (download_bam_notes sample_id RAW_BAM_DIR (bucket w) fs) as Hn.
  destruct (download_bam sample_id RAW_BAM_DIR (bucket w) fs)
    as [[l1 fs1] bp]. simpl in Hr, Hn.
  assert (Hl1 : forall s, FastqCompleted s ∉ l1).
  { intros s H. apply Hn in H. discriminate H. }
  destruct Hr as [-> | ->].
  2:{ simpl. split; [reflexivity|]. intros _. split.
      - intros H. apply elem_of_app in H as [H|H];
          [destruct (Hl1 _ H)|].
        apply list_elem_of_singleton in H. discriminate H.
      - intros [[? [=]] _]. }
  rewrite final_path_truthy. cbn [negb default from_option id].
  destruct (run_bam2fq_cases (final_path RAW_BAM_DIR sample_id)
              (path_join FASTQ_DIR sample_id) (bam2fq w))
    as [(l2 & e2 & E) | [(l2 & E & Hl2) | (l2 & E & La & Ex & Hl2)]].
  - rewrite E. split; [reflexivity|]. intros _. simpl. split.
    + intros H. apply elem_of_app in H as [H|H]; [destruct (Hl1 _ H)|].
      apply elem_of_cons in H as [H|H]; [discriminate H|].
      exfalso. revert E H. unfold run_bam2fq.
      destruct (fastq_names _ _), (launched (bam2fq w)); simpl.
      * destruct (exit_code (bam2fq w) =? 0); discriminate.
      * intros [= <- _] H. inversion H.
    + intros (_ & La & Ex). exfalso. revert E. unfold run_bam2fq.
      destruct (fastq_names _ _). rewrite La, Ex. discriminate.
  - rewrite E. split; [reflexivity|]. intros se. simpl.
    replace (negb se && true) with (negb se) by (destruct se; reflexivity).
    cbn [orb]. split.
    + intros H. apply elem_of_app in H as [H|H]; [destruct (Hl1 _ H)|].
      apply elem_of_cons in H as [H|H]; [discriminate H|].
      apply elem_of_app in H as [H|H].
      * apply Hl2 in H. discriminate H.
      * apply list_elem_of_singleton in H. discriminate H.
    + intros (_ & La & Ex). exfalso. revert E. unfold run_bam2fq.
      destruct (fastq_names _ _). rewrite La, Ex. discriminate.
  - rewrite E.
    destruct (fastq_names_truthy (final_path RAW_BAM_DIR sample_id)
                (path_join FASTQ_DIR sample_id)) as [T1 T2].
    rewrite T1. cbn [negb orb andb]. rewrite T2. cbn [negb].
    split; [reflexivity|]. intros se.
    replace (if negb se && negb (truthy_str (if se then None else Some
               (fastq_names (final_path RAW_BAM_DIR sample_id)
                  (path_join FASTQ_DIR sample_id)).2))
             then (l1 ++ Converting sample_id :: l2 ++ [NoFastq sample_id],
                   bam2fq_effect w fs1, Ok tt)
             else (l1 ++ Converting sample_id :: l2
                   ++ [FastqCompleted sample_id], bam2fq_effect w fs1, Ok tt))
      with (l1 ++ Converting sample_id :: l2 ++ [FastqCompleted sample_id],
            bam2fq_effect w fs1, @Ok unit tt)
      by (destruct se; [reflexivity|cbn [negb andb]; rewrite T2; reflexivity]).
    cbn [fst snd]. split; [intros _; eauto|]. intros _.
    apply elem_of_app. right. apply list_elem_of_further.
    apply elem_of_app. right. apply list_elem_of_here.
Qed.

Lemma driver_takes_failure_for_success_witness :
  Cases.raw_bam_on_disk !! final_path RAW_BAM_DIR Scenarios.S1
    = Some (txt "BAM")
  /\ snd (run_parabricks_fq2bam Scenarios.S1 (fq2bam Cases.stages_fail))
     = Ok (stderr Scenarios.fq2bam_failed_run, false)
  /\ (main Scenarios.S1 false Cases.stages_fail Cases.raw_bam_on_disk).2
     = Ok tt
  /\ Note (VcfCompleted Scenarios.S1)
       ∈ (main Scenarios.S1 false Cases.stages_fail
            Cases.raw_bam_on_disk).1.1
  /\ (main Scenarios.S1 false Cases.stages_fail Cases.raw_bam_on_disk).1.2
       !! final_path RAW_BAM_DIR Scenarios.S1 = None.
Proof.
  assert (Hs : Tool (StartStage Fq2bam)
                 ∈ (main Scenarios.S1 false Cases.stages_fail
                      Cases.raw_bam_on_disk).1.1).
  { apply (list_elem_of_lookup_2 _ 2%nat). vm_compute. reflexivity. }
  assert (Hr : (main Scenarios.S1 false Cases.stages_fail
                  Cases.raw_bam_on_disk).2 = Ok tt)
    by (vm_compute; reflexivity).
  destruct (driver_takes_failure_for_success Scenarios.S1 false
              Cases.stages_fail Cases.raw_bam_on_disk Hs)
    as (_ & _ & Hend).
  destruct (Hend Hr) as (H1 & H2 & _).
  split; [vm_compute; reflexivity|].
  split; [vm_compute; reflexivity|].
  split; [exact Hr|]. split; [exact H1|exact H2].
Defined.

End DriverFacts.

(** ** The kinship table *)

Module KinshipFacts.
Import PyStr Kinship.

Lemma dict_zip_keys_aux {V} (kvs : list (text * V)) (d : gmap text V) k :
  is_Some (fold_left (fun d kv => <[kv.1 := kv.2]> d) kvs d !! k) ->
  is_Some (d !! k) \/ k ∈ kvs.*1.
Proof.
  revert d. induction kvs as [|[k' v'] kvs IH]; intros d H; simpl in *.
  - left. exact H.
  - destruct (IH _ H) as [H'|H'].
    + destruct (decide (k' = k)) as [->|Hne].
      * right. apply list_elem_of_here.
      * rewrite lookup_insert_ne in H' by exact Hne. left. exact H'.
    + right. apply list_elem_of_further. exact H'.
Qed.

Lemma dict_zip_keys {V} (keys : list text) (values : list V) k :
  is_Some (dict_zip keys values !! k) -> k ∈ keys.
Proof.
  intros H. apply dict_zip_keys_aux in H as [H|H].
  - rewrite lookup_empty in H. destruct H. discriminate.
  - revert values H. induction keys as [|a keys IH]; intros values H.
    + inversion H.
    + destruct values as [|v values]; [inversion H|]. simpl in H.
      apply elem_of_cons in H as [->|H];
        [apply list_elem_of_here|apply list_elem_of_further; eauto].
Qed.

Lemma dict_zip_other {V} (keys : list text) (values : list V)
    (d : gmap text V) k :
  k ∉ keys ->
  fold_left (fun d kv => <[kv.1 := kv.2]> d) (zip keys values) d !! k
  = d !! k.
Proof.
  revert values d. induction keys as [|a keys IH]; intros values d H;
    [reflexivity|].
  destruct values as [|v values]; [reflexivity|].
  apply not_elem_of_cons in H as [Hne H]. simpl.
  rewrite IH by exact H. apply lookup_insert_ne. congruence.
Qed.

Lemma dict_zip_self_aux (keys : list text) (d : gmap text cell) k :
  k ∈ keys ->
  fold_left (fun d kv => <[kv.1 := kv.2]> d) (zip keys (map Some keys)) d
    !! k = Some (Some k).
Proof.
  revert d. induction keys as [|a keys IH]; intros d H; [inversion H|].
  simpl. destruct (decide (k ∈ keys)) as [Hin|Hnin]; [apply IH, Hin|].
  apply elem_of_cons in H as [->|H]; [|contradiction].
  rewrite dict_zip_other by exact Hnin. apply lookup_insert_eq.
Qed.

Lemma writerow_ok (fieldnames : list text) (row : gmap text cell) :
  (forall k, is_Some (row !! k) -> k ∈ fieldnames) ->
  writerow fieldnames row
  = Ok (map (fun key => rendered (default (Some []) (row !! key)))
          fieldnames).
Proof.
  intros H. unfold writerow.
  replace (forallb _ _) with true; [reflexivity|].
  symmetry. apply forallb_forall. intros k Hk.
  apply bool_decide_eq_true. apply H.
  apply list_elem_of_In in Hk.
  apply list_elem_of_fmap in Hk as ([k' v] & -> & Hkv).
  apply elem_of_map_to_list in Hkv. simpl. eauto.
Qed.

Lemma writeheader_ok (fieldnames : list text) : writeheader fieldnames = Ok fieldnames.
Proof.
  unfold writeheader. rewrite writerow_ok.
  - f_equal. transitivity (map id fieldnames); [|apply map_id].
    apply map_ext_in. intros k Hk. apply list_elem_of_In in Hk.
    unfold dict_zip. rewrite (dict_zip_self_aux _ _ _ Hk). reflexivity.
  - intros k Hk. exact (dict_zip_keys _ _ _ Hk).
Qed.

Lemma new_fields_distinct :
  txt "Lat1" <> txt "Long1" /\ txt "Lat1" <> txt "Lat2"
  /\ txt "Lat1" <> txt "Long2" /\ txt "Long1" <> txt "Lat2"
  /\ txt "Long1" <> txt "Long2" /\ txt "Lat2" <> txt "Long2".
Proof. repeat split; intros H; vm_compute in H; discriminate H. Qed.

Lemma merged_row_spec (latlong : latlong_map) (base : list text) line :
  let fieldnames := base ++ NEW_FIELDS in
  let c := coordinates latlong fieldnames line in
  (forall k, is_Some (merged_row latlong fieldnames line !! k) ->
             k ∈ fieldnames)
  /\ merged_row latlong fieldnames line !! txt "Lat1" = Some c.1.1
  /\ merged_row latlong fieldnames line !! txt "Long1" = Some c.1.2
  /\ merged_row latlong fieldnames line !! txt "Lat2" = Some c.2.1
  /\ merged_row latlong fieldnames line !! txt "Long2" = Some c.2.2.
Proof.
  intros fieldnames c. subst c. unfold coordinates, merged_row.
  fold fieldnames.
  set (row := dict_zip (take (length (split line)) fieldnames)
                (map Some (split line))).
  destruct (default NA_pair (latlong !! get row (txt "IID1")))
    as [lat1 long1].
  destruct (default NA_pair (latlong !! get row (txt "IID2")))
    as [lat2 long2].
  destruct new_fields_distinct as (D1 & D2 & D3 & D4 & D5 & D6).
  cbn [fst snd]. split; [|repeat split].
  - intros k Hk.
    assert (Hnew : forall f, f ∈ NEW_FIELDS -> f ∈ fieldnames).
    { intros f Hf. apply elem_of_app. right. exact Hf. }
    destruct (decide (k = txt "Long2")) as [->|N4].
    { apply Hnew. do 3 apply list_elem_of_further. apply list_elem_of_here. }
    rewrite lookup_insert_ne in Hk by congruence.
    destruct (decide (k = txt "Lat2")) as [->|N3].
    { apply Hnew. do 2 apply list_elem_of_further. apply list_elem_of_here. }
    rewrite lookup_insert_ne in Hk by congruence.
    destruct (decide (k = txt "Long1")) as [->|N2].
    { apply Hnew. apply list_elem_of_further, list_elem_of_here. }
    rewrite lookup_insert_ne in Hk by congruence.
    destruct (decide (k = txt "Lat1")) as [->|N1].
    { apply Hnew. apply list_elem_of_here. }
    rewrite lookup_insert_ne in Hk by congruence.
    apply dict_zip_keys in Hk.
    apply elem_of_take in Hk as (i & Hi & _).
    exact (list_elem_of_lookup_2 _ _ _ Hi).
  - rewrite !lookup_insert_ne by congruence. apply lookup_insert_eq.
  - rewrite !lookup_insert_ne by congruence. apply lookup_insert_eq.
  - rewrite !lookup_insert_ne by congruence. apply lookup_insert_eq.
  - apply lookup_insert_eq.
Qed.

Lemma merge_lines_spec (latlong : latlong_map) (base : list text) lines :
  exists data,
    merge_lines latlong (base ++ NEW_FIELDS) lines = (data, Ok tt)
    /\ Forall2
         (fun line r =>
            length r = length (base ++ NEW_FIELDS)
            /\ drop (length base) r
               = map rendered
                   [ (coordinates latlong (base ++ NEW_FIELDS) line).1.1;
                     (coordinates latlong (base ++ NEW_FIELDS) line).1.2;
                     (coordinates latlong (base ++ NEW_FIELDS) line).2.1;
                     (coordinates latlong (base ++ NEW_FIELDS) line).2.2 ])
         (List.filter Batch.nonblank lines) data.
Proof.
  induction lines as [|line rest (data & E & IH)].
  - exists []. split; [reflexivity|constructor].
  - cbn [merge_lines List.filter]. unfold Batch.nonblank at 1.
    destruct (strip line) as [|a sl] eqn:Es; [exists data; auto|].
    destruct (merged_row_spec latlong base line)
      as (Hk & H1 & H2 & H3 & H4).
    rewrite (writerow_ok _ _ Hk), E. eexists. split; [reflexivity|].
    constructor; [|exact IH]. split; [apply length_map|].
    rewrite map_app.
    match goal with
    | |- drop (length base) (map ?f base ++ _) = _ =>
        rewrite <- (length_map f base), drop_app_length
    end.
    assert (Hm : forall f : text -> text,
              map f NEW_FIELDS
              = [ f (txt "Lat1"); f (txt "Long1");
                  f (txt "Lat2"); f (txt "Long2") ]) by reflexivity.
    rewrite Hm, H1, H2, H3, H4. reflexivity.
Qed.

(** X17: [merge_kinship] never fails on a key and pads every row: the
    first row written is the header, the names of the first line of the
    kinship file followed by the four new ones; one row follows for each
    later line that is not blank, in order; every row has as many cells
    as the header, whatever the number of fields of its line; and its
    last four cells are the coordinates found for the identifiers of the
    line, "NA" where the table has none and the empty string where the
    table has [None]. *)
Theorem kinship_rows_are_padded (kin_lines : list text)
    (latlong : latlong_map) :
  exists data,
    merge_kinship kin_lines latlong
    = (fieldnames_of kin_lines :: data, Ok tt)
    /\ Forall2
         (fun line r =>
            length r = length (fieldnames_of kin_lines)
            /\ drop (length r - 4) r
               = map rendered
                   [ (coordinates latlong (fieldnames_of kin_lines)
                        line).1.1;
                     (coordinates latlong (fieldnames_of kin_lines)
                        line).1.2;
                     (coordinates latlong (fieldnames_of kin_lines)
                        line).2.1;
                     (coordinates latlong (fieldnames_of kin_lines)
                        line).2.2 ])
         (List.filter Batch.nonblank (tl kin_lines)) data.
Proof.
  unfold merge_kinship. rewrite writeheader_ok. unfold fieldnames_of.
  set (base := split (strip (lstrip_char "#" (hd [] kin_lines)))).
  destruct (merge_lines_spec latlong base (tl kin_lines))
    as (data & -> & H).
  exists data. split; [reflexivity|].
  eapply Forall2_impl; [exact H|]. cbv beta.
  intros line r [Hl Hd]. split; [exact Hl|].
  rewrite Hl, length_app. cbn [NEW_FIELDS length].
  replace (length base + 4 - 4)%nat with (length base) by lia.
  exact Hd.
Qed.

End KinshipFacts.

(** ** Disk throughput *)

Module DiskFacts.
Import PyStr PyNum Quality Probes DiskPeaks.

Lemma float_gt_trans b f :
  float_gt b f = true -> float_gt f (FFinite 0) = true ->
  float_gt b (FFinite 0) = true.
Proof.
  destruct b as [x|nb|], f as [y|na|]; simpl; try discriminate.
  - intros H1 H2. apply negb_true_iff in H1, H2.
    apply negb_true_iff. destruct (Qle_bool x 0) eqn:E; [|reflexivity].
    apply Qle_bool_iff in E.
    assert (Hy : ~ (y <= 0)%Q).
    { intros H. apply Qle_bool_iff in H. congruence. }
    assert (Hxy : (x <= y)%Q).
    { apply Qle_trans with 0%Q; [exact E|].
      apply Qlt_le_weak, Qnot_le_lt. exact Hy. }
    apply Qle_bool_iff in Hxy. congruence.
  - intros -> H. discriminate H.
  - auto.
  - destruct nb; [discriminate|]. auto.
Qed.

Lemma py_max_peak a b : is_peak a -> is_peak (py_max a b).
Proof.
  intros [-> | (f & -> & Hf)]; unfold py_max, val_gt.
  - destruct (float_gt b (FFinite (inject_Z 0))) eqn:E; [|left; reflexivity].
    right. exists b. split; [reflexivity|exact E].
  - destruct (float_gt b f) eqn:E; right.
    + exists b. split; [reflexivity|]. exact (float_gt_trans _ _ E Hf).
    + exists f. split; [reflexivity|exact Hf].
Qed.

Lemma iostat_loop_peaks lines pr pw r w :
  is_peak pr -> is_peak pw ->
  iostat_loop lines pr pw = Ok (r, w) -> is_peak r /\ is_peak w.
Proof.
  revert pr pw. induction lines as [|line rest IH]; intros pr pw Hr Hw.
  - simpl. intros [= <- <-]. auto.
  - cbn [iostat_loop].
    destruct (_ && _); [|apply IH; assumption].
    destruct (index (split line) 2) as [p2|]; [|discriminate]. cbn.
    destruct (py_float p2) as [x|]; [|discriminate]. cbn.
    destruct (index (split line) 3) as [p3|]; [|discriminate]. cbn.
    destruct (py_float p3) as [y|]; [|discriminate]. cbn.
    apply IH; apply py_max_peak; assumption.
Qed.

(** X18: [get_disk_io] answers [(None, None)] after logging one error,
    or, without logging, two peaks each of which is the integer 0 or a
    float above 0: a reading that is negative, zero or not a number
    never becomes a peak. *)
Theorem disk_peaks_are_positive_or_zero sample_id found iostat :
  (snd (get_disk_io sample_id found iostat) = (PNone, PNone)
   /\ exists site subj e,
        fst (get_disk_io sample_id found iostat)
        = [LogError site subj e []])
  \/ (fst (get_disk_io sample_id found iostat) = []
      /\ is_peak (fst (snd (get_disk_io sample_id found iostat)))
      /\ is_peak (snd (snd (get_disk_io sample_id found iostat)))).
Proof.
  unfold get_disk_io. destruct found; simpl; [|left; eauto].
  destruct iostat as [out|]; [|left; eauto].
  destruct (iostat_loop _ _ _) as [[r w]|e] eqn:E; [|left; eauto].
  right. split; [reflexivity|]. simpl.
  eapply iostat_loop_peaks; [| |exact E]; left; reflexivity.
Qed.

End DiskFacts.

(** ** The table of coordinates *)

Module EcotypesFacts.
Import PyStr Kinship Ecotypes KinshipFacts.

Lemma fold_none_lookup (keys : list text) (d : gmap text cell) k :
  is_Some (fold_left (fun d key => <[key := None]> d) keys d !! k)
  <-> is_Some (d !! k) \/ k ∈ keys.
Proof.
  revert d. induction keys as [|a keys IH]; intros d; simpl.
  - split; [auto|]. intros [H|H]; [exact H|inversion H].
  - rewrite IH, elem_of_cons. split.
    + intros [H|H]; [|auto].
      destruct (decide (a = k)) as [->|Hne]; [auto|].
      rewrite lookup_insert_ne in H by exact Hne. auto.
    + intros [H | [-> | H]]; [|left|auto].
      * left. destruct (decide (a = k)) as [->|Hne].
        -- rewrite lookup_insert_eq. eauto.
        -- rewrite lookup_insert_ne by exact Hne. exact H.
      * rewrite lookup_insert_eq. eauto.
Qed.

Lemma dict_zip_some_aux {V} (kvs : list (text * V)) (d : gmap text V) k :
  is_Some (d !! k) \/ k ∈ kvs.*1 ->
  is_Some (fold_left (fun d kv => <[kv.1 := kv.2]> d) kvs d !! k).
Proof.
  revert d. induction kvs as [|[k' v'] kvs IH]; intros d H; simpl in *.
  - destruct H as [H|H]; [exact H|inversion H].
  - apply IH. destruct H as [H|H].
    + left. destruct (decide (k' = k)) as [->|Hne].
      * rewrite lookup_insert_eq. eauto.
      * rewrite lookup_insert_ne by exact Hne. exact H.
    + apply elem_of_cons in H as [->|H]; [|auto].
      left. rewrite lookup_insert_eq. eauto.
Qed.

Lemma zip_keys_take {V} (keys : list text) (values : list V) :
  (zip keys values).*1 = take (length values) keys.
Proof.
  revert values. induction keys as [|a keys IH]; intros values.
  - destruct values; reflexivity.
  - destruct values as [|v values]; [reflexivity|]. simpl.
    f_equal. apply IH.
Qed.

(** A row of the reader has exactly the field names as keys. *)
Lemma reader_row_keys (fieldnames : list text) (row : list text) k :
  is_Some (reader_row fieldnames row !! k) <-> k ∈ fieldnames.
Proof.
  unfold reader_row. rewrite fold_none_lookup. split.
  - intros [H|H].
    + exact (dict_zip_keys _ _ _ H).
    + apply list_elem_of_lookup in H as [i Hi].
      rewrite lookup_drop in Hi. exact (list_elem_of_lookup_2 _ _ _ Hi).
  - intros H. rewrite <- (take_drop (length row) fieldnames) in H.
    apply elem_of_app in H as [H|H]; [left|right; exact H].
    apply dict_zip_some_aux. right.
    rewrite zip_keys_take, length_map. exact H.
Qed.

Lemma load_rows_spec (fieldnames : list text) (rows : list (list text))
    (latlong : latlong_map) :
  Forall (fun k => k ∈ fieldnames) COLUMNS ->
  exists result,
    load_rows fieldnames rows latlong = Loaded result
    /\ forall k,
         is_Some (result !! k)
         <-> is_Some (latlong !! k)
             \/ exists row : list text,
                  row ∈ rows /\ row <> []
                  /\ get (reader_row fieldnames row) (txt "id") = k.
Proof.
  intros Hc.
  assert (Hid : txt "id" ∈ fieldnames /\ txt "latitude" ∈ fieldnames
                /\ txt "longitude" ∈ fieldnames).
  { inversion Hc as [|? ? H1 Hc1]; subst.
    inversion Hc1 as [|? ? H2 Hc2]; subst.
    inversion Hc2 as [|? ? H3 _]; subst. auto. }
  destruct Hid as (Hi & Hla & Hlo).
  revert latlong. induction rows as [|row rest IH]; intros latlong.
  - exists latlong. split; [reflexivity|]. intros k. split; [auto|].
    intros [H | (row & Hr & _)]; [exact H|inversion Hr].
  - destruct row as [|c row].
    + destruct (IH latlong) as (result & E & Hk).
      exists result. split; [exact E|]. intros k. rewrite Hk.
      split; intros [H | (row & Hr & Hne & Hg)]; auto; right.
      * exists row. split; [apply list_elem_of_further, Hr|auto].
      * apply elem_of_cons in Hr as [->|Hr]; [contradiction|eauto].
    + cbn [load_rows].
      destruct (proj2 (reader_row_keys fieldnames (c :: row) _) Hla)
        as [la ->].
      destruct (proj2 (reader_row_keys fieldnames (c :: row) _) Hlo)
        as [lo ->].
      destruct (proj2 (reader_row_keys fieldnames (c :: row) _) Hi)
        as [i Ei]. rewrite Ei.
      destruct (IH (<[i := (la, lo)]> latlong)) as (result & E & Hk).
      exists result. split; [exact E|]. intros k. rewrite Hk.
      assert (Hg : get (reader_row fieldnames (c :: row)) (txt "id") = i).
      { unfold get. rewrite Ei. reflexivity. }
      split.
      * intros [H | (r & Hr & Hne & Hgr)].
        -- destruct (decide (i = k)) as [<-|Hik].
           ++ right. exists (c :: row).
              split; [apply list_elem_of_here|]. split; [discriminate|].
              exact Hg.
           ++ rewrite lookup_insert_ne in H by exact Hik. auto.
        -- right. exists r. split; [apply list_elem_of_further, Hr|auto].
      * intros [H | (r & Hr & Hne & Hgr)].
        -- left. destruct (decide (i = k)) as [<-|Hik].
           ++ rewrite lookup_insert_eq. eauto.
           ++ rewrite lookup_insert_ne by exact Hik. exact H.
        -- apply elem_of_cons in Hr as [->|Hr].
           ++ left. rewrite Hg in Hgr. subst k.
              rewrite lookup_insert_eq. eauto.
           ++ right. eauto.
Qed.

Lemma load_rows_missing (fieldnames : list text) (rows : list (list text))
    (latlong : latlong_map) :
  ~ Forall (fun k => k ∈ fieldnames) COLUMNS ->
  Exists (fun row => row <> []) rows ->
  exists key, load_rows fieldnames rows latlong = KeyError key
              /\ key ∈ COLUMNS /\ key ∉ fieldnames.
Proof.
  intros Hc Hex. revert latlong.
  induction Hex as [row rest Hne | row rest Hex IH]; intros latlong.
  - destruct row as [|c row]; [contradiction|]. cbn [load_rows].
    destruct (reader_row fieldnames (c :: row) !! txt "latitude")
      as [la|] eqn:Ela.
    2:{ exists (txt "latitude"). split; [reflexivity|].
        split; [apply list_elem_of_further, list_elem_of_here|].
        intros H. apply reader_row_keys with (row := c :: row) in H.
        rewrite Ela in H. destruct H. discriminate. }
    destruct (reader_row fieldnames (c :: row) !! txt "longitude")
      as [lo|] eqn:Elo.
    2:{ exists (txt "longitude"). split; [reflexivity|].
        split; [do 2 apply list_elem_of_further; apply list_elem_of_here|].
        intros H. apply reader_row_keys with (row := c :: row) in H.
        rewrite Elo in H. destruct H. discriminate. }
    destruct (reader_row fieldnames (c :: row) !! txt "id")
      as [i|] eqn:Ei.
    2:{ exists (txt "id"). split; [reflexivity|].
        split; [apply list_elem_of_here|].
        intros H. apply reader_row_keys with (row := c :: row) in H.
        rewrite Ei in H. destruct H. discriminate. }
    exfalso. apply Hc. unfold COLUMNS.
    repeat (apply List.Forall_cons;
            [eapply reader_row_keys; eauto|]).
    apply List.Forall_nil.
  - destruct row as [|c row]; [apply IH|]. cbn [load_rows].
    destruct (reader_row fieldnames (c :: row) !! txt "latitude")
      as [la|] eqn:Ela.
    2:{ exists (txt "latitude"). split; [reflexivity|].
        split; [apply list_elem_of_further, list_elem_of_here|].
        intros H. apply reader_row_keys with (row := c :: row) in H.
        rewrite Ela in H. destruct H. discriminate. }
    destruct (reader_row fieldnames (c :: row) !! txt "longitude")
      as [lo|] eqn:Elo.
    2:{ exists (txt "longitude"). split; [reflexivity|].
        split; [do 2 apply list_elem_of_further; apply list_elem_of_here|].
        intros H. apply reader_row_keys with (row := c :: row) in H.
        rewrite Elo in H. destruct H. discriminate. }
    destruct (reader_row fieldnames (c :: row) !! txt "id")
      as [i|] eqn:Ei.
    2:{ exists (txt "id"). split; [reflexivity|].
        split; [apply list_elem_of_here|].
        intros H. apply reader_row_keys with (row := c :: row) in H.
        rewrite Ei in H. destruct H. discriminate. }
    apply IH.
Qed.

(** X19: [load_ecotypes] fails with [KeyError], on a column it needs and
    the header lacks, exactly when the header lacks one of "id",
    "latitude" and "longitude" and some later row has a field; otherwise
    it returns a table whose keys are the identifiers of the rows that
    have a field, [None] for a row too short to reach the "id" column. *)
Theorem load_ecotypes_needs_its_columns (header : list text)
    (data : list (list text)) :
  (Forall (fun k => k ∈ header) COLUMNS \/ Forall (fun row => row = []) data
   -> exists latlong,
        load_ecotypes (header :: data) = Loaded latlong
        /\ forall k,
             is_Some (latlong !! k)
             <-> exists row : list text,
                   row ∈ data /\ row <> []
                   /\ get (reader_row header row) (txt "id") = k)
  /\ (~ Forall (fun k => k ∈ header) COLUMNS ->
      Exists (fun row => row <> []) data ->
      exists key,
        load_ecotypes (header :: data) = KeyError key
        /\ key ∈ COLUMNS /\ key ∉ header).
Proof.
  split.
  - intros [Hc | He].
    + destruct (load_rows_spec header data ∅ Hc) as (result & E & Hk).
      exists result. split; [exact E|]. intros k. rewrite Hk.
      rewrite lookup_empty. split; [|auto].
      intros [[? [=]] | H]. exact H.
    + exists ∅. split.
      * cbn [load_ecotypes]. generalize (∅ : latlong_map).
        induction He as [|row rest -> _ IH]; intros l; [reflexivity|].
        apply IH.
      * intros k. rewrite lookup_empty. split; [intros [? [=]]|].
        intros (row & Hr & Hne & _).
        rewrite List.Forall_forall in He.
        apply list_elem_of_In in Hr. destruct (Hne (He _ Hr)).
  - intros Hc Hex. exact (load_rows_missing header data ∅ Hc Hex).
Qed.

End EcotypesFacts.

(** ** Installing the packages *)

Module InstallFacts.
Import PyStr Install.

Lemma text_eqb_eq s t : text_eqb s t = true <-> s = t.
Proof. unfold text_eqb. apply bool_decide_eq_true. Qed.

Lemma subscript_entry_name n v :
  subscript (entry n v) (txt "name") = Done (JString n).
Proof. reflexivity. Qed.

Lemma subscript_entry_version n v :
  subscript (entry n v) (txt "version") = Done (JString v).
Proof. reflexivity. Qed.

(** X20: on a listing of well-formed entries the loop of
    [install_package] raises nothing, and it comes to its [return]
    exactly when some entry has the name asked for and, if a version is
    asked for, that version; an empty version, as in "name==", asks for
    none. *)
Theorem listed_as_required_iff base required (entries : list (text * text)) :
  exists b,
    listed_as_required base required
      (map (fun e => entry e.1 e.2) entries) = Done b
    /\ (b = true
        <-> exists n v,
              (n, v) ∈ entries /\ n = base
              /\ (truthy required = false \/ required = Some v)).
Proof.
  induction entries as [|[n v] entries (b & E & IH)].
  - exists false. split; [reflexivity|]. split; [discriminate|].
    intros (n & v & H & _). inversion H.
  - cbn [map listed_as_required fst snd].
    rewrite subscript_entry_name. cbn [equals_str].
    destruct (text_eqb n base) eqn:En.
    + apply text_eqb_eq in En. subst n.
      destruct (truthy required) eqn:Et; cbn [negb].
      * rewrite subscript_entry_version. cbn [equals_str].
        destruct required as [[|c r]|]; try discriminate Et.
        cbn [default from_option id]. destruct (text_eqb v (c :: r)) eqn:Ev.
        -- apply text_eqb_eq in Ev. subst v. exists true.
           split; [reflexivity|]. split; [|reflexivity]. intros _.
           exists base, (c :: r).
           split; [apply list_elem_of_here|auto].
        -- exists b. split; [exact E|]. rewrite IH. split.
           ++ intros (n' & v' & H & Hn & Hv). exists n', v'.
              split; [apply list_elem_of_further, H|auto].
           ++ intros (n' & v' & H & Hn & Hv).
              apply elem_of_cons in H as [H|H]; [|eauto 6].
              injection H as -> ->. destruct Hv as [Hv|Hv];
                [discriminate Hv|]. injection Hv as <-.
              assert (text_eqb (c :: r) (c :: r) = true)
                by (apply text_eqb_eq; reflexivity). congruence.
      * exists true. split; [reflexivity|]. split; [|reflexivity].
        intros _. exists base, v.
        split; [apply list_elem_of_here|auto].
    + exists b. split; [exact E|]. rewrite IH. split.
      * intros (n' & v' & H & Hn & Hv). exists n', v'.
        split; [apply list_elem_of_further, H|auto].
      * intros (n' & v' & H & Hn & Hv).
        apply elem_of_cons in H as [H|H]; [|eauto 6].
        injection H as -> ->. subst base.
        assert (text_eqb n n = true) by (apply text_eqb_eq; reflexivity).
        congruence.
Qed.

Lemma parse_spec_raises p e :
  parse_spec p = Raised e -> e = Base ValueError.
Proof.
  unfold parse_spec. destruct (contains p (txt "==")); [|discriminate].
  destruct (split_sep (txt "==") p) as [|a [|b [|c l]]];
    congruence.
Qed.

Lemma subscript_raises pkg key e :
  subscript pkg key = Raised e -> e = TypeError \/ e = KeyError.
Proof.
  destruct pkg; simpl; try (intros [= <-]; auto).
  destruct (member key members); [discriminate|]. intros [= <-]. auto.
Qed.

Lemma listed_as_required_raises base required pkgs e :
  listed_as_required base required pkgs = Raised e ->
  e = TypeError \/ e = KeyError.
Proof.
  induction pkgs as [|pkg rest IH]; [discriminate|].
  cbn [listed_as_required].
  destruct (subscript pkg (txt "name")) as [name|e1] eqn:E1.
  2:{ intros [= <-]. exact (subscript_raises _ _ _ E1). }
  destruct (equals_str name base); [|exact IH].
  destruct (negb (truthy required)); [discriminate|].
  destruct (subscript pkg (txt "version")) as [version|e2] eqn:E2.
  2:{ intros [= <-]. exact (subscript_raises _ _ _ E2). }
  destruct (equals_str version (default [] required));
    [discriminate|exact IH].
Qed.

Lemma listing_raises base required v e :
  match iterate v with
  | Raised e => Raised e
  | Done pkgs => listed_as_required base required pkgs
  end = Raised e ->
  e = TypeError \/ e = KeyError.
Proof.
  destruct (iterate v) as [pkgs|e1] eqn:E1.
  - apply listed_as_required_raises.
  - intros [= <-]. left. destruct v; simpl in E1; congruence.
Qed.

(** The ways a call of [install_package] can go. *)
Lemma install_package_shapes package_name channel w :
  (exists e, install_package package_name channel w
             = ([Checking package_name], Raised e)
             /\ (e = Base ValueError \/ e = Base OSError))
  \/ (exists b, install_package package_name channel w
                = ([Checking package_name; RunList b;
                    InstallError package_name JSONDecodeError],
                   Raised (Base (SystemExit 1)))
                /\ listed w = None)
  \/ (exists b e, install_package package_name channel w
                  = ([Checking package_name; RunList b], Raised e)
                  /\ (e = TypeError \/ e = KeyError))
  \/ (exists b, install_package package_name channel w
                = ([Checking package_name; RunList b;
                    AlreadyInstalled package_name], Done tt))
  \/ (exists b c, install_package package_name channel w
                  = ([Checking package_name; RunList b;
                      NotInstalled package_name;
                      RunInstall package_name c;
                      InstalledIn package_name], Done tt)
                  /\ install_exit w = 0)
  \/ (exists b c, install_package package_name channel w
                  = ([Checking package_name; RunList b;
                      NotInstalled package_name;
                      RunInstall package_name c;
                      InstallError package_name (Base CalledProcessError)],
                     Raised (Base (SystemExit 1)))
                  /\ install_exit w <> 0).
Proof.
  unfold install_package, try_install.
  destruct (parse_spec package_name) as [[base required]|e] eqn:Ep.
  2:{ apply parse_spec_raises in Ep. subst e. left. eauto. }
  destruct (conda_found w); cbn [negb]; [|left; eauto].
  destruct (listed w) as [v|]; [|right; left; eauto].
  destruct (match iterate v with
            | Raised e => Raised e
            | Done pkgs => listed_as_required base required pkgs
            end) as [[|]|e] eqn:El.
  - do 3 right. left. eauto.
  - destruct (install_exit w =? 0) eqn:Ex.
    + apply Z.eqb_eq in Ex. do 4 right. left. eauto.
    + apply Z.eqb_neq in Ex. do 5 right. eauto.
  - do 2 right. left.
    destruct (listing_raises _ _ _ _ El) as [-> | ->]; eauto.
Qed.

Ltac in_list :=
  repeat first [apply list_elem_of_here | apply list_elem_of_further].

Ltac not_in_list H :=
  solve [repeat (apply elem_of_cons in H as [H|H]; [discriminate H|]);
         inversion H].

(** X21: [install_package] never lets a failed listing or a failed
    [conda install] out as such: it returns exactly when the package
    was found as required or [conda install] exited with 0, it leaves
    by [SystemExit(1)] exactly when it has logged the failure, and any
    other way out is an exception of the specification or of the shape
    of the listing, or [conda] missing.  [conda install] is never run
    for a package found as required. *)
Theorem install_package_exits_on_failure package_name channel w :
  (snd (install_package package_name channel w)
     <> Raised (Base CalledProcessError)
   /\ snd (install_package package_name channel w)
      <> Raised JSONDecodeError)
  /\ (snd (install_package package_name channel w) = Done tt
      <-> AlreadyInstalled package_name
            ∈ fst (install_package package_name channel w)
          \/ (InstalledIn package_name
                ∈ fst (install_package package_name channel w)
              /\ install_exit w = 0))
  /\ (snd (install_package package_name channel w)
        = Raised (Base (SystemExit 1))
      <-> exists e, InstallError package_name e
                      ∈ fst (install_package package_name channel w))
  /\ (forall e,
        snd (install_package package_name channel w) = Raised e ->
        e = Base (SystemExit 1) \/ e = Base ValueError
        \/ e = Base OSError \/ e = TypeError \/ e = KeyError)
  /\ (forall c,
        RunInstall package_name c
          ∈ fst (install_package package_name channel w) ->
        AlreadyInstalled package_name
          ∉ fst (install_package package_name channel w)).
Proof.
  destruct (install_package_shapes package_name channel w)
    as [(e & -> & [-> | ->])
       | [(b & -> & _)
         | [(b & e & -> & [-> | ->])
           | [(b & ->) | [(b & c & -> & Hx) | (b & c & -> & Hx)]]]]];
    cbn [fst snd];
    (split; [split; discriminate|]);
    (split;
     [split;
      [first [discriminate
             | intros _; left; solve [in_list]
             | intros _; right; split; [solve [in_list]|exact Hx]]
      |first [intros _; reflexivity
             | intros [H | [H _]]; not_in_list H]]|]);
    (split;
     [split;
      [first [discriminate | intros _; eexists; solve [in_list]]
      |first [intros _; reflexivity | intros [e' H]; not_in_list H]]|]);
    (split;
     [intros e' H; first [discriminate H | injection H as <-; auto 6]|]);
    intros c' H H'; first [not_in_list H | not_in_list H'].
Qed.

Lemma call_install_exit pkg w e :
  snd (call_install pkg w) = Raised e ->
  caught_as_Exception e = false ->
  e = Base (SystemExit 1)
  /\ forall p e', FailedToInstall p e' ∉ fst (call_install pkg w).
Proof.
  unfold call_install.
  destruct pkg as [n|n ch];
    [destruct (install_package_shapes n None w)
       as [(e0 & -> & [-> | ->])
          | [(b & -> & _)
            | [(b & e0 & -> & [-> | ->])
              | [(b & ->) | [(b & c & -> & Hx) | (b & c & -> & Hx)]]]]]
    |destruct (install_package_shapes n (Some ch) w)
       as [(e0 & -> & [-> | ->])
          | [(b & -> & _)
            | [(b & e0 & -> & [-> | ->])
              | [(b & ->) | [(b & c & -> & Hx) | (b & c & -> & Hx)]]]]]];
    cbn [fst snd]; intros H Hc;
    first [discriminate H | injection H as <-];
    first [discriminate Hc | idtac];
    (split; [reflexivity|]); intros p e' H; not_in_list H.
Qed.

Lemma call_install_no_failed pkg w p e :
  FailedToInstall p e ∉ fst (call_install pkg w).
Proof.
  unfold call_install.
  destruct pkg as [n|n ch];
    [destruct (install_package_shapes n None w)
       as [(e0 & -> & _)
          | [(b & -> & _)
            | [(b & e0 & -> & _)
              | [(b & ->) | [(b & c & -> & Hx) | (b & c & -> & Hx)]]]]]
    |destruct (install_package_shapes n (Some ch) w)
       as [(e0 & -> & _)
          | [(b & -> & _)
            | [(b & e0 & -> & _)
              | [(b & ->) | [(b & c & -> & Hx) | (b & c & -> & Hx)]]]]]];
    cbn [fst]; intros H; not_in_list H.
Qed.

(** Without a call that exits, the loop collects the packages whose call
    raised, in order, and ends normally. *)
Lemma install_loop_quiet packages failed :
  Forall (fun pw => exits pw = false) packages ->
  exists l,
    install_loop packages failed
    = (l, failed ++ map fst (List.filter raises packages), Done tt).
Proof.
  intros H. revert failed.
  induction H as [|[pkg w] rest Hx _ IH]; intros failed.
  - exists []. cbn. rewrite app_nil_r. reflexivity.
  - cbn [install_loop List.filter]. unfold exits, raises in *.
    cbn [fst snd] in *.
    destruct (call_install pkg w) as [l r]. cbn [snd] in *.
    destruct r as [[]|e].
    + destruct (IH failed) as (l' & ->). eexists. reflexivity.
    + apply negb_false_iff in Hx. rewrite Hx.
      destruct (IH (failed ++ [pkg])) as (l' & ->). eexists.
      cbn [map fst]. rewrite <- app_assoc. reflexivity.
Qed.

Lemma install_loop_exit pre pkg w post failed :
  Forall (fun pw => exits pw = false) pre ->
  exits (pkg, w) = true ->
  install_loop (pre ++ (pkg, w) :: post) failed
  = install_loop (pre ++ [(pkg, w)]) failed
  /\ snd (install_loop (pre ++ [(pkg, w)]) failed)
     = Raised (Base (SystemExit 1))
  /\ forall e, FailedToInstall pkg e
                 ∈ (install_loop (pre ++ [(pkg, w)]) failed).1.1 ->
       exists w' e', (pkg, w') ∈ pre
                     /\ snd (call_install pkg w') = Raised e'
                     /\ caught_as_Exception e' = true.
Proof.
  intros H Hx. revert failed.
  induction H as [|[p0 w0] rest Hx0 _ IH]; intros failed.
  - cbn [app install_loop]. unfold exits in Hx. cbn [fst snd] in Hx.
    pose proof (call_install_exit pkg w) as He.
    pose proof (call_install_no_failed pkg w) as Hn.
    destruct (call_install pkg w) as [l r]. cbn [fst snd] in *.
    destruct r as [[]|e]; [discriminate|].
    apply negb_true_iff in Hx. rewrite Hx.
    destruct (He e eq_refl Hx) as [-> _].
    split; [reflexivity|]. split; [reflexivity|].
    intros e H. destruct (Hn _ _ H).
  - cbn [app install_loop]. unfold exits in Hx0. cbn [fst snd] in Hx0.
    pose proof (call_install_no_failed p0 w0) as Hn.
    destruct (call_install p0 w0) as [l r] eqn:Ec. cbn [fst snd] in *.
    destruct r as [[]|e].
    + destruct (IH failed) as (E1 & E2 & E3). rewrite E1.
      destruct (install_loop (rest ++ [(pkg, w)]) failed)
        as [[l' f'] r']. cbn [fst snd] in *.
      split; [reflexivity|]. split; [exact E2|].
      intros e H. apply elem_of_app in H as [H|H];
        [destruct (Hn _ _ H)|].
      destruct (E3 _ H) as (w' & e' & Hin & Hr).
      exists w', e'. split; [apply list_elem_of_further, Hin|exact Hr].
    + apply negb_false_iff in Hx0. rewrite Hx0.
      destruct (IH (failed ++ [p0])) as (E1 & E2 & E3). rewrite E1.
      destruct (install_loop (rest ++ [(pkg, w)]) (failed ++ [p0]))
        as [[l' f'] r']. cbn [fst snd] in *.
      split; [reflexivity|]. split; [exact E2|].
      intros e0 H. apply elem_of_app in H as [H|H];
        [destruct (Hn _ _ H)|].
      apply elem_of_cons in H as [H|H].
      * injection H as -> ->. exists w0, e.
        split; [apply list_elem_of_here|]. rewrite Ec. auto.
      * destruct (E3 _ H) as (w' & e' & Hin & Hr).
        exists w', e'. split; [apply list_elem_of_further, Hin|exact Hr].
Qed.

Lemma join_names_spec failed :
  (exists p, p ∈ failed /\ is_tuple p = true)
  /\ join_names failed = Raised TypeError
  \/ Forall (fun p => is_tuple p = false) failed
     /\ join_names failed = Done (map name_of failed).
Proof.
  induction failed as [|[n|n c] rest IH].
  - right. split; [constructor|reflexivity].
  - cbn [join_names]. destruct IH as [((p & Hp & Ht) & ->) | (Hf & ->)].
    + left. split; [|reflexivity]. exists p.
      split; [apply list_elem_of_further, Hp|exact Ht].
    + right. split; [constructor; [reflexivity|exact Hf]|reflexivity].
  - left. split; [|reflexivity]. exists (Tuple n c).
    split; [apply list_elem_of_here|reflexivity].
Qed.

(** X22: [install_packages_sequentially] stops at the first package
    whose call exits: what follows it in the list changes nothing, the
    function ends by [SystemExit(1)], and the package is not recorded as
    failed by that call.  When no call exits, the packages whose call
    raised are collected in order, and the function ends quietly when
    there is none, with the warning when all of them are plain names,
    and by [TypeError], from [join], when one of them is a tuple. *)
Theorem first_exit_ends_the_sequence pre pkg w post :
  Forall (fun pw => exits pw = false) pre ->
  exits (pkg, w) = true ->
  (install_packages_sequentially (pre ++ (pkg, w) :: post)
   = install_packages_sequentially (pre ++ [(pkg, w)])
   /\ snd (install_packages_sequentially (pre ++ (pkg, w) :: post))
      = Raised (Base (SystemExit 1))
   /\ forall e,
        FailedToInstall pkg e
          ∈ fst (install_packages_sequentially (pre ++ (pkg, w) :: post)) ->
        exists w' e', (pkg, w') ∈ pre
                      /\ snd (call_install pkg w') = Raised e'
                      /\ caught_as_Exception e' = true)
  /\ (snd (install_packages_sequentially pre)
      = match map fst (List.filter raises pre) with
        | [] => Done Quiet
        | failed =>
            if existsb is_tuple failed then Raised TypeError
            else Done (Warned (map name_of failed))
        end).
Proof.
  intros H Hx. split.
  - destruct (install_loop_exit pre pkg w post [] H Hx) as (E1 & E2 & E3).
    unfold install_packages_sequentially. rewrite E1.
    destruct (install_loop (pre ++ [(pkg, w)]) []) as [[l f] r].
    cbn [fst snd] in *. subst r. cbn [fst snd].
    split; [reflexivity|]. split; [reflexivity|exact E3].
  - unfold install_packages_sequentially.
    destruct (install_loop_quiet pre [] H) as (l & ->). cbn [app].
    destruct (map fst (List.filter raises pre)) as [|p failed] eqn:Ef;
      [reflexivity|].
    destruct (join_names_spec (p :: failed))
      as [((q & Hq & Ht) & ->) | (Hf & ->)]; cbn [snd].
    + replace (existsb is_tuple (p :: failed)) with true; [reflexivity|].
      symmetry. apply existsb_exists. exists q.
      split; [apply list_elem_of_In, Hq|exact Ht].
    + replace (existsb is_tuple (p :: failed)) with false; [reflexivity|].
      symmetry. apply not_true_is_false. intros He.
      apply existsb_exists in He as (q & Hq & Ht).
      rewrite List.Forall_forall in Hf. rewrite (Hf _ Hq) in Ht.
      discriminate Ht.
Qed.

Lemma first_exit_ends_the_sequence_witness :
  install_packages_sequentially Cases.three_packages
  = install_packages_sequentially (take 2 Cases.three_packages)
  /\ snd (install_packages_sequentially Cases.three_packages)
     = Raised (Base (SystemExit 1)).
Proof.
  destruct (first_exit_ends_the_sequence
              (take 1 Cases.three_packages)
              (Name (txt "bwa==0.7.18"))
              {| conda_found := true; listed := Some (JArray []);
                 install_exit := 1 |}
              (drop 2 Cases.three_packages)) as [(H1 & H2 & _) _].
  - constructor; [vm_compute; reflexivity|constructor].
  - vm_compute. reflexivity.
  - split; [exact H1|exact H2].
Defined.

End InstallFacts.
